(** * DVSA driving-test reschedule bot: a shallow embedding and its properties

    The development follows the three source files:
    - [clicker.py]  (module [Clicker]): the OS-level click helper;
    - [util.py]     (module [Util]):    the page classifier, the captcha
                                        handler, the calendar scanner and the
                                        booking finalizer;
    - [main.py]     (module [Main]):    the [DVSABot] session.

    Python strings are modelled as [string] (ASCII text), the browser as an
    oracle indexed by the number of driver commands issued so far, and every
    effect of the program (driver commands, sleeps, mouse actions, SMS,
    assignments to [self.active]) as an entry of a trace. *)

From Stdlib Require Import String Ascii List ZArith QArith Bool Lia Arith.
Import ListNotations.

Open Scope string_scope.

(* ================================================================== *)
(** ** Python string operations used by the program *)
(* ================================================================== *)

Module PyStr.

(** [c.lower()] on one ASCII character: 'A'..'Z' are shifted by 32. *)
Definition lower_ascii (c : ascii) : ascii :=
  let n := nat_of_ascii c in
  if (65 <=? n)%nat && (n <=? 90)%nat then ascii_of_nat (n + 32) else c.

(** [s.lower()]. *)
Fixpoint lower (s : string) : string :=
  match s with
  | EmptyString => EmptyString
  | String c t => String (lower_ascii c) (lower t)
  end.

(** [needle in hay] for two strings: [needle] occurs at some offset. *)
Fixpoint contains (needle hay : string) : bool :=
  String.prefix needle hay
  || match hay with
     | EmptyString => false
     | String _ t => contains needle t
     end.

(** [x in l] for a list of strings. *)
Definition mem (x : string) (l : list string) : bool :=
  existsb (String.eqb x) l.

End PyStr.

(* ================================================================== *)
(** ** Effects: the browser, the clock and the trace *)
(* ================================================================== *)

(** The five page states of [check_firewall_and_queue] (the strings
    "queue", "firewall", "login_required", "error", "ok"). *)
Inductive PageState := queue | firewall | login_required | error | ok.

Definition PageState_eqb (a b : PageState) : bool :=
  match a, b with
  | queue, queue | firewall, firewall | login_required, login_required
  | error, error | ok, ok => true
  | _, _ => false
  end.

(** Python exceptions the program meets. *)
Inductive exn :=
| NoSuchElementException
| WebDriverException      (* any other Selenium failure *)
| ValueError
| TypeError
| IndexError
| SessionNotCreated       (* the browser could not be started *)
| GuiException            (* pyautogui failure, e.g. its fail-safe *)
| SmsException            (* the SMS provider failed *)
| OtherException.         (* anything else, e.g. the HTTP client's error
                             when the driver process is gone *)

(** Selenium locators; [Within p c] is [p.find_element(c)] and [Nth l i]
    is [find_elements(l)[i]]. *)
Inductive locator :=
| ById (id : string)
| ByClassName (cls : string)
| ByXPath (path : string)
| ByTagName (tag : string)
| Within (parent child : locator)
| Nth (l : locator) (i : nat).

(** What the program does to the outside world, in order. *)
Inductive event :=
| StartBrowser
| Get (url : string)
| ReadUrl
| ReadSource
| Find (l : locator)
| FindAll (l : locator)
| Click (l : locator)
| Clear (l : locator)
| SendKeys (l : locator) (c : ascii)
| GetText (l : locator)
| GetAttr (l : locator) (name : string)
| Refresh
| SwitchDefault
| SwitchFrame (l : locator)
| ExecScript (js : string)
| Screenshot (label : string)
| Quit
| Sleep (secs : Q)
| MoveTo (x y duration : Q)
| MouseDown
| MouseUp
| Sms (msg : string)
| Classified (st : PageState)   (* ghost: result of a page classification *)
| SetActive (b : bool).         (* ghost: assignment to [self.active] *)

(** A calendar day cell as the scanner sees it: its [class] attribute and,
    when the cell holds an [<a>] element, that link's [data-date]
    attribute ([get_attribute] gives [None] for a missing attribute). *)
Record Link := { data_date : option string }.
Record Cell := { class_attr : option string; link : option Link }.

(** The browser and the rest of the environment, as an oracle.  Time [t]
    is the number of external commands issued so far. *)
Record World := {
  w_url     : nat -> string;                      (* driver.current_url *)
  w_source  : nat -> string;                      (* driver.page_source *)
  w_present : nat -> locator -> bool;             (* find_element succeeds *)
  w_count   : nat -> locator -> nat;              (* len(find_elements) *)
  w_text    : nat -> locator -> string;           (* element.text *)
  w_attr    : nat -> locator -> string -> option string;
  w_calendar : nat -> option (list Cell);         (* the calendar grid *)
  w_fault   : nat -> bool;                        (* this command raises *)
  w_random  : nat -> Q;                           (* n-th random.random() *)
  w_slot_time : string -> option string;          (* local "%H:%M" of a slot label *)
  w_screenshot_error : nat -> exn                 (* what a failing screenshot raises *)
}.

Record State := {
  clock : nat;            (* external commands issued so far *)
  draws : nat;            (* random numbers drawn so far *)
  trace : list event      (* newest event first *)
}.

Inductive res (A : Type) :=
| Ok (a : A)
| Raise (e : exn)
| Diverge.                (* the computation ran out of fuel *)
Arguments Ok {A} a.
Arguments Raise {A} e.
Arguments Diverge {A}.

Definition M (A : Type) : Type := State -> res A * State.

Definition ret {A} (a : A) : M A := fun s => (Ok a, s).

Definition bind {A B} (m : M A) (f : A -> M B) : M B :=
  fun s =>
    match m s with
    | (Ok a, s') => f a s'
    | (Raise e, s') => (Raise e, s')
    | (Diverge, s') => (Diverge, s')
    end.

Definition raise {A} (e : exn) : M A := fun s => (Raise e, s).

Definition diverge {A} : M A := fun s => (Diverge, s).

(** [try: m  except <exceptions selected by h>: ...]; a handler re-raises
    what its [except] clauses do not name. *)
Definition try_except {A} (m : M A) (h : exn -> M A) : M A :=
  fun s =>
    match m s with
    | (Raise e, s') => h e s'
    | r => r
    end.

Declare Scope monad_scope.
Delimit Scope monad_scope with monad.
Notation "x <- m ;; k" := (bind m (fun x => k))
  (at level 61, m at next level, right associativity) : monad_scope.
Notation "m ;; k" := (bind m (fun _ => k))
  (at level 61, right associativity) : monad_scope.
Open Scope monad_scope.

(** A non-driver effect: recorded, the clock does not move. *)
Definition emit (e : event) : M unit :=
  fun s => (Ok tt, {| clock := clock s; draws := draws s; trace := e :: trace s |}).

(** An external command: recorded, the clock advances, and the command
    raises [err] when the oracle says that it fails. *)
Definition command {A} (w : World) (e : event) (err : exn) (k : nat -> res A) : M A :=
  fun s =>
    let s' := {| clock := S (clock s); draws := draws s; trace := e :: trace s |} in
    if w_fault w (clock s) then (Raise err, s') else (k (clock s), s').

(** [random.uniform(a, b)]: [a + (b - a) * random.random()]. *)
Definition uniform (w : World) (a b : Q) : M Q :=
  fun s =>
    (Ok (a + (b - a) * w_random w (draws s))%Q,
     {| clock := clock s; draws := S (draws s); trace := trace s |}).

(** [time.sleep(secs)] for [secs >= 0], the only lengths the program
    passes: non-negative constants and [random.uniform] between
    non-negative bounds ([time.sleep] raises [ValueError] on a negative
    length). *)
Definition sleep (secs : Q) : M unit := emit (Sleep secs).

Section Driver.
Variable w : World.

(** [uc.Chrome(...)] in [setup_driver]. *)
Definition start_browser : M unit :=
  command w StartBrowser SessionNotCreated (fun _ => Ok tt).

Definition driver_get (url : string) : M unit :=
  command w (Get url) WebDriverException (fun _ => Ok tt).

Definition current_url : M string :=
  command w ReadUrl WebDriverException (fun t => Ok (w_url w t)).

Definition page_source : M string :=
  command w ReadSource WebDriverException (fun t => Ok (w_source w t)).

(** [find_element]: the handle of the element is its locator. *)
Definition find_element (l : locator) : M locator :=
  command w (Find l) WebDriverException
    (fun t => if w_present w t l then Ok l else Raise NoSuchElementException).

(** [len(find_elements(l))]; the i-th element is [Nth l i]. *)
Definition find_elements (l : locator) : M nat :=
  command w (FindAll l) WebDriverException (fun t => Ok (w_count w t l)).

Definition click (l : locator) : M unit :=
  command w (Click l) WebDriverException (fun _ => Ok tt).

Definition clear (l : locator) : M unit :=
  command w (Clear l) WebDriverException (fun _ => Ok tt).

Definition send_keys (l : locator) (c : ascii) : M unit :=
  command w (SendKeys l c) WebDriverException (fun _ => Ok tt).

Definition element_text (l : locator) : M string :=
  command w (GetText l) WebDriverException (fun t => Ok (w_text w t l)).

Definition get_attribute (l : locator) (name : string) : M (option string) :=
  command w (GetAttr l name) WebDriverException (fun t => Ok (w_attr w t l name)).

Definition refresh : M unit :=
  command w Refresh WebDriverException (fun _ => Ok tt).

Definition switch_to_default_content : M unit :=
  command w SwitchDefault WebDriverException (fun _ => Ok tt).

Definition switch_to_frame (l : locator) : M unit :=
  command w (SwitchFrame l) WebDriverException (fun _ => Ok tt).

Definition execute_script (js : string) : M unit :=
  command w (ExecScript js) WebDriverException (fun _ => Ok tt).

(** [driver.get_screenshot_as_file(path)].  The one command whose
    caller tells [WebDriverException] from other exceptions: what it
    raises when it fails is the oracle's choice. *)
Definition get_screenshot_as_file (label : string) : M unit :=
  fun s =>
    command w (Screenshot label) (w_screenshot_error w (clock s))
      (fun _ => Ok tt) s.

Definition driver_quit : M unit :=
  command w Quit WebDriverException (fun _ => Ok tt).

(** pyautogui calls. *)
Definition moveTo (x y duration : Q) : M unit :=
  command w (MoveTo x y duration) GuiException (fun _ => Ok tt).
Definition mouseDown : M unit :=
  command w MouseDown GuiException (fun _ => Ok tt).
Definition mouseUp : M unit :=
  command w MouseUp GuiException (fun _ => Ok tt).

(** [text.send_text(phone, message)]. *)
Definition send_text (msg : string) : M unit :=
  command w (Sms msg) SmsException (fun _ => Ok tt).

End Driver.

(** Events that touch the page, the browser or the pointer (the
    hardware click lands on the page); pauses and text messages do not. *)
Definition is_interaction (e : event) : bool :=
  match e with
  | StartBrowser | Get _ | ReadUrl | ReadSource | Find _ | FindAll _ | Click _ | Clear _
  | SendKeys _ _ | GetText _ | GetAttr _ _ | Refresh | SwitchDefault
  | SwitchFrame _ | ExecScript _ | Screenshot _ | Quit
  | MoveTo _ _ _ | MouseDown | MouseUp => true
  | _ => false
  end.

(** Mouse actions of the click helper. *)
Definition is_mouse (e : event) : bool :=
  match e with
  | MoveTo _ _ _ | MouseDown | MouseUp => true
  | _ => false
  end.

(* ================================================================== *)
(** ** Python [datetime] as the program uses it *)
(* ================================================================== *)

Module PyDate.
Open Scope Z_scope.

(** A [datetime] value, kept as its proleptic-Gregorian ordinal
    ([toordinal()], 0001-01-01 is day 1) and the second of the day;
    comparison of datetimes is the lexicographic order of the two. *)
Record datetime := { toordinal : Z; second_of_day : Z }.

Definition lt (a b : datetime) : bool :=
  (toordinal a <? toordinal b)
  || ((toordinal a =? toordinal b) && (second_of_day a <? second_of_day b)).

(** [dt.weekday()]: Monday is 0, Sunday is 6. *)
Definition weekday (dt : datetime) : Z := (toordinal dt + 6) mod 7.

Definition is_leap (year : Z) : bool :=
  (year mod 4 =? 0) && (negb (year mod 100 =? 0) || (year mod 400 =? 0)).

Definition days_before_year (year : Z) : Z :=
  let y := year - 1 in y * 365 + y / 4 - y / 100 + y / 400.

Definition days_in_month (year month : Z) : Z :=
  if (month =? 2) && is_leap year then 29
  else nth (Z.to_nat month) [-1; 31; 28; 31; 30; 31; 30; 31; 31; 30; 31; 30; 31] 0.

Definition days_before_month (year month : Z) : Z :=
  nth (Z.to_nat month) [-1; 0; 31; 59; 90; 120; 151; 181; 212; 243; 273; 304; 334] 0
  + (if (2 <? month) && is_leap year then 1 else 0).

Definition ymd2ord (year month day : Z) : Z :=
  days_before_year year + days_before_month year month + day.

(** [dt - timedelta(days=1)]; [None] is the [OverflowError] below
    0001-01-01. *)
Definition minus_one_day (dt : datetime) : option datetime :=
  if toordinal dt - 1 <? 1 then None
  else Some {| toordinal := toordinal dt - 1; second_of_day := second_of_day dt |}.

(** *** [datetime.strptime(s, "%Y-%m-%d")]

    The format compiles to the regular expression
    [(\d\d\d\d)-(1[0-2]|0[1-9]|[1-9])-(3[01]|[12]\d|0[1-9]|[1-9]| [1-9])],
    matched at the start of the text; text left over, or a day the month
    does not have, or year 0, is a [ValueError]. *)

Definition digit (c : ascii) : option Z :=
  let n := nat_of_ascii c in
  if (48 <=? n)%nat && (n <=? 57)%nat then Some (Z.of_nat (n - 48)) else None.

Definition parser (A : Type) := string -> option (A * string).

Definition two (p : Z -> Z -> bool) : parser Z :=
  fun s =>
    match s with
    | String a (String b r) =>
        match digit a, digit b with
        | Some x, Some y => if p x y then Some (10 * x + y, r) else None
        | _, _ => None
        end
    | _ => None
    end.

Definition one (p : Z -> bool) : parser Z :=
  fun s =>
    match s with
    | String a r =>
        match digit a with
        | Some x => if p x then Some (x, r) else None
        | None => None
        end
    | _ => None
    end.

Definition lit (c : ascii) : parser unit :=
  fun s =>
    match s with
    | String a r => if Ascii.eqb a c then Some (tt, r) else None
    | _ => None
    end.

(** Ordered choice, as the regex alternation tries its branches. *)
Fixpoint alt {A} (ps : list (parser A)) : parser A :=
  fun s =>
    match ps with
    | [] => None
    | p :: ps' => match p s with Some r => Some r | None => alt ps' s end
    end.

Definition year_re : parser Z :=
  fun s =>
    match two (fun _ _ => true) s with
    | Some (hi, r) =>
        match two (fun _ _ => true) r with
        | Some (lo, r') => Some (100 * hi + lo, r')
        | None => None
        end
    | None => None
    end.

(** [1[0-2]|0[1-9]|[1-9]].  The branch taken first is the only one that
    can be followed by "-", so ordered choice needs no backtracking. *)
Definition month_re : parser Z :=
  alt [ two (fun x y => (x =? 1) && (y <=? 2));
        two (fun x y => (x =? 0) && (1 <=? y));
        one (fun x => 1 <=? x) ].

(** [3[01]|[12]\d|0[1-9]|[1-9]| [1-9]]. *)
Definition day_re : parser Z :=
  alt [ two (fun x y => (x =? 3) && (y <=? 1));
        two (fun x y => ((x =? 1) || (x =? 2)));
        two (fun x y => (x =? 0) && (1 <=? y));
        one (fun x => 1 <=? x);
        (fun s => match lit " " s with
                  | Some (_, r) => one (fun x => 1 <=? x) r
                  | None => None
                  end) ].

Definition match_ymd (s : string) : option (Z * Z * Z * string) :=
  match year_re s with
  | Some (y, r1) =>
      match lit "-" r1 with
      | Some (_, r2) =>
          match month_re r2 with
          | Some (m, r3) =>
              match lit "-" r3 with
              | Some (_, r4) =>
                  match day_re r4 with
                  | Some (d, r5) => Some (y, m, d, r5)
                  | None => None
                  end
              | None => None
              end
          | None => None
          end
      | None => None
      end
  | None => None
  end.

(** The year, month and day that [strptime(s, "%Y-%m-%d")] reads. *)
Definition parse_ymd (s : string) : res (Z * Z * Z) :=
  match match_ymd s with
  | Some (y, m, d, EmptyString) =>
      if (1 <=? y) && (d <=? days_in_month y m) then Ok (y, m, d)
      else Raise ValueError
  | _ => Raise ValueError
  end.

Definition strptime_ymd (s : string) : res datetime :=
  match parse_ymd s with
  | Ok (y, m, d) => Ok {| toordinal := ymd2ord y m d; second_of_day := 0 |}
  | Raise e => Raise e
  | Diverge => Diverge
  end.

(** [dt.strftime("%B")] in the C locale. *)
Definition month_name (month : Z) : string :=
  nth (Z.to_nat month)
    [""; "January"; "February"; "March"; "April"; "May"; "June"; "July";
     "August"; "September"; "October"; "November"; "December"]%string ""%string.

End PyDate.

(* ================================================================== *)
(** ** clicker.py *)
(* ================================================================== *)

Module Clicker.
Section WithWorld.
Variable w : World.

(** [_perform_click(x, y, label)]. *)
Definition _perform_click (x y : Q) : M bool :=
  duration <- uniform w (7#10) (15#10) ;;
  moveTo w x y duration ;;
  d1 <- uniform w (5#100) (2#10) ;;
  sleep d1 ;;
  mouseDown w ;;
  d2 <- uniform w (5#100) (2#10) ;;
  sleep d2 ;;
  mouseUp w ;;
  ret true.

(** [hardware_click_range(top_right, bottom_left=None)]. *)
Definition hardware_click_range
    (top_right : Q * Q) (bottom_left : option (Q * Q)) : M bool :=
  try_except
    (match bottom_left with
     | None => _perform_click (fst top_right) (snd top_right)
     | Some (x1, y1) =>
         let '(x2, y2) := top_right in
         if Qle_bool x2 x1 || Qle_bool y2 y1 then ret false
         else
           final_x <- uniform w x1 x2 ;;
           final_y <- uniform w y1 y2 ;;
           _perform_click final_x final_y
     end)
    (fun _ => ret false).

End WithWorld.
End Clicker.

(* ================================================================== *)
(** ** util.py, part 1: sleeping, typing, classifying, captcha *)
(* ================================================================== *)

Module Util.

Definition QUEUE_DOMAIN := "queue.driverpracticaltest.dvsa.gov.uk".
Definition REQUEST_UNSUCCESSFUL := "request unsuccessful".
Definition INCIDENT_ID := "incident id".
Definition LOGIN_BANNER := "enter details below to access your booking".
Definition OOPS := "oops".

(** The decision of [check_firewall_and_queue] on the two strings it
    reads from the driver. *)
Definition page_state (raw_url raw_source : string) : PageState :=
  let current_url := PyStr.lower raw_url in
  let page_source := PyStr.lower raw_source in
  if PyStr.contains QUEUE_DOMAIN current_url then queue
  else if PyStr.contains REQUEST_UNSUCCESSFUL page_source
          && PyStr.contains INCIDENT_ID page_source then firewall
  else if PyStr.contains LOGIN_BANNER page_source then login_required
  else if PyStr.contains OOPS page_source then error
  else ok.

Section WithWorld.
Variable w : World.

(** [random_sleep(base, max_extra)]. *)
Definition random_sleep (base max_extra : Q) : M unit :=
  sleep base ;;
  extra <- uniform w 0 max_extra ;;
  sleep extra.

(** What [except WebDriverException] catches: the exceptions of
    Selenium, [NoSuchElementException] among them. *)
Definition is_webdriver_exception (e : exn) : bool :=
  match e with
  | WebDriverException | NoSuchElementException => true
  | _ => false
  end.

(** [capture_screenshot(driver, label)]. *)
Definition capture_screenshot (label : string) : M unit :=
  try_except (get_screenshot_as_file w label)
    (fun e => if is_webdriver_exception e then ret tt else raise e).

(** [send_text_available] and [send_text_test_found]: the SMS is sent and
    any failure is swallowed. *)
Definition send_text_available (last_date last_time : string) : M unit :=
  try_except
    (send_text w ("Tests are available on " ++ last_date ++ " at " ++ last_time ++ "."))
    (fun _ => ret tt).

Definition send_text_test_found
    (centre date t_time : string) (short_notice : bool) : M unit :=
  let short_str := if short_notice then "Short Notice" else "Standard" in
  try_except
    (send_text w ("Test found at " ++ centre ++ "!" ++ String "010"%char "Date: " ++ date
                  ++ ", Time: " ++ t_time ++ ", " ++ short_str ++ "."))
    (fun _ => ret tt).

(** The [for char in text_to_type] loop of [input_text_box]. *)
Fixpoint type_chars (box : locator) (text_to_type : string) : M unit :=
  match text_to_type with
  | EmptyString => ret tt
  | String char rest =>
      send_keys w box char ;;
      d <- uniform w (1#100) (5#100) ;;
      sleep d ;;
      type_chars box rest
  end.

(** [input_text_box(driver, box_id, text_to_type)]. *)
Definition input_text_box (box_id text_to_type : string) : M unit :=
  try_except
    (box <- find_element w (ById box_id) ;;
     type_chars box text_to_type)
    (fun e => match e with
              | NoSuchElementException => ret tt
              | _ => raise e
              end).

(** [check_firewall_and_queue(driver)]. *)
Definition check_firewall_and_queue : M PageState :=
  url <- current_url w ;;
  src <- page_source w ;;
  let st := page_state url src in
  emit (Classified st) ;;
  ret st.

(** [solve_captcha(driver, skip, coord_top_right, coord_bottom_left)]. *)
Definition solve_captcha (skip : bool)
    (coord_top_right : Q * Q) (coord_bottom_left : option (Q * Q)) : M bool :=
  if skip then
    sleep 60 ;;
    ret false
  else
    try_except
      (switch_to_default_content w ;;
       src <- page_source w ;;
       let page_source := PyStr.lower src in
       (if PyStr.contains REQUEST_UNSUCCESSFUL page_source
           && PyStr.contains INCIDENT_ID page_source
        then
          Clicker.hardware_click_range w coord_top_right coord_bottom_left ;;
          d <- uniform w (15#10) (25#10) ;;
          sleep d
        else ret tt) ;;
       ret true)
      (fun _ => ret false).

End WithWorld.

(* ------------------------------------------------------------------ *)
(** *** util.py, part 2: the calendar scanner *)
(* ------------------------------------------------------------------ *)

(** What [scan_for_preferred_tests] returns: [(False, None, None)] or
    [(True, link_date_str, link_el)], the element being the link of the
    cell at the given position of the grid. *)
Inductive scan_result :=
| NotFound
| Found (link_date_str : string) (cell : nat).

(** The DOM reads of the scanner, in order. *)
Inductive access :=
| FindBody                 (* find_element(CLASS_NAME, "BookingCalendar-datesBody") *)
| FindDays                 (* cal_body.find_elements(XPATH, ".//td") *)
| CellClass (i : nat)      (* day.get_attribute("class") *)
| CellLink (i : nat)       (* day.find_element(XPATH, ".//a") *)
| LinkDate (i : nat).      (* link_el.get_attribute("data-date") *)

Definition rbind {A B} (r : res A) (f : A -> res B) : res B :=
  match r with
  | Ok a => f a
  | Raise e => Raise e
  | Diverge => Diverge
  end.

(** Prefix a log to the outcome of the rest of the scan. *)
Definition logged {A} (l : list access) (r : res A * list access)
  : res A * list access :=
  (fst r, (l ++ snd r)%list).

Definition truthy (s : string) : bool :=
  match s with EmptyString => false | _ => true end.

(** [day.get_attribute("class") or ""]. *)
Definition class_of (day : Cell) : string :=
  match class_attr day with
  | Some c => c
  | None => ""
  end.

Definition marked_unavailable (day : Cell) : bool :=
  PyStr.contains "--unavailable" (class_of day).

(** The five-part condition on a link's date. *)
Definition date_condition (min_date max_date : PyDate.datetime)
    (unavailable_dates : list string) (formatted_test_date : string)
    (link_date_str : string) (link_date_dt : PyDate.datetime) : bool :=
  negb (PyStr.mem link_date_str unavailable_dates)
  && PyDate.lt link_date_dt min_date
  && PyDate.lt max_date link_date_dt
  && (PyDate.weekday link_date_dt <? 5)%Z
  && negb (String.eqb link_date_str formatted_test_date).

Section Scanner.
(** [datetime.strptime(s, "%A %d %B %Y %I:%M%p")] of the Python library;
    [None] when it raises. *)
Variable strptime_long : string -> option PyDate.datetime.

Definition parse_or_default (date_string default : string) : res PyDate.datetime :=
  if negb (truthy date_string) || String.eqb date_string "None"
  then PyDate.strptime_ymd default
  else PyDate.strptime_ymd date_string.

(** The bound derived from the current test date. *)
Definition derived_min_date (current_test_date : string) : res PyDate.datetime :=
  if truthy current_test_date && PyStr.contains "Yes" current_test_date
  then PyDate.strptime_ymd "2050-12-12"
  else
    match match strptime_long current_test_date with
          | Some dt_current_test => PyDate.minus_one_day dt_current_test
          | None => None
          end with
    | Some min_date => Ok min_date
    | None => PyDate.strptime_ymd "2050-12-12"      (* bare [except:] *)
    end.

(** [min_date] and [max_date] as computed before the grid is read. *)
Definition scan_bounds (before_date_str after_date_str current_test_date : string)
  : res (PyDate.datetime * PyDate.datetime) :=
  rbind (derived_min_date current_test_date) (fun min_date =>
  rbind (if truthy before_date_str && negb (String.eqb before_date_str "None")
         then rbind (PyDate.strptime_ymd before_date_str) (fun parsed_before =>
                Ok (if PyDate.lt parsed_before min_date then parsed_before
                    else min_date))
         else Ok min_date) (fun min_date =>
  rbind (parse_or_default after_date_str "2000-01-01") (fun max_date =>
  Ok (min_date, max_date)))).

(** The body of the inner [try] for the cell at position [i]: [Ok (Some r)]
    is [return r], [Ok None] falls out of the [if]. *)
Definition inspect_day (min_date max_date : PyDate.datetime)
    (unavailable_dates : list string) (formatted_test_date : string)
    (i : nat) (day : Cell) : res (option scan_result) * list access :=
  match link day with
  | None => (Raise NoSuchElementException, [CellLink i])
  | Some link_el =>
      match data_date link_el with
      | None => (Raise TypeError, [CellLink i; LinkDate i])
      | Some link_date_str =>
          match PyDate.strptime_ymd link_date_str with
          | Ok link_date_dt =>
              (Ok (if date_condition min_date max_date unavailable_dates
                        formatted_test_date link_date_str link_date_dt
                   then Some (Found link_date_str i) else None),
               [CellLink i; LinkDate i])
          | Raise e => (Raise e, [CellLink i; LinkDate i])
          | Diverge => (Diverge, [CellLink i; LinkDate i])
          end
      end
  end.

(** The [for day in days] loop, from position [i] on. *)
Fixpoint scan_days (min_date max_date : PyDate.datetime)
    (unavailable_dates : list string) (formatted_test_date : string)
    (i : nat) (days : list Cell) : res scan_result * list access :=
  match days with
  | [] => (Ok NotFound, [])
  | day :: rest =>
      let continue :=
        scan_days min_date max_date unavailable_dates formatted_test_date (S i) rest in
      if negb (marked_unavailable day) then
        match inspect_day min_date max_date unavailable_dates
                formatted_test_date i day with
        | (Ok (Some r), log) => (Ok r, CellClass i :: log)
        | (Ok None, log) => logged (CellClass i :: log) continue
        | (Raise NoSuchElementException, log) =>
            logged (CellClass i :: log) continue        (* except: pass *)
        | (Raise e, log) => (Raise e, CellClass i :: log)
        | (Diverge, log) => (Diverge, CellClass i :: log)
        end
      else logged [CellClass i] continue
  end.

(** The outer [try] block. *)
Definition scan_body (grid : option (list Cell))
    (before_date_str after_date_str : string) (unavailable_dates : list string)
    (current_test_date formatted_test_date : string)
  : res scan_result * list access :=
  match scan_bounds before_date_str after_date_str current_test_date with
  | Ok (min_date, max_date) =>
      match grid with
      | None => (Raise NoSuchElementException, [FindBody])
      | Some days =>
          logged [FindBody; FindDays]
            (scan_days min_date max_date unavailable_dates formatted_test_date 0 days)
      end
  | Raise e => (Raise e, [])
  | Diverge => (Diverge, [])
  end.

(** [scan_for_preferred_tests], on the grid the driver shows. *)
Definition scan_for_preferred_tests (grid : option (list Cell))
    (before_date_str after_date_str : string) (unavailable_dates : list string)
    (current_test_date formatted_test_date : string)
  : res scan_result * list access :=
  match scan_body grid before_date_str after_date_str unavailable_dates
          current_test_date formatted_test_date with
  | (Raise NoSuchElementException, log) => (Ok NotFound, log)
  | (Raise _, log) => (Ok NotFound, log)                (* except Exception *)
  | r => r
  end.

End Scanner.

(* ------------------------------------------------------------------ *)
(** *** util.py, part 3: the booking finalizer *)
(* ------------------------------------------------------------------ *)

Definition SLOT_TAKEN_TEXT := "the time chosen is no longer available".

(** How the [for attempt in range(booking_attempts)] loop ends:
    [test_taken = True], [success = True], or neither. *)
Inductive loop_exit := SlotTaken | Reserved | Exhausted.

(** Which [except] clause of the attempt's [try] an exception reaches:
    [NoSuchElementException] sets [success] and breaks, anything else is
    logged and the attempt goes on to its retry part ([None]). *)
Definition on_exception (e : exn) : option loop_exit :=
  match e with
  | NoSuchElementException => Some Reserved
  | _ => None
  end.

(** Run [m] and hand its exception, if any, to the caller. *)
Definition reify {A} (m : M A) : M (exn + A) :=
  try_except (a <- m ;; ret (inr a)) (fun e => ret (inl e)).

Section Finalizer.
Variable w : World.
Variable strptime_long : string -> option PyDate.datetime.

(** The scanner run against the driver: the grid is the one the browser
    shows when the scan starts, and each DOM read is a driver command. *)
Definition access_event (a : access) : event :=
  let body := ByClassName "BookingCalendar-datesBody" in
  let td i := Nth (Within body (ByXPath ".//td")) i in
  match a with
  | FindBody => Find body
  | FindDays => FindAll (Within body (ByXPath ".//td"))
  | CellClass i => GetAttr (td i) "class"
  | CellLink i => Find (Within (td i) (ByXPath ".//a"))
  | LinkDate i => GetAttr (Within (td i) (ByXPath ".//a")) "data-date"
  end.

(** The reads of [log] that the driver gets to when the first of them is
    issued at time [t]: all of them, or those up to and including the
    first one that fails ([true]). *)
Fixpoint reads_done (t : nat) (log : list access) : bool * list access :=
  match log with
  | [] => (false, [])
  | a :: rest =>
      if w_fault w t then (true, [a])
      else let '(failed, done) := reads_done (S t) rest in (failed, a :: done)
  end.

(** A read that fails raises [WebDriverException], which only the outer
    [except Exception] catches: the scan ends with not-found. *)
Definition scan_on_driver
    (before_date_str after_date_str : string) (unavailable_dates : list string)
    (current_test_date formatted_test_date : string) : M scan_result :=
  fun s =>
    let '(r, log) :=
      scan_for_preferred_tests strptime_long (w_calendar w (clock s))
        before_date_str after_date_str unavailable_dates
        current_test_date formatted_test_date in
    let '(failed, done) := reads_done (clock s) log in
    (if failed then Ok NotFound else r,
     {| clock := clock s + length done;
        draws := draws s;
        trace := (rev (map access_event done) ++ trace s)%list |}).

(** [if not i_am_candidate_clicked: ... click(); i_am_candidate_clicked = True] *)
Definition click_candidate (i_am_candidate_clicked : bool) : M bool :=
  if i_am_candidate_clicked then ret true
  else
    el <- find_element w (ById "i-am-candidate") ;;
    click w el ;;
    ret true.

(** The rest of the attempt's [try] block, up to its [break]. *)
Definition after_candidate (solve_manually : bool)
    (coord_top_right : Q * Q) (coord_bottom_left : option (Q * Q)) : M loop_exit :=
  switch_to_default_content w ;;
  try_except
    (main_frame <- find_element w (ById "main-iframe") ;;
     switch_to_frame w main_frame)
    (fun e => match e with
              | NoSuchElementException => ret tt
              | _ => raise e
              end) ;;
  src <- page_source w ;;
  if PyStr.contains SLOT_TAKEN_TEXT (PyStr.lower src) then ret SlotTaken
  else
    solve_captcha w solve_manually coord_top_right coord_bottom_left ;;
    ret Reserved.

(** The [try] statement of one attempt: the new value of
    [i_am_candidate_clicked] and how the attempt leaves the loop, if it
    does. *)
Definition attempt_try (solve_manually : bool)
    (coord_top_right : Q * Q) (coord_bottom_left : option (Q * Q))
    (i_am_candidate_clicked : bool) : M (bool * option loop_exit) :=
  sleep (3#10) ;;
  r <- reify (click_candidate i_am_candidate_clicked) ;;
  match r with
  | inl e => ret (i_am_candidate_clicked, on_exception e)
  | inr clicked =>
      r' <- reify (after_candidate solve_manually coord_top_right coord_bottom_left) ;;
      match r' with
      | inl e => ret (clicked, on_exception e)
      | inr x => ret (clicked, Some x)
      end
  end.

(** "Possibly still on captcha page, try again". *)
Definition attempt_retry : M unit :=
  switch_to_default_content w ;;
  sleep 1 ;;
  try_except
    (main_frame <- find_element w (ById "main-iframe") ;;
     switch_to_frame w main_frame ;;
     src <- page_source w ;;
     if PyStr.contains "Why am I seeing this page" src
     then random_sleep w 20 4 ;; refresh w
     else ret tt)
    (fun e => match e with
              | NoSuchElementException => ret tt
              | _ => raise e
              end).

Fixpoint booking_loop (attempts : nat) (solve_manually : bool)
    (coord_top_right : Q * Q) (coord_bottom_left : option (Q * Q))
    (i_am_candidate_clicked : bool) : M loop_exit :=
  match attempts with
  | O => ret Exhausted
  | S attempts' =>
      r <- attempt_try solve_manually coord_top_right coord_bottom_left
             i_am_candidate_clicked ;;
      match r with
      | (_, Some x) => ret x                                   (* break *)
      | (clicked, None) =>
          attempt_retry ;;
          booking_loop attempts' solve_manually coord_top_right
            coord_bottom_left clicked
      end
  end.

(** What follows the click on "confirm-changes". *)
Definition after_confirm_click (solve_manually : bool)
    (coord_top_right : Q * Q) (coord_bottom_left : option (Q * Q)) : M bool :=
  sleep 1 ;;
  page_status <- check_firewall_and_queue w ;;
  if PageState_eqb page_status firewall then
    random_sleep w 40 4 ;;
    refresh w ;;
    st <- check_firewall_and_queue w ;;
    if PageState_eqb st firewall then
      solve_captcha w solve_manually coord_top_right coord_bottom_left ;;
      src <- page_source w ;;
      if PyStr.contains "imperva" (PyStr.lower src) then ret false
      else ret true
    else ret true
  else ret true.

(** [if auto_book_test:] the final confirmation. *)
Definition confirm_changes (solve_manually : bool)
    (coord_top_right : Q * Q) (coord_bottom_left : option (Q * Q)) : M bool :=
  try_except
    (el <- find_element w (ById "confirm-changes") ;;
     click w el ;;
     after_confirm_click solve_manually coord_top_right coord_bottom_left)
    (fun _ => ret false).

(** [book_test_flow(driver, short_notice, solve_manually, coord_top_right,
    coord_bottom_left, auto_book_test)]. *)
Definition book_test_flow (short_notice solve_manually : bool)
    (coord_top_right : Q * Q) (coord_bottom_left : option (Q * Q))
    (auto_book_test : bool) : M bool :=
  x <- booking_loop 4 solve_manually coord_top_right coord_bottom_left false ;;
  match x with
  | SlotTaken => ret false
  | Exhausted => ret false
  | Reserved =>
      if auto_book_test
      then confirm_changes solve_manually coord_top_right coord_bottom_left
      else ret true
  end.

End Finalizer.
End Util.

(* ================================================================== *)
(** ** main.py: the [DVSABot] session *)
(* ================================================================== *)

Module Main.

Definition DVSA_QUEUE_URL :=
  "https://queue.driverpracticaltest.dvsa.gov.uk/?c=dvsatars&e=ibsredirectprod0915&t=https%3A%2F%2Fdriverpracticaltest.dvsa.gov.uk%2Flogin&cid=en-GB".
Definition DVSA_DELAY : Q := 60.
Definition SOLVE_MANUALLY := false.
Definition COORD_TOP_RIGHT : Q * Q := (820, 420)%Q.
Definition COORD_BOTTOM_LEFT : option (Q * Q) := None.
Definition max_queue_checks := 100%nat.

(** The entries of the preferences dictionary that the session reads. *)
Record Preferences := {
  licence : string;
  booking : string;
  current_test_date : string;        (* preferences["current-test"]["date"] *)
  center : list string;
  before_date : string;
  after_date : string;
  disabled_dates : list string
}.

Definition set_center (p : Preferences) (c : list string) : Preferences :=
  {| licence := licence p; booking := booking p;
     current_test_date := current_test_date p; center := c;
     before_date := before_date p; after_date := after_date p;
     disabled_dates := disabled_dates p |}.

(** The fields of a [DVSABot] besides its driver. *)
Record DVSABot := {
  preferences : Preferences;
  active : bool;
  current_centre_index : nat
}.

(** [DVSABot(preferences)]. *)
Definition new_bot (p : Preferences) : DVSABot :=
  {| preferences := p; active := false; current_centre_index := 0 |}.

(** [self.active = b]. *)
Definition set_active (b : bool) (bot : DVSABot) : M DVSABot :=
  emit (SetActive b) ;;
  ret {| preferences := preferences bot; active := b;
         current_centre_index := current_centre_index bot |}.

Definition is_failure_state (st : PageState) : bool :=
  match st with
  | firewall | queue | error | login_required => true
  | ok => false
  end.

Section WithWorld.
Variable w : World.
Variable strptime_long : string -> option PyDate.datetime.
(** Values read from [config.ini] when the module is loaded. *)
Variable AUTO_BOOK_TEST : bool.
Variable FORMATTED_CURRENT_TEST_DATE : string.

(** [driver.find_element(...).click()]. *)
Definition find_and_click (l : locator) : M unit :=
  el <- find_element w l ;;
  click w el.

(** [enter_reschedule_credentials(manual)]. *)
Definition enter_reschedule_credentials (bot : DVSABot) (manual : bool) : M unit :=
  if manual then sleep 30
  else
    Util.input_text_box w "driving-licence-number" (licence (preferences bot)) ;;
    Util.input_text_box w "application-reference-number" (booking (preferences bot)) ;;
    Util.random_sleep w 1 1 ;;
    try_except
      (find_and_click (ById "booking-login") ;;
       Util.random_sleep w 3 1)
      (fun e => match e with
                | NoSuchElementException => ret tt
                | _ => raise e
                end).

(** The [while loop_count < max_queue_checks] loop; the result is the
    value of [loop_count] when the loop is left.  [fuel] bounds the number
    of iterations the model follows. *)
Fixpoint queue_loop (fuel : nat) (loop_count : nat) : M nat :=
  match fuel with
  | O => diverge
  | S fuel' =>
      if (loop_count <? max_queue_checks)%nat then
        status <- Util.check_firewall_and_queue w ;;
        match status with
        | queue =>
            Util.random_sleep w (1#2) (3#2) ;;
            queue_loop fuel' (S loop_count)                 (* continue *)
        | firewall =>
            Util.random_sleep w (1#2) (5#2) ;;
            solved <- Util.solve_captcha w SOLVE_MANUALLY
                        COORD_TOP_RIGHT COORD_BOTTOM_LEFT ;;
            (if solved then
               sleep 3 ;;
               st <- Util.check_firewall_and_queue w ;;
               if PageState_eqb st firewall
               then Util.random_sleep w 180 10
               else ret tt
             else ret tt) ;;
            refresh w ;;
            queue_loop fuel' loop_count
        | login_required => ret loop_count                 (* break *)
        | error => ret loop_count                          (* break *)
        | ok => ret loop_count                             (* break *)
        end
      else ret loop_count
  end.

(** [handle_queue_and_firewall()]. *)
Definition handle_queue_and_firewall (fuel : nat) : M unit :=
  loop_count <- queue_loop fuel 0 ;;
  if (max_queue_checks <=? loop_count)%nat then refresh w else ret tt.

(** Steps 1 to 3 of [login], and the test of the URL. *)
Definition login_credentials (fuel : nat) (bot : DVSABot) : M string :=
  start_browser w ;;                         (* if not self.driver: setup_driver() *)
  driver_get w DVSA_QUEUE_URL ;;
  handle_queue_and_firewall fuel ;;
  enter_reschedule_credentials bot false ;;
  status <- Util.check_firewall_and_queue w ;;
  (if PageState_eqb status firewall then
     Util.random_sleep w 2 5 ;;
     solved <- Util.solve_captcha w SOLVE_MANUALLY
                 COORD_TOP_RIGHT COORD_BOTTOM_LEFT ;;
     (if solved then
        sleep 3 ;;
        status <- Util.check_firewall_and_queue w ;;
        if PageState_eqb status firewall
        then Util.random_sleep w 20 4
        else ret tt
      else ret tt) ;;
     refresh w
   else ret tt) ;;
  current_url w.

(** Step 4 of [login] up to the last assignment to [self.preferences]:
    [inl bot'] is an early [return], [inr bot'] goes on to the final
    classification. *)
Definition login_summary (bot : DVSABot) : M (DVSABot + DVSABot) :=
  let contents := ByClassName "contents" in
  n <- find_elements w contents ;;
  test_center_temp <-
    (if (2 <=? n)%nat then
       dd0 <- find_element w (Within (Nth contents 0) (ByXPath ".//dd")) ;;
       _ <- element_text w dd0 ;;
       dd1 <- find_element w (Within (Nth contents 1) (ByXPath ".//dd")) ;;
       element_text w dd1
     else ret "") ;;
  src <- page_source w ;;
  if PyStr.contains "Your booking has been cancelled." src then
    bot' <- set_active false bot ;;
    ret (inl bot')
  else if PyStr.contains "Yes" (current_test_date (preferences bot)) then
    find_and_click (ById "date-time-change") ;;
    Util.random_sleep w 1 2 ;;
    find_and_click (ById "test-choice-earliest") ;;
    Util.random_sleep w 1 2 ;;
    execute_script w "window.scrollTo(0, document.body.scrollHeight);" ;;
    Util.random_sleep w 1 2 ;;
    find_and_click (ById "driving-licence-submit") ;;
    let bot' :=
      if Util.truthy test_center_temp
      then {| preferences := set_center (preferences bot) [test_center_temp];
              active := active bot;
              current_centre_index := current_centre_index bot |}
      else bot in
    Util.random_sleep w 1 2 ;;
    ret (inr bot')
  else
    find_and_click (ById "test-centre-change") ;;
    Util.random_sleep w 3 2 ;;
    search_box <- find_element w (ById "test-centres-input") ;;
    clear w search_box ;;
    match center (preferences bot) with
    | c :: _ => Util.input_text_box w "test-centres-input" c
    | [] => ret tt
    end ;;
    find_and_click (ById "test-centres-submit") ;;
    Util.random_sleep w 5 2 ;;
    results_container <- find_element w (ByClassName "test-centre-results") ;;
    first_link <- find_element w (Within results_container (ByXPath ".//a")) ;;
    click w first_link ;;
    ret (inr bot).

(** The final classification of [login]. *)
Definition login_final (bot : DVSABot) : M DVSABot :=
  final_status <- Util.check_firewall_and_queue w ;;
  if is_failure_state final_status then set_active false bot
  else set_active true bot.

(** [login()].  The handler of the [try] sees [self] as it is when the
    exception is raised: [bot] before the assignment to
    [self.preferences], [bot'] after it. *)
Definition login (fuel : nat) (bot : DVSABot) : M DVSABot :=
  url <- login_credentials fuel bot ;;
  if PyStr.contains "loginError=true" url then set_active false bot
  else
    try_except
      (r <- login_summary bot ;;
       match r with
       | inl bot' => ret bot'
       | inr bot' => try_except (login_final bot') (fun _ => set_active false bot')
       end)
      (fun _ => set_active false bot).

(** The [while attempts < 12] loop that pages the calendar back to the
    month of the date found. *)
Fixpoint goto_month (attempts : nat) (month : string) : M unit :=
  match attempts with
  | O => ret tt
  | S attempts' =>
      el <- find_element w (ByClassName "BookingCalendar-currentMonth") ;;
      current_month <- element_text w el ;;
      if String.eqb month current_month then ret tt
      else
        moved <- try_except
                   (find_and_click (ByClassName "BookingCalendar-nav--prev") ;;
                    ret true)
                   (fun e => match e with
                             | NoSuchElementException => ret false
                             | _ => raise e
                             end) ;;
        if moved then
          Util.random_sleep w (1#10) (2#10) ;;
          goto_month attempts' month
        else ret tt
  end.

Definition lift_res {A} (r : res A) : M A := fun s => (r, s).

(** The second [try] block of [search_and_book]: select the date found,
    notify, choose the slot and finalize. *)
Definition select_and_book (centre_to_search found_date_str : string)
    (cell : nat) : M unit :=
  ymd <- lift_res (PyDate.parse_ymd found_date_str) ;;
  let '(_, month, _) := ymd in
  goto_month 12 (PyDate.month_name month) ;;
  click w (Within (Nth (Within (ByClassName "BookingCalendar-datesBody")
                               (ByXPath ".//td")) cell) (ByXPath ".//a")) ;;
  container <- find_element w (ById ("date-" ++ found_date_str)) ;;
  label <- find_element w (Within container (ByXPath ".//label")) ;;
  label_for <- get_attribute w label "for" ;;
  label_for <- match label_for with
               | Some l => ret l
               | None => raise TypeError
               end ;;
  test_time_str <- match w_slot_time w label_for with
                   | Some t => ret t
                   | None => raise ValueError
                   end ;;
  slot <- find_element w (ById label_for) ;;
  short_notice_raw <- get_attribute w slot "data-short-notice" ;;
  let short_notice := match short_notice_raw with
                      | Some v => String.eqb v "true"
                      | None => false
                      end in
  Util.send_text_available w found_date_str test_time_str ;;
  Util.send_text_test_found w centre_to_search found_date_str test_time_str
    short_notice ;;
  click w label ;;
  sleep (2#10) ;;
  find_and_click (ById "slot-chosen-submit") ;;
  sleep (4#10) ;;
  (if short_notice
   then find_and_click (ByXPath "(//button[@id='slot-warning-continue'])[2]")
   else find_and_click (ById "slot-warning-continue")) ;;
  Util.random_sleep w 1 1 ;;
  _ <- Util.book_test_flow w short_notice SOLVE_MANUALLY COORD_TOP_RIGHT
         COORD_BOTTOM_LEFT AUTO_BOOK_TEST ;;
  ret tt.

(** The first [try] block of [search_and_book]: [Some bot'] is a
    [return] from one of its handlers, [None] falls through. *)
Definition change_centre (bot : DVSABot) (centre_to_search : string)
  : M (option DVSABot) :=
  try_except
    (find_and_click (ById "change-test-centre") ;;
     Util.random_sleep w 2 2 ;;
     search_box <- find_element w (ById "test-centres-input") ;;
     clear w search_box ;;
     Util.input_text_box w "test-centres-input" centre_to_search ;;
     find_and_click (ById "test-centres-submit") ;;
     Util.random_sleep w 5 2 ;;
     results_container <- find_element w (ByClassName "test-centre-results") ;;
     link <- find_element w (Within results_container (ByXPath ".//a")) ;;
     click w link ;;
     Util.random_sleep w 3 2 ;;
     ret None)
    (fun e =>
       match e with
       | NoSuchElementException =>
           status <- Util.check_firewall_and_queue w ;;
           if is_failure_state status then
             bot' <- set_active false bot ;;
             ret (Some bot')
           else ret (Some bot)
       | _ =>
           bot' <- set_active false bot ;;
           ret (Some bot')
       end).

(** [search_and_book()]. *)
Definition search_and_book (bot : DVSABot) : M DVSABot :=
  if negb (active bot) then ret bot
  else
    let centres := center (preferences bot) in
    match centres with
    | [] => ret bot
    | _ :: _ =>
        let search_centre_idx := current_centre_index bot in
        let bot := {| preferences := preferences bot; active := active bot;
                      current_centre_index :=
                        (current_centre_index bot + 1) mod length centres |} in
        centre_to_search <- match nth_error centres search_centre_idx with
                            | Some c => ret c
                            | None => raise IndexError
                            end ;;
        r <- change_centre bot centre_to_search ;;
        match r with
        | Some bot' => ret bot'
        | None =>
            if negb (active bot) then ret bot
            else
              src <- page_source w ;;
              if PyStr.contains "there are no tests available" (PyStr.lower src)
              then ret bot
              else
                status <- Util.check_firewall_and_queue w ;;
                if negb (PageState_eqb status ok) then set_active false bot
                else
                  found <- Util.scan_on_driver w strptime_long
                             (before_date (preferences bot))
                             (after_date (preferences bot))
                             (disabled_dates (preferences bot))
                             (current_test_date (preferences bot))
                             FORMATTED_CURRENT_TEST_DATE ;;
                  match found with
                  | Util.NotFound => ret bot
                  | Util.Found found_date_str cell =>
                      try_except
                        (select_and_book centre_to_search found_date_str cell)
                        (fun _ => Util.capture_screenshot w "booking_flow") ;;
                      ret bot
                  end
        end
    end.

(** One attempt of [run_reschedule_flow] inside the opening hours: a
    fresh [DVSABot], [login()], [search_and_book()] if the bot is active,
    the pacing sleep, and the top-level exception handler. *)
Definition reschedule_attempt (fuel : nat) (config_data : Preferences) : M unit :=
  try_except
    (bot <- login fuel (new_bot config_data) ;;
     (if active bot then search_and_book bot else ret bot) ;;
     Util.random_sleep w DVSA_DELAY 10)
    (fun e =>
       match e with
       | SessionNotCreated => sleep 30               (* bot.driver is None *)
       | _ =>
           Util.capture_screenshot w "top_level_exception" ;;
           try_except (driver_quit w) (fun _ => ret tt) ;;
           sleep 30
       end).

End WithWorld.
End Main.

(* ================================================================== *)
(** ** Concrete browsers and inputs used as test points *)
(* ================================================================== *)

Module Fixtures.

(** A browser that always shows the same page: URL [url], source [src],
    the elements selected by [present], an optional calendar, and no
    failing command. *)
Definition static_world (url src : string) (present : locator -> bool)
    (calendar : option (list Cell)) : World :=
  {| w_url := fun _ => url;
     w_source := fun _ => src;
     w_present := fun _ l => present l;
     w_count := fun _ _ => 0%nat;
     w_text := fun _ _ => "";
     w_attr := fun _ _ _ => None;
     w_calendar := fun _ => calendar;
     w_fault := fun _ => false;
     w_random := fun _ => (1#2)%Q;
     w_slot_time := fun _ => Some "09:30";
     w_screenshot_error := fun _ => WebDriverException |}.

Definition LOGIN_URL := "https://driverpracticaltest.dvsa.gov.uk/login".

(** The Imperva interstitial. *)
Definition FIREWALL_PAGE :=
  "<html><body>Request unsuccessful. Incapsula incident ID: 0-1</body></html>".

(** The DVSA error page. *)
Definition OOPS_PAGE := "<html><body><h1>Oops</h1></body></html>".

Definition PLAIN_PAGE := "<html><body>Booking details</body></html>".

Definition firewall_world : World :=
  static_world LOGIN_URL FIREWALL_PAGE (fun _ => false) None.

Definition oops_world : World :=
  static_world LOGIN_URL OOPS_PAGE (fun _ => false) None.

Definition plain_world : World :=
  static_world LOGIN_URL PLAIN_PAGE (fun _ => false) None.

(** The waiting room: every page is served from the queue domain. *)
Definition queue_world : World :=
  static_world Main.DVSA_QUEUE_URL PLAIN_PAGE (fun _ => false) None.

(** The page shown when somebody else took the slot. *)
Definition SLOT_TAKEN_PAGE :=
  "<html><body>The time chosen is no longer available</body></html>".

Definition candidate_button (l : locator) : bool :=
  match l with
  | ById id => String.eqb id "i-am-candidate"
  | _ => false
  end.

(** The slot-taken page with the "I am the candidate" button on it. *)
Definition taken_world : World :=
  static_world LOGIN_URL SLOT_TAKEN_PAGE candidate_button None.

(** The slot-taken page without that button. *)
Definition taken_world_no_button : World :=
  static_world LOGIN_URL SLOT_TAKEN_PAGE (fun _ => false) None.

Definition confirm_button (l : locator) : bool :=
  match l with
  | ById id => String.eqb id "i-am-candidate" || String.eqb id "confirm-changes"
  | _ => false
  end.

(** A page on which the slot is held and can be confirmed. *)
Definition held_world : World :=
  static_world LOGIN_URL PLAIN_PAGE confirm_button None.

(** A browser on which every element looked for is found. *)
Definition open_world : World :=
  static_world LOGIN_URL PLAIN_PAGE (fun _ => true) None.

Definition start : State := {| clock := 0; draws := 0; trace := [] |}.

(** No long-format current test date is ever parsed in the fixtures. *)
Definition no_long_date : string -> option PyDate.datetime := fun _ => None.

(** A bookable day cell carrying [date]. *)
Definition bookable (date : string) : Cell :=
  {| class_attr := Some "BookingCalendar-date--bookable";
     link := Some {| data_date := Some date |} |}.

(** A bookable day cell whose link has no [data-date] attribute. *)
Definition dateless : Cell :=
  {| class_attr := Some "BookingCalendar-date--bookable";
     link := Some {| data_date := None |} |}.

(** A day cell marked unavailable, without a link. *)
Definition greyed_out : Cell :=
  {| class_attr := Some "BookingCalendar-date--unavailable"; link := None |}.

(** 2025-06-01 and 2025-01-01, the bounds of the end-to-end scenario. *)
Definition JUNE_1 : PyDate.datetime :=
  {| PyDate.toordinal := 739403; PyDate.second_of_day := 0 |}.
Definition JAN_1 : PyDate.datetime :=
  {| PyDate.toordinal := 739252; PyDate.second_of_day := 0 |}.

(** The grid of the end-to-end scenario. *)
Definition march_grid : list Cell :=
  [bookable "2025-03-10"; bookable "2025-03-15"; bookable "2025-03-17"].

(** The browser [w] with the commands selected by [fault] failing, a
    failing screenshot raising [err]. *)
Definition with_faults (fault : nat -> bool) (err : exn) (w : World) : World :=
  {| w_url := w_url w;
     w_source := w_source w;
     w_present := w_present w;
     w_count := w_count w;
     w_text := w_text w;
     w_attr := w_attr w;
     w_calendar := w_calendar w;
     w_fault := fault;
     w_random := w_random w;
     w_slot_time := w_slot_time w;
     w_screenshot_error := fun _ => err |}.

(** The calendar of the end-to-end scenario, and the same with the
    driver failing at the third read of the scan. *)
Definition march_world : World :=
  static_world LOGIN_URL PLAIN_PAGE (fun _ => false) (Some march_grid).

Definition flaky_march_world : World :=
  with_faults (fun t => (t =? 2)%nat) WebDriverException march_world.

End Fixtures.

(* ================================================================== *)
(** ** The specification's wording of the classifier *)
(* ================================================================== *)

Module Spec.

(** [needle] occurs in [text], letter case ignored ([needle] is given in
    lower case). *)
Definition occurs (needle text : string) : bool :=
  PyStr.contains needle (PyStr.lower text).

(** The checks of the page classifier in their priority order, each with
    the state it yields: queue URL, firewall signature in the content,
    login banner in the content, "oops" in the content. *)
Definition classifier_rules : list ((string -> string -> bool) * PageState) :=
  [ (fun url _ => occurs Util.QUEUE_DOMAIN url, queue);
    (fun _ content => occurs Util.REQUEST_UNSUCCESSFUL content
                      && occurs Util.INCIDENT_ID content, firewall);
    (fun _ content => occurs Util.LOGIN_BANNER content, login_required);
    (fun _ content => occurs Util.OOPS content, error) ].

(** First-match priority: the state of the first check that fires, else
    [ok]. *)
Fixpoint first_match (rules : list ((string -> string -> bool) * PageState))
    (url content : string) : PageState :=
  match rules with
  | [] => ok
  | (check, st) :: rest =>
      if check url content then st else first_match rest url content
  end.

End Spec.

(* ================================================================== *)
(** ** The specification's wording of the calendar scanner *)
(* ================================================================== *)

Module ScanSpec.

(** The date a day cell offers: the [data-date] of its link, when the
    cell has a link whose date reads as a YYYY-MM-DD date. *)
Definition cell_date (c : Cell) : option (string * PyDate.datetime) :=
  match link c with
  | Some l =>
      match data_date l with
      | Some s =>
          match PyDate.strptime_ymd s with
          | Ok dt => Some (s, dt)
          | _ => None
          end
      | None => None
      end
  | None => None
  end.

(** A day satisfies the filter: it is not marked unavailable and its
    date is before the minimum bound, after the maximum bound, not
    excluded, a weekday, and not the formatted existing test date. *)
Definition qualifies (min_date max_date : PyDate.datetime)
    (exclusion : list string) (formatted : string) (c : Cell) : bool :=
  negb (Util.marked_unavailable c)
  && match cell_date c with
     | Some (s, dt) => Util.date_condition min_date max_date exclusion formatted s dt
     | None => false
     end.

(** The first day, in document order from position [i], that satisfies
    the filter. *)
Fixpoint first_qualifying (min_date max_date : PyDate.datetime)
    (exclusion : list string) (formatted : string)
    (i : nat) (days : list Cell) : Util.scan_result :=
  match days with
  | [] => Util.NotFound
  | c :: rest =>
      if qualifies min_date max_date exclusion formatted c then
        match cell_date c with
        | Some (s, _) => Util.Found s i
        | None => Util.NotFound
        end
      else first_qualifying min_date max_date exclusion formatted (S i) rest
  end.

(** The scan gets past a cell: it is marked unavailable, or has no link,
    or its link carries a date in YYYY-MM-DD form. *)
Definition readable (c : Cell) : bool :=
  Util.marked_unavailable c
  || match link c with
     | None => true
     | Some _ => match cell_date c with Some _ => true | None => false end
     end.

(** Every cell before the first qualifying one is readable. *)
Fixpoint readable_until_match (min_date max_date : PyDate.datetime)
    (exclusion : list string) (formatted : string) (days : list Cell) : bool :=
  match days with
  | [] => true
  | c :: rest =>
      qualifies min_date max_date exclusion formatted c
      || (readable c
          && readable_until_match min_date max_date exclusion formatted rest)
  end.

Definition earlier (a b : PyDate.datetime) : PyDate.datetime :=
  if PyDate.lt a b then a else b.

(** The scanner contract as worded: whenever the bounds are [min_date]
    and [max_date], the scanner returns the first qualifying day of the
    grid. *)
Definition returns_first_qualifying
    (strptime_long : string -> option PyDate.datetime) (grid : list Cell)
    (before_date after_date : string) (exclusion : list string)
    (current_test_date formatted : string) : Prop :=
  forall min_date max_date,
    Util.scan_bounds strptime_long before_date after_date current_test_date
    = Ok (min_date, max_date) ->
    fst (Util.scan_for_preferred_tests strptime_long (Some grid)
           before_date after_date exclusion current_test_date formatted)
    = Ok (first_qualifying min_date max_date exclusion formatted 0 grid).

(** A cell marked unavailable with whatever link it had removed. *)
Definition without_link (c : Cell) : Cell :=
  if Util.marked_unavailable c
  then {| class_attr := class_attr c; link := None |}
  else c.

End ScanSpec.

(* ================================================================== *)
(** ** Traces: what a computation adds to the record of effects *)
(* ================================================================== *)

(** Every event a computation adds to the trace satisfies [P]. *)
Definition emits (P : event -> Prop) {A} (m : M A) : Prop :=
  forall s, exists new,
    trace (snd (m s)) = (new ++ trace s)%list /\ Forall P new.

(** Events other than assignments to [self.active]. *)
Definition not_set_active (e : event) : Prop :=
  match e with
  | SetActive _ => False
  | _ => True
  end.

(** Events other than assignments to [self.active] and clicks on the
    "confirm-changes" button. *)
Definition not_confirm (e : event) : Prop :=
  match e with
  | SetActive _ => False
  | Click l => l <> ById "confirm-changes"
  | _ => True
  end.

(** Events other than the record of a classification. *)
Definition not_classified (e : event) : Prop :=
  match e with
  | Classified _ => False
  | _ => True
  end.

(* ================================================================== *)
(** ** The specification's wording of the booking finalizer *)
(* ================================================================== *)

Module FinalizerSpec.
Section WithWorld.
Variable w : World.
Variables (solve_manually : bool) (coord_top_right : Q * Q)
          (coord_bottom_left : option (Q * Q)).

Definition CONFIRM := Click (ById "confirm-changes").

(** As worded: when the page shows the slot-taken text, the flow returns
    the slot-taken failure. *)
Definition slot_taken_is_reported (auto_book_test : bool) (s : State) : Prop :=
  (forall t, Spec.occurs Util.SLOT_TAKEN_TEXT (w_source w t) = true) ->
  fst (Util.book_test_flow w false solve_manually coord_top_right
         coord_bottom_left auto_book_test s) = Ok false.

(** As worded: the confirmation is clicked exactly when the flag is
    set, and without the flag the flow returns success. *)
Definition confirms_iff_auto_book (auto_book_test : bool) (s : State) : Prop :=
  let out := Util.book_test_flow w false solve_manually coord_top_right
               coord_bottom_left auto_book_test s in
  (In CONFIRM (trace (snd out)) <-> auto_book_test = true)
  /\ (auto_book_test = false -> fst out = Ok true).

(** An attempt up to its slot-taken check: the pause, the candidate
    button, the frame switch, and the page source read for the check. *)
Definition reach_check (i_am_candidate_clicked : bool) : M string :=
  sleep (3#10) ;;
  Util.click_candidate w i_am_candidate_clicked ;;
  switch_to_default_content w ;;
  try_except
    (main_frame <- find_element w (ById "main-iframe") ;;
     switch_to_frame w main_frame)
    (fun e => match e with
              | NoSuchElementException => ret tt
              | _ => raise e
              end) ;;
  page_source w.

(** [attempt_starts s0 n c s]: in the flow started in state [s0], an
    attempt starts in state [s] with [n] attempts left (this one
    included) and [i_am_candidate_clicked = c]. *)
Inductive attempt_starts (s0 : State) : nat -> bool -> State -> Prop :=
| first_attempt : attempt_starts s0 4 false s0
| next_attempt n c s c' s1 s2 :
    attempt_starts s0 (S n) c s ->
    Util.attempt_try w solve_manually coord_top_right coord_bottom_left c s
    = (Ok (c', None), s1) ->
    Util.attempt_retry w s1 = (Ok tt, s2) ->
    attempt_starts s0 n c' s2.

End WithWorld.
End FinalizerSpec.

(** Computations that always return normally. *)
Definition returns {A} (m : M A) : Prop :=
  forall s, exists a s', m s = (Ok a, s').

Definition count_event (p : event -> bool) (s : State) : nat :=
  length (filter p (trace s)).

Definition is_refresh (e : event) : bool :=
  match e with Refresh => true | _ => false end.

Definition is_classification (e : event) : bool :=
  match e with Classified _ => true | _ => false end.

(* ================================================================== *)
(** ** The specification's wording of the session invariant *)
(* ================================================================== *)

Module SessionSpec.

(** The events of a session in the order they happened. *)
Definition history (s : State) : list event := rev (trace s).

(** The value of [self.active] after a history; a new bot is inactive. *)
Definition active_after (h : list event) : bool :=
  fold_left (fun a e => match e with SetActive b => b | _ => a end) h false.

(** The login form has been submitted (or looked for) earlier on. *)
Definition credentials_entered (h : list event) : bool :=
  existsb (fun e => match e with
                    | Find (ById id) => String.eqb id "booking-login"
                    | _ => false
                    end) h.

(** The classification before this one, if any. *)
Definition last_classification (h : list event) : option PageState :=
  fold_left (fun a e => match e with Classified st => Some st | _ => a end) h None.

(** Terminal failure states: [error]; [firewall] seen again after the
    firewall has just been handled; [login_required] once credentials were
    entered. *)
Definition terminal_failure (before : list event) (st : PageState) : bool :=
  match st with
  | error => true
  | firewall =>
      match last_classification before with
      | Some firewall => true
      | _ => false
      end
  | login_required => credentials_entered before
  | _ => false
  end.

(** The invariant as worded: at a classification that returns a terminal
    failure state the flag is false (it already is, or is set so at once),
    and no page interaction follows. *)
Definition invariant_as_worded (h : list event) : Prop :=
  forall before st after,
    h = (before ++ Classified st :: after)%list ->
    terminal_failure before st = true ->
    (active_after before = false \/ hd_error after = Some (SetActive false))
    /\ Forall (fun e => is_interaction e = false) after.

Definition no_deactivation (e : event) : Prop := e <> SetActive false.

(** Events after which the session is still as it was: pauses. *)
Definition is_pause (e : event) : Prop :=
  match e with
  | Sleep _ => True
  | _ => False
  end.

(** What holds instead: only pauses follow an assignment
    [self.active = False]. *)
Definition only_pauses_after_deactivation (h : list event) : Prop :=
  forall before after,
    h = (before ++ SetActive false :: after)%list ->
    Forall is_pause after.

(** In the events [new] that a call has added (newest first), the first
    classification decides: when it did not return [ok], the assignment
    [self.active = False] follows it at once and is the last event of the
    call, and the flag handed back is false. *)
Definition first_classification_decides (new : list event) (flag : bool)
  : Prop :=
  forall after st before,
    new = (after ++ Classified st :: before)%list ->
    Forall not_classified before ->
    st <> ok ->
    after = [SetActive false] /\ flag = false.

(** No [self.active = False] so far. *)
Definition undeactivated (s : State) : Prop :=
  Forall no_deactivation (trace s).

(** [self.active = False] happened once, and only pauses since. *)
Definition settled (s : State) : Prop :=
  exists pauses before,
    trace s = (pauses ++ SetActive false :: before)%list
    /\ Forall is_pause pauses
    /\ Forall no_deactivation before.

(** The outcome of a part of the session started before any
    deactivation: a normal return leaves the session undeactivated with a
    value satisfying [phi], or settled with a value satisfying [psi];
    exceptions and unfinished loops only happen undeactivated. *)
Definition outcome {A} (phi psi : A -> Prop) (o : res A * State) : Prop :=
  match fst o with
  | Ok a => (phi a /\ undeactivated (snd o)) \/ (psi a /\ settled (snd o))
  | _ => undeactivated (snd o)
  end.

Definition session_ok {A} (phi psi : A -> Prop) (m : M A) : Prop :=
  forall s, undeactivated s -> outcome phi psi (m s).

(** A computation that only pauses and returns a value satisfying
    [psi]. *)
Definition calm {A} (psi : A -> Prop) (m : M A) : Prop :=
  forall s, exists a s' new,
    m s = (Ok a, s') /\ psi a
    /\ trace s' = (new ++ trace s)%list /\ Forall is_pause new.

(** A configuration for the test points. *)
Definition sample_preferences : Main.Preferences :=
  {| Main.licence := "SMITH901010J99AB";
     Main.booking := "12345678";
     Main.current_test_date := "Yes";
     Main.center := ["Halifax"];
     Main.before_date := "2025-06-01";
     Main.after_date := "2025-01-01";
     Main.disabled_dates := ["2025-03-10"] |}.

End SessionSpec.

(** A property of the value and state of a computation that returns. *)
Definition on_return {A} (P : A -> State -> Prop) (o : res A * State) : Prop :=
  match fst o with
  | Ok a => P a (snd o)
  | _ => True
  end.

(** [login] returned an active bot only right after a classification
    [ok]. *)
Definition activated_after_ok (b : Main.DVSABot) (s : State) : Prop :=
  Main.active b = true ->
  exists rest, trace s = SetActive true :: Classified ok :: rest.

(** An early [return] of the summary step hands back an inactive bot. *)
Definition early_return_inactive (r : Main.DVSABot + Main.DVSABot) (s : State)
  : Prop :=
  match r with
  | inl b => Main.active b = false
  | inr _ => True
  end.

(* ================================================================== *)
(** ** The rest of util.py and main.py *)
(* ================================================================== *)

(** Python [datetime.time] values: compared field by field, hour first. *)
Module PyTime.

Record time := { hour : Z; minute : Z; second : Z; microsecond : Z }.


Definition compare (a b : time) : comparison :=
  match Z.compare (hour a) (hour b) with
  | Eq =>
      match Z.compare (minute a) (minute b) with
      | Eq =>
          match Z.compare (second a) (second b) with
          | Eq => Z.compare (microsecond a) (microsecond b)
          | c => c
          end
      | c => c
      end
  | c => c
  end.

(** [a < b] and [a <= b]. *)
Definition lt (a b : time) : bool :=
  match compare a b with Lt => true | _ => false end.


End PyTime.

Module UtilRest.


Section Network.
(** Whether the n-th [requests.get("https://www.google.com/", timeout=5)]
    comes back with [resp.ok]; an exception counts as a failure. *)
Variable online : nat -> bool.

(** The [while True] loop of [wait_for_internet_connection], at its
    probe number [probe]; [fuel] bounds the iterations followed. *)
Fixpoint wait_loop (fuel : nat) (probe : nat) : M unit :=
  match fuel with
  | O => diverge
  | S fuel' =>
      if online probe then ret tt
      else
        sleep 1 ;;
        wait_loop fuel' (S probe)
  end.

(** [wait_for_internet_connection()]. *)
Definition wait_for_internet_connection (fuel : nat) : M unit :=
  wait_loop fuel 0.

End Network.
End UtilRest.

Module MainRest.


Section WithWorld.
Variable w : World.

(** The [for _ in range(5)] loop of [run_initial_booking_flow] ("Solve
    captcha/firewall"), with [n] iterations left. *)
Fixpoint initial_firewall_loop (n : nat) : M unit :=
  match n with
  | O => ret tt
  | S n' =>
      status <- Util.check_firewall_and_queue w ;;
      match status with
      | queue | firewall =>
          solved <- Util.solve_captcha w Main.SOLVE_MANUALLY
                      Main.COORD_TOP_RIGHT Main.COORD_BOTTOM_LEFT ;;
          if negb solved then
            refresh w ;;
            sleep 3 ;;
            initial_firewall_loop n'                        (* continue *)
          else ret tt                                       (* break *)
      | ok | login_required => ret tt                       (* break *)
      | error =>
          sleep 3 ;;
          refresh w ;;
          sleep 2 ;;
          initial_firewall_loop n'
      end
  end.

End WithWorld.
End MainRest.

(* ================================================================== *)
(** ** Vocabulary for the further properties *)
(* ================================================================== *)

Module MoreSpec.

(** The characters sent to text boxes, newest first. *)
Fixpoint keys_sent (tr : list event) : list ascii :=
  match tr with
  | [] => []
  | SendKeys _ c :: rest => c :: keys_sent rest
  | _ :: rest => keys_sent rest
  end.

(** The priority of a page state in the classifier. *)
Definition rank (st : PageState) : nat :=
  match st with
  | queue => 4
  | firewall => 3
  | login_required => 2
  | error => 1
  | ok => 0
  end.


(** A browser that is always connected, and one that connects at its
    third probe. *)
Definition third_probe (n : nat) : bool := (2 <=? n)%nat.

(** A browser on which the licence box is there and nothing fails. *)
Definition licence_box (l : locator) : bool :=
  match l with
  | ById id => String.eqb id "driving-licence-number"
  | _ => false
  end.

Definition form_world : World :=
  Fixtures.static_world Fixtures.LOGIN_URL Fixtures.PLAIN_PAGE licence_box None.

(** The last effect is the assignment of the bot's flag. *)
Definition just_assigned (b : Main.DVSABot) (s : State) : Prop :=
  exists rest, trace s = SetActive (Main.active b) :: rest.

Definition just_assigned_early (r : Main.DVSABot + Main.DVSABot) (s : State)
  : Prop :=
  match r with
  | inl b => just_assigned b s
  | inr _ => True
  end.

(** The bot is [bot] but for its flag. *)
Definition same_but_flag (bot b : Main.DVSABot) : Prop :=
  Main.preferences b = Main.preferences bot
  /\ Main.current_centre_index b = Main.current_centre_index bot.

(** A login page with both credential boxes on it. *)
Definition credential_boxes (l : locator) : bool :=
  match l with
  | ById id => String.eqb id "driving-licence-number"
               || String.eqb id "application-reference-number"
  | _ => false
  end.

Definition login_form_world : World :=
  Fixtures.static_world Fixtures.LOGIN_URL Fixtures.PLAIN_PAGE
    credential_boxes None.

(** Events other than [driver.quit()]. *)
Definition not_quit (e : event) : Prop :=
  match e with
  | Quit => False
  | _ => True
  end.

(** Clicks on the calendar's "previous month" arrow. *)
Definition is_prev_click (e : event) : bool :=
  match e with
  | Click (ByClassName c) => String.eqb c "BookingCalendar-nav--prev"
  | _ => false
  end.

(** Events other than clicks on a page element. *)
Definition not_click (e : event) : Prop :=
  match e with
  | Click _ => False
  | _ => True
  end.

(** A computation adds at most [k] events of kind [p] to the trace. *)
Definition adds_at_most (p : event -> bool) (k : nat) {A} (m : M A) : Prop :=
  forall s, (count_event p (snd (m s)) <= count_event p s + k)%nat.

(** A calendar that always shows the same month and always has a
    "previous month" arrow. *)
Definition stuck_calendar : World :=
  {| w_url := fun _ => "https://driverpracticaltest.dvsa.gov.uk/manage";
     w_source := fun _ => "";
     w_present := fun _ _ => true;
     w_count := fun _ _ => 0%nat;
     w_text := fun _ _ => "March 2025";
     w_attr := fun _ _ _ => None;
     w_calendar := fun _ => None;
     w_fault := fun _ => false;
     w_random := fun _ => 0%Q;
     w_slot_time := fun _ => None;
     w_screenshot_error := fun _ => WebDriverException |}.

(** A browser that starts and then stops answering: every command after
    the first fails, the screenshot with the HTTP client's error. *)
Definition dead_driver_world : World :=
  Fixtures.with_faults (fun t => (1 <=? t)%nat) OtherException
    Fixtures.plain_world.

(** An active bot with two centres. *)
Definition two_centre_bot : Main.DVSABot :=
  {| Main.preferences :=
       Main.set_center SessionSpec.sample_preferences ["Halifax"; "Leeds"];
     Main.active := true;
     Main.current_centre_index := 0 |}.

End MoreSpec.

(* ================================================================== *)
(** * Properties *)
(* ================================================================== *)

Module PyStrFacts.
Import PyStr.

Lemma prefix_app (n h : string) :
  String.prefix n h = true <-> exists q, h = n ++ q.
Proof.
  revert h; induction n as [|c n IH]; intros h; simpl.
  - split; [intros _; exists h; reflexivity | destruct h; reflexivity].
  - destruct h as [|d h]; simpl.
    + split; [discriminate | intros [q Hq]; discriminate].
    + destruct (Ascii.ascii_dec c d) as [E|Hne].
      * subst d. rewrite IH. split; intros [q Hq]; exists q.
        -- now rewrite Hq.
        -- now inversion Hq.
      * split; [discriminate | intros [q Hq]; inversion Hq; subst; now elim Hne].
Qed.

Lemma contains_app (n h : string) :
  contains n h = true <-> exists p q, h = p ++ n ++ q.
Proof.
  induction h as [|d h IH]; cbn [contains].
  - rewrite orb_false_r, prefix_app. split.
    + intros [q Hq]. exists "", q. exact Hq.
    + intros [p [q Hq]]. destruct p; [exists q; exact Hq|discriminate].
  - rewrite orb_true_iff, prefix_app, IH. split.
    + intros [[q Hq] | [p [q Hq]]].
      * exists "", q. exact Hq.
      * exists (String d p), q. simpl. now rewrite Hq.
    + intros [p [q Hq]]. destruct p as [|e p]; simpl in Hq.
      * left. exists q. exact Hq.
      * right. exists p, q. now inversion Hq.
Qed.

Lemma lower_app (a b : string) : lower (a ++ b) = lower a ++ lower b.
Proof. induction a as [|c a IH]; simpl; [reflexivity | now rewrite IH]. Qed.

(** Lower-casing keeps every occurrence: a needle found in the raw text is
    found, lower-cased, in the lower-cased text. *)
Lemma contains_lower (n h : string) :
  contains n h = true -> contains (lower n) (lower h) = true.
Proof.
  rewrite !contains_app. intros [p [q ->]].
  exists (lower p), (lower q). now rewrite !lower_app.
Qed.

End PyStrFacts.

(* ------------------------------------------------------------------ *)
(** ** Reasoning about computations and their traces *)
(* ------------------------------------------------------------------ *)

Module MonadFacts.

Lemma bind_ok {A B} (m : M A) (f : A -> M B) s a s' :
  m s = (Ok a, s') -> bind m f s = f a s'.
Proof. unfold bind. now intros ->. Qed.

Lemma bind_raise {A B} (m : M A) (f : A -> M B) s e s' :
  m s = (Raise e, s') -> bind m f s = (Raise e, s').
Proof. unfold bind. now intros ->. Qed.

Lemma bind_ok_inv {A B} (m : M A) (f : A -> M B) s b s'' :
  bind m f s = (Ok b, s'') ->
  exists a s', m s = (Ok a, s') /\ f a s' = (Ok b, s'').
Proof.
  unfold bind. destruct (m s) as [[a|e|] s']; intros H; try discriminate.
  eauto.
Qed.

Lemma reify_ok {A} (m : M A) s a s' :
  m s = (Ok a, s') -> Util.reify m s = (Ok (inr a), s').
Proof. unfold Util.reify, try_except, bind, ret. now intros ->. Qed.

Lemma reify_raise {A} (m : M A) s e s' :
  m s = (Raise e, s') -> Util.reify m s = (Ok (inl e), s').
Proof. unfold Util.reify, try_except, bind, ret. now intros ->. Qed.

Lemma find_element_value w l s a s' :
  find_element w l s = (Ok a, s') -> a = l.
Proof.
  unfold find_element, command.
  destruct (w_fault w (clock s)); [discriminate|].
  destruct (w_present w (clock s) l); [|discriminate].
  now intros [= <- _].
Qed.

End MonadFacts.

Module TraceFacts.
Import MonadFacts.

Section Emits.
Variable P : event -> Prop.

Lemma emits_ret {A} (a : A) : emits P (ret a).
Proof. intros s. exists []. split; [reflexivity | constructor]. Qed.

Lemma emits_raise {A} (e : exn) : emits P (@raise A e).
Proof. intros s. exists []. split; [reflexivity | constructor]. Qed.

Lemma emits_diverge {A} : emits P (@diverge A).
Proof. intros s. exists []. split; [reflexivity | constructor]. Qed.

Lemma emits_lift_res {A} (r : res A) : emits P (Main.lift_res r).
Proof. intros s. exists []. split; [reflexivity | constructor]. Qed.

Lemma emits_emit (e : event) : P e -> emits P (emit e).
Proof.
  intros H s. exists [e]. split; [reflexivity | repeat constructor; exact H].
Qed.

Lemma emits_sleep (q : Q) : P (Sleep q) -> emits P (sleep q).
Proof. apply emits_emit. Qed.

Lemma emits_command {A} w (e : event) (err : exn) (k : nat -> res A) :
  P e -> emits P (command w e err k).
Proof.
  intros H s. exists [e]. unfold command.
  destruct (w_fault w (clock s)); (split; [reflexivity | repeat constructor; exact H]).
Qed.

Lemma emits_get_screenshot_as_file w (label : string) :
  P (Screenshot label) -> emits P (get_screenshot_as_file w label).
Proof. intros H s. exact (emits_command w _ _ _ H s). Qed.

Lemma emits_uniform w (a b : Q) : emits P (uniform w a b).
Proof. intros s. exists []. split; [reflexivity | constructor]. Qed.

Lemma emits_bind {A B} (m : M A) (f : A -> M B) :
  emits P m ->
  (forall a s s', m s = (Ok a, s') -> emits P (f a)) ->
  emits P (bind m f).
Proof.
  intros Hm Hf s. unfold bind.
  destruct (Hm s) as [n1 [E1 F1]].
  destruct (m s) as [[a|e|] s'] eqn:E; simpl in E1.
  - destruct (Hf a s s' E s') as [n2 [E2 F2]].
    exists (n2 ++ n1)%list. split.
    + rewrite E2, E1. now rewrite app_assoc.
    + apply Forall_app. split; assumption.
  - exists n1. split; assumption.
  - exists n1. split; assumption.
Qed.

Lemma emits_try_except {A} (m : M A) (h : exn -> M A) :
  emits P m -> (forall e, emits P (h e)) -> emits P (try_except m h).
Proof.
  intros Hm Hh s. unfold try_except.
  destruct (Hm s) as [n1 [E1 F1]].
  destruct (m s) as [[a|e|] s'] eqn:E; simpl in E1.
  - exists n1. split; assumption.
  - destruct (Hh e s') as [n2 [E2 F2]].
    exists (n2 ++ n1)%list. split.
    + rewrite E2, E1. now rewrite app_assoc.
    + apply Forall_app. split; assumption.
  - exists n1. split; assumption.
Qed.

Lemma emits_reify {A} (m : M A) : emits P m -> emits P (Util.reify m).
Proof.
  intros H. unfold Util.reify. apply emits_try_except.
  - apply emits_bind; [exact H | intros; apply emits_ret].
  - intros e. apply emits_ret.
Qed.

End Emits.

Lemma emits_weaken (P Q : event -> Prop) {A} (m : M A) :
  (forall e, P e -> Q e) -> emits P m -> emits Q m.
Proof.
  intros I H s. destruct (H s) as [new [E F]]. exists new. split; [exact E|].
  eapply Forall_impl; eauto.
Qed.

Lemma not_confirm_not_set_active e : not_confirm e -> not_set_active e.
Proof. destruct e; simpl; auto. Qed.

(** One syntax-directed step of a proof that a computation only emits
    events of a given kind. *)
Ltac emits_prim :=
  first
    [ apply emits_get_screenshot_as_file
    | unfold start_browser, driver_get, current_url, page_source, find_element,
        find_elements, click, clear, send_keys, element_text, get_attribute,
        refresh, switch_to_default_content, switch_to_frame, execute_script,
        driver_quit, moveTo, mouseDown, mouseUp, send_text;
      apply emits_command ];
  simpl; try exact I; try congruence.

Ltac emits_step :=
  lazymatch goal with
  | |- emits _ (bind (find_element _ _) _) =>
      apply emits_bind;
      [ emits_prim
      | let a := fresh "el" in
        let E := fresh "E" in
        intros a ? ? E; apply find_element_value in E; subst a ]
  | |- emits _ (bind _ _) => apply emits_bind; [| intros ? ? ? _]
  | |- emits _ (ret _) => apply emits_ret
  | |- emits _ (raise _) => apply emits_raise
  | |- emits _ diverge => apply emits_diverge
  | |- emits _ (Main.lift_res _) => apply emits_lift_res
  | |- emits _ (uniform _ _ _) => apply emits_uniform
  | |- emits _ (sleep _) => apply emits_sleep; exact I
  | |- emits _ (emit _) => apply emits_emit; simpl; try exact I; try congruence
  | |- emits _ (try_except _ _) => apply emits_try_except; [| intros ?]
  | |- emits _ (Util.reify _) => apply emits_reify
  | |- emits _ (if ?b then _ else _) => destruct b
  | |- emits _ (match ?x with _ => _ end) => destruct x
  | |- emits _ (let '(_, _) := ?x in _) => destruct x
  | |- emits _ _ => first [ solve [eauto with emits] | emits_prim ]
  end.

Ltac emits_auto := repeat emits_step.

End TraceFacts.

(* ------------------------------------------------------------------ *)
(** ** The click helper *)
(* ------------------------------------------------------------------ *)

Module ClickerFacts.

(** The click helper always returns: every exception is turned into
    [False]. *)
Lemma hardware_click_range_returns w top_right bottom_left s :
  exists b s', Clicker.hardware_click_range w top_right bottom_left s = (Ok b, s').
Proof.
  unfold Clicker.hardware_click_range, try_except.
  match goal with |- context [match ?m s with _ => _ end] => destruct (m s) as [[b|e|] s'] eqn:E end.
  - eauto.
  - unfold ret. eauto.
  - exfalso. revert E.
    assert (P : forall x y s0, fst (Clicker._perform_click w x y s0) <> Diverge).
    { intros x y s0. unfold Clicker._perform_click, bind, uniform, moveTo, mouseDown,
        mouseUp, sleep, emit, command, ret. simpl.
      repeat (match goal with |- context [w_fault w ?t] => destruct (w_fault w t) end; simpl);
        discriminate. }
    destruct bottom_left as [[x1 y1]|]; [destruct top_right as [x2 y2]|].
    + destruct (Qle_bool x2 x1 || Qle_bool y2 y1); [discriminate|].
      unfold bind, uniform. simpl. intros E. eapply P. rewrite E. reflexivity.
    + intros E. eapply P. rewrite E. reflexivity.
Qed.

(** C10. Called with a bottom-left corner, [hardware_click_range] returns
    [False] and does nothing at all (no mouse move, no click, no sleep, no
    random draw) whenever the top-right corner is not strictly greater than
    the bottom-left corner in both the x and the y dimension. *)
Theorem hardware_click_range_rejects_bad_box
    (w : World) (top_right bottom_left : Q * Q) (s : State) :
  ~ (fst bottom_left < fst top_right /\ snd bottom_left < snd top_right)%Q ->
  Clicker.hardware_click_range w top_right (Some bottom_left) s = (Ok false, s).
Proof.
  destruct top_right as [x2 y2], bottom_left as [x1 y1]; simpl. intros H.
  unfold Clicker.hardware_click_range, try_except.
  assert (E : Qle_bool x2 x1 || Qle_bool y2 y1 = true).
  { apply orb_true_iff.
    destruct (Qlt_le_dec x1 x2) as [Hx|Hx]; [|left; now apply Qle_bool_iff].
    destruct (Qlt_le_dec y1 y2) as [Hy|Hy]; [|right; now apply Qle_bool_iff].
    exfalso. apply H. split; assumption. }
  rewrite E. reflexivity.
Qed.

(** The box of the comment in [main.py], [COORD_BOTTOM_LEFT = (1020, 485)]
    under [COORD_TOP_RIGHT = (820, 420)], is such a box. *)
Lemma hardware_click_range_rejects_bad_box_witness :
  Clicker.hardware_click_range Fixtures.plain_world (820, 420)%Q
    (Some (1020, 485)%Q) Fixtures.start = (Ok false, Fixtures.start).
Proof.
  apply (hardware_click_range_rejects_bad_box Fixtures.plain_world
           (820, 420)%Q (1020, 485)%Q Fixtures.start).
  simpl. intros [H _]. revert H. unfold Qlt. simpl. lia.
Defined.

End ClickerFacts.

(* ------------------------------------------------------------------ *)
(** ** What the functions of util.py and clicker.py add to the trace *)
(* ------------------------------------------------------------------ *)

Create HintDb emits.

Module UtilTrace.
Import MonadFacts TraceFacts.

Section WithWorld.
Variable w : World.

Lemma emits_perform_click x y : emits not_confirm (Clicker._perform_click w x y).
Proof. unfold Clicker._perform_click. emits_auto. Qed.
Hint Resolve emits_perform_click : emits.

Lemma emits_hardware_click_range top_right bottom_left :
  emits not_confirm (Clicker.hardware_click_range w top_right bottom_left).
Proof.
  unfold Clicker.hardware_click_range. destruct top_right. emits_auto.
Qed.
Hint Resolve emits_hardware_click_range : emits.

Lemma emits_random_sleep base max_extra :
  emits not_confirm (Util.random_sleep w base max_extra).
Proof. unfold Util.random_sleep. emits_auto. Qed.
Hint Resolve emits_random_sleep : emits.

Lemma emits_capture_screenshot label :
  emits not_confirm (Util.capture_screenshot w label).
Proof. unfold Util.capture_screenshot. emits_auto. Qed.

Lemma emits_send_text_available d t :
  emits not_confirm (Util.send_text_available w d t).
Proof. unfold Util.send_text_available. emits_auto. Qed.

Lemma emits_send_text_test_found c d t sn :
  emits not_confirm (Util.send_text_test_found w c d t sn).
Proof. unfold Util.send_text_test_found. emits_auto. Qed.

Lemma emits_type_chars box text : emits not_confirm (Util.type_chars w box text).
Proof. induction text as [|c text IH]; simpl; emits_auto. Qed.
Hint Resolve emits_type_chars : emits.

Lemma emits_input_text_box box_id text :
  emits not_confirm (Util.input_text_box w box_id text).
Proof. unfold Util.input_text_box. emits_auto. Qed.

Lemma emits_check_firewall_and_queue :
  emits not_confirm (Util.check_firewall_and_queue w).
Proof. unfold Util.check_firewall_and_queue. emits_auto. Qed.
Hint Resolve emits_check_firewall_and_queue : emits.

Lemma emits_solve_captcha skip ctr cbl :
  emits not_confirm (Util.solve_captcha w skip ctr cbl).
Proof. unfold Util.solve_captcha. emits_auto. Qed.
Hint Resolve emits_solve_captcha : emits.

Lemma not_confirm_access a : not_confirm (Util.access_event a).
Proof. destruct a; exact I. Qed.

Lemma emits_scan_on_driver strptime_long b a u c f :
  emits not_confirm (Util.scan_on_driver w strptime_long b a u c f).
Proof.
  intros s. unfold Util.scan_on_driver.
  destruct (Util.scan_for_preferred_tests _ _ _ _ _ _ _) as [r log].
  destruct (Util.reads_done _ _ _) as [failed done]. simpl.
  eexists. split; [reflexivity|].
  apply Forall_rev, Forall_map, Forall_forall. intros x _. apply not_confirm_access.
Qed.

Lemma emits_click_candidate clicked :
  emits not_confirm (Util.click_candidate w clicked).
Proof. unfold Util.click_candidate. emits_auto. Qed.
Hint Resolve emits_click_candidate : emits.

Lemma emits_after_candidate sm ctr cbl :
  emits not_confirm (Util.after_candidate w sm ctr cbl).
Proof. unfold Util.after_candidate. emits_auto. Qed.
Hint Resolve emits_after_candidate : emits.

Lemma emits_attempt_try sm ctr cbl clicked :
  emits not_confirm (Util.attempt_try w sm ctr cbl clicked).
Proof. unfold Util.attempt_try. emits_auto. Qed.
Hint Resolve emits_attempt_try : emits.

Lemma emits_attempt_retry : emits not_confirm (Util.attempt_retry w).
Proof. unfold Util.attempt_retry. emits_auto. Qed.
Hint Resolve emits_attempt_retry : emits.

(** The attempt loop never clicks "confirm-changes". *)
Lemma emits_booking_loop n sm ctr cbl clicked :
  emits not_confirm (Util.booking_loop w n sm ctr cbl clicked).
Proof.
  revert clicked. induction n as [|n IH]; intros clicked; simpl; emits_auto.
Qed.

Lemma emits_after_confirm_click sm ctr cbl :
  emits not_confirm (Util.after_confirm_click w sm ctr cbl).
Proof. unfold Util.after_confirm_click. emits_auto. Qed.

Lemma emits_confirm_changes sm ctr cbl :
  emits not_set_active (Util.confirm_changes w sm ctr cbl).
Proof.
  unfold Util.confirm_changes.
  repeat first
    [ apply (emits_weaken not_confirm not_set_active);
      [exact not_confirm_not_set_active | apply emits_after_confirm_click]
    | emits_step ].
Qed.

Lemma emits_book_test_flow sn sm ctr cbl auto :
  emits not_set_active (Util.book_test_flow w sn sm ctr cbl auto).
Proof.
  unfold Util.book_test_flow. apply emits_bind.
  - apply (emits_weaken not_confirm not_set_active);
      [exact not_confirm_not_set_active | apply emits_booking_loop].
  - intros x _ _ _. destruct x; try apply emits_ret.
    destruct auto; [apply emits_confirm_changes | apply emits_ret].
Qed.

End WithWorld.

#[export] Hint Resolve emits_perform_click emits_hardware_click_range
  emits_random_sleep emits_capture_screenshot emits_send_text_available
  emits_send_text_test_found emits_type_chars emits_input_text_box
  emits_check_firewall_and_queue emits_solve_captcha emits_scan_on_driver
  emits_click_candidate emits_after_candidate emits_attempt_try
  emits_attempt_retry emits_booking_loop emits_after_confirm_click : emits.

(** The same for the coarser class of events that leave [self.active]
    alone. *)
Ltac emits_util :=
  apply (emits_weaken not_confirm not_set_active);
  [exact not_confirm_not_set_active | solve [eauto with emits]].

Ltac emits_main := repeat first [ emits_util | emits_step ].

End UtilTrace.

(* ------------------------------------------------------------------ *)
(** ** The page classifier and the captcha handler *)
(* ------------------------------------------------------------------ *)

Module ClassifierFacts.
Import PyStrFacts.

(** A needle written in lower case that occurs in a text occurs in it
    with letter case ignored. *)
Lemma contains_occurs (needle text : string) :
  PyStr.lower needle = needle ->
  PyStr.contains needle text = true -> Spec.occurs needle text = true.
Proof.
  intros L H. unfold Spec.occurs. rewrite <- L. now apply contains_lower.
Qed.

(** C3. The classifier is a function into the five states that follows
    the first-match priority queue URL, firewall signature, login banner,
    "oops", else ok.  In particular a URL containing the queue domain
    yields [queue] whatever the content is, and, the queue check having
    the first priority, a page whose URL is not a queue URL and whose
    content holds both the firewall signature and the login banner yields
    [firewall]. *)
Theorem page_state_first_match (url content : string) :
  Util.page_state url content = Spec.first_match Spec.classifier_rules url content
  /\ In (Util.page_state url content) [queue; firewall; login_required; error; ok]
  /\ (PyStr.contains Util.QUEUE_DOMAIN url = true
      \/ Spec.occurs Util.QUEUE_DOMAIN url = true ->
      Util.page_state url content = queue)
  /\ (Spec.occurs Util.QUEUE_DOMAIN url = false ->
      Spec.occurs Util.REQUEST_UNSUCCESSFUL content = true ->
      Spec.occurs Util.INCIDENT_ID content = true ->
      Spec.occurs Util.LOGIN_BANNER content = true ->
      Util.page_state url content = firewall).
Proof.
  assert (E : Util.page_state url content
              = Spec.first_match Spec.classifier_rules url content).
  { unfold Util.page_state, Spec.classifier_rules, Spec.first_match, Spec.occurs.
    reflexivity. }
  split; [exact E|]. split; [|split].
  - destruct (Util.page_state url content); simpl; tauto.
  - intros H.
    assert (Q : Spec.occurs Util.QUEUE_DOMAIN url = true).
    { destruct H as [H|H]; [|exact H].
      apply contains_occurs; [reflexivity | exact H]. }
    unfold Util.page_state. unfold Spec.occurs in Q. now rewrite Q.
  - intros Q R I _. unfold Util.page_state. unfold Spec.occurs in *.
    now rewrite Q, R, I.
Qed.

Lemma page_state_first_match_witness :
  Util.page_state Main.DVSA_QUEUE_URL Fixtures.FIREWALL_PAGE = queue
  /\ Util.page_state Fixtures.LOGIN_URL
       (Fixtures.FIREWALL_PAGE ++ "Enter details below to access your booking")
     = firewall.
Proof.
  destruct (page_state_first_match Main.DVSA_QUEUE_URL Fixtures.FIREWALL_PAGE)
    as [_ [_ [Hq _]]].
  destruct (page_state_first_match Fixtures.LOGIN_URL
              (Fixtures.FIREWALL_PAGE ++ "Enter details below to access your booking"))
    as [_ [_ [_ Hf]]].
  split.
  - apply Hq. left. vm_compute. reflexivity.
  - apply Hf; vm_compute; reflexivity.
Defined.

End ClassifierFacts.

Module CaptchaFacts.

(** C9. With [skip=True], [solve_captcha] sleeps its 60 seconds, touches
    nothing else and returns [False], whatever the browser shows.  With
    [skip=False] it returns [True] whenever its two driver commands do not
    raise; when moreover the page lacks the Imperva signature, it has done
    nothing but read the page: no mouse action was performed. *)
Theorem solve_captcha_outcomes
    (w : World) (coord_top_right : Q * Q) (coord_bottom_left : option (Q * Q))
    (s : State) :
  Util.solve_captcha w true coord_top_right coord_bottom_left s
  = (Ok false, {| clock := clock s; draws := draws s;
                  trace := Sleep 60 :: trace s |})
  /\ (w_fault w (clock s) = false -> w_fault w (S (clock s)) = false ->
      fst (Util.solve_captcha w false coord_top_right coord_bottom_left s)
      = Ok true)
  /\ (w_fault w (clock s) = false -> w_fault w (S (clock s)) = false ->
      Spec.occurs Util.REQUEST_UNSUCCESSFUL (w_source w (S (clock s)))
      && Spec.occurs Util.INCIDENT_ID (w_source w (S (clock s))) = false ->
      Util.solve_captcha w false coord_top_right coord_bottom_left s
      = (Ok true, {| clock := S (S (clock s)); draws := draws s;
                     trace := ReadSource :: SwitchDefault :: trace s |})).
Proof.
  split; [reflexivity|]. split.
  - intros F0 F1.
    unfold Util.solve_captcha, try_except, bind, switch_to_default_content,
      page_source, command. simpl. rewrite F0. simpl. rewrite F1. simpl.
    destruct (PyStr.contains Util.REQUEST_UNSUCCESSFUL _
              && PyStr.contains Util.INCIDENT_ID _); [|reflexivity].
    match goal with
    | |- context [Clicker.hardware_click_range w ?a ?b ?s0] =>
        destruct (ClickerFacts.hardware_click_range_returns w a b s0)
          as [b' [s' ->]]
    end.
    reflexivity.
  - intros F0 F1 Sig. unfold Spec.occurs in Sig.
    unfold Util.solve_captcha, try_except, bind, switch_to_default_content,
      page_source, command. simpl. rewrite F0. simpl. rewrite F1. simpl.
    rewrite Sig. reflexivity.
Qed.

Lemma solve_captcha_outcomes_witness :
  fst (Util.solve_captcha Fixtures.firewall_world false
         Main.COORD_TOP_RIGHT Main.COORD_BOTTOM_LEFT Fixtures.start) = Ok true
  /\ Util.solve_captcha Fixtures.plain_world false
       Main.COORD_TOP_RIGHT Main.COORD_BOTTOM_LEFT Fixtures.start
     = (Ok true, {| clock := 2; draws := 0;
                    trace := [ReadSource; SwitchDefault] |}).
Proof.
  destruct (solve_captcha_outcomes Fixtures.firewall_world
              Main.COORD_TOP_RIGHT Main.COORD_BOTTOM_LEFT Fixtures.start)
    as [_ [H _]].
  destruct (solve_captcha_outcomes Fixtures.plain_world
              Main.COORD_TOP_RIGHT Main.COORD_BOTTOM_LEFT Fixtures.start)
    as [_ [_ H']].
  split.
  - apply H; reflexivity.
  - apply H'; reflexivity.
Defined.

End CaptchaFacts.

(* ------------------------------------------------------------------ *)
(** ** The calendar scanner *)
(* ------------------------------------------------------------------ *)

Module ScannerFacts.
Import ScanSpec.

Section Scan.
Variables min_date max_date : PyDate.datetime.
Variable exclusion : list string.
Variable formatted : string.

Local Abbreviation scan_days := (Util.scan_days min_date max_date exclusion formatted).
Local Abbreviation inspect_day := (Util.inspect_day min_date max_date exclusion formatted).
Local Abbreviation qualifies := (qualifies min_date max_date exclusion formatted).
Local Abbreviation first_qualifying := (first_qualifying min_date max_date exclusion formatted).

(** [strptime] either reads a date or raises [ValueError]. *)
Lemma strptime_ymd_cases (s : string) :
  (exists dt, PyDate.strptime_ymd s = Ok dt)
  \/ PyDate.strptime_ymd s = Raise ValueError.
Proof.
  unfold PyDate.strptime_ymd, PyDate.parse_ymd.
  destruct (PyDate.match_ymd s) as [[[[y m] d] [|c r]]|]; auto.
  destruct ((1 <=? y)%Z && (d <=? PyDate.days_in_month y m)%Z); eauto.
Qed.

(** What the inner [try] does with an available cell, in the terms of
    the specification. *)
Lemma inspect_day_spec (i : nat) (c : Cell) :
  Util.marked_unavailable c = false ->
  match fst (inspect_day i c) with
  | Ok (Some r) =>
      qualifies c = true /\ exists s dt, cell_date c = Some (s, dt) /\ r = Util.Found s i
  | Ok None => qualifies c = false /\ readable c = true
  | Raise NoSuchElementException => qualifies c = false /\ readable c = true
  | Raise _ => qualifies c = false /\ readable c = false
  | Diverge => False
  end.
Proof.
  intros U. unfold Util.inspect_day, ScanSpec.qualifies, readable, cell_date.
  rewrite U. simpl.
  destruct (link c) as [[[s|]]|]; simpl; try (split; reflexivity).
  destruct (strptime_ymd_cases s) as [[dt ->]| ->]; simpl.
  - destruct (Util.date_condition _ _ _ _ s dt); simpl.
    + split; [reflexivity|]. exists s, dt. split; reflexivity.
    + split; reflexivity.
  - split; reflexivity.
Qed.

(** The loop follows the specification as long as the cells it passes
    are readable. *)
Lemma scan_days_first_qualifying (days : list Cell) (i : nat) :
  readable_until_match min_date max_date exclusion formatted days = true ->
  fst (scan_days i days) = Ok (first_qualifying i days).
Proof.
  revert i. induction days as [|c rest IH]; intros i R; [reflexivity|].
  simpl in R |- *.
  destruct (Util.marked_unavailable c) eqn:U; simpl.
  - assert (Q : qualifies c = false) by (unfold ScanSpec.qualifies; now rewrite U).
    rewrite Q in *. simpl in R. apply andb_true_iff in R as [_ R]. now apply IH.
  - pose proof (inspect_day_spec i c U) as S.
    destruct (inspect_day i c) as [[[r|]|e|] log]; simpl in S.
    + destruct S as [Q [s [dt [D ->]]]]. rewrite Q, D. reflexivity.
    + destruct S as [Q _]. rewrite Q in *. simpl in R.
      apply andb_true_iff in R as [_ R]. simpl. now apply IH.
    + destruct e; destruct S as [Q Rd]; rewrite Q in *; rewrite Rd in R;
        simpl in R; try discriminate.
      simpl. now apply IH.
    + contradiction.
Qed.

(** Without a qualifying cell the loop finds nothing: it ends with
    [NotFound] or with an exception for the outer handler. *)
Lemma scan_days_none_qualifies (days : list Cell) (i : nat) :
  (forall c, In c days -> qualifies c = false) ->
  match fst (scan_days i days) with
  | Ok r => r = Util.NotFound
  | Raise _ => True
  | Diverge => False
  end.
Proof.
  revert i. induction days as [|c rest IH]; intros i N; [reflexivity|].
  simpl.
  assert (N' : forall c', In c' rest -> qualifies c' = false)
    by (intros c' H; apply N; now right).
  destruct (Util.marked_unavailable c) eqn:U; simpl; [now apply IH|].
  pose proof (inspect_day_spec i c U) as S.
  destruct (inspect_day i c) as [[[r|]|e|] log]; simpl in S.
  - destruct S as [Q _]. rewrite N in Q by now left. discriminate.
  - simpl. now apply IH.
  - destruct e; simpl; auto. now apply IH.
  - contradiction.
Qed.

(** The loop always ends, with a result or an exception. *)
Lemma scan_days_returns (days : list Cell) (i : nat) :
  fst (scan_days i days) <> Diverge.
Proof.
  revert i. induction days as [|c rest IH]; intros i; [discriminate|].
  simpl. destruct (Util.marked_unavailable c) eqn:U; simpl; [apply IH|].
  pose proof (inspect_day_spec i c U) as S.
  destruct (inspect_day i c) as [[[r|]|e|] log]; simpl in S.
  - discriminate.
  - simpl. apply IH.
  - destruct e; simpl; try discriminate. apply IH.
  - contradiction.
Qed.

(** Reads of a link or of its date only concern cells the loop has in
    hand and that are not marked unavailable. *)
Lemma scan_days_reads (days : list Cell) (i j : nat) :
  In (Util.CellLink j) (snd (scan_days i days))
  \/ In (Util.LinkDate j) (snd (scan_days i days)) ->
  (i <= j)%nat
  /\ exists c, nth_error days (j - i) = Some c /\ Util.marked_unavailable c = false.
Proof.
  revert i. induction days as [|c rest IH]; intros i H.
  - simpl in H. tauto.
  - assert (Later : In (Util.CellLink j) (snd (scan_days (S i) rest))
                    \/ In (Util.LinkDate j) (snd (scan_days (S i) rest)) ->
                    (i <= j)%nat
                    /\ exists c', nth_error (c :: rest) (j - i) = Some c'
                                  /\ Util.marked_unavailable c' = false).
    { intros H'. destruct (IH (S i) H') as [L [c' [N U']]].
      split; [lia|]. exists c'. split; [|exact U'].
      replace (j - i)%nat with (S (j - S i)) by lia. exact N. }
    assert (Here : forall log,
               snd (inspect_day i c) = log ->
               Util.marked_unavailable c = false ->
               In (Util.CellLink j) log \/ In (Util.LinkDate j) log ->
               (i <= j)%nat
               /\ exists c', nth_error (c :: rest) (j - i) = Some c'
                             /\ Util.marked_unavailable c' = false).
    { intros log E U HIn.
      assert (j = i).
      { subst log. unfold Util.inspect_day in HIn.
        destruct (link c) as [[[s|]]|]; simpl in HIn;
          [destruct (PyDate.strptime_ymd s); simpl in HIn| |];
          repeat match goal with
                 | H : _ \/ _ |- _ => destruct H
                 | H : Util.CellLink _ = _ |- _ => inversion H; clear H
                 | H : Util.LinkDate _ = _ |- _ => inversion H; clear H
                 | H : False |- _ => contradiction
                 end; congruence. }
      subst j. split; [lia|]. exists c. rewrite Nat.sub_diag. split; [reflexivity|exact U]. }
    simpl in H. destruct (Util.marked_unavailable c) eqn:U; simpl in H.
    + apply Later. destruct H as [[H|H]|[H|H]]; try discriminate; auto.
    + destruct (inspect_day i c) as [[[r|]|e|] log] eqn:E; simpl in H.
      * apply (Here log); auto. destruct H as [[H|H]|[H|H]]; try discriminate; auto.
      * rewrite in_app_iff in H. rewrite (in_app_iff log) in H.
        destruct H as [[H|[H|H]]|[H|[H|H]]]; try discriminate; auto;
          apply (Here log); auto.
      * destruct e; simpl in H;
          try (apply (Here log); auto;
               destruct H as [[H|H]|[H|H]]; try discriminate; now auto).
        rewrite in_app_iff in H. rewrite (in_app_iff log) in H.
        destruct H as [[H|[H|H]]|[H|[H|H]]]; try discriminate; auto;
          apply (Here log); auto.
      * apply (Here log); auto. destruct H as [[H|H]|[H|H]]; try discriminate; auto.
Qed.

(** The loop does not depend on the links of cells marked unavailable. *)
Lemma scan_days_without_link (days : list Cell) (i : nat) :
  scan_days i (map without_link days) = scan_days i days.
Proof.
  revert i. induction days as [|c rest IH]; intros i; [reflexivity|].
  simpl. unfold without_link at 1 2.
  destruct (Util.marked_unavailable c) eqn:U.
  - unfold Util.marked_unavailable, Util.class_of in *. simpl. rewrite U. simpl.
    now rewrite IH.
  - rewrite U. simpl. rewrite IH. reflexivity.
Qed.

(** The loop stops, with an exception for the outer handler, at a cell
    that is not readable when no cell before it qualifies. *)
Lemma scan_days_stops_at_unreadable (pre : list Cell) (c : Cell)
    (post : list Cell) (i : nat) :
  Forall (fun c' => qualifies c' = false /\ readable c' = true) pre ->
  readable c = false ->
  exists e, fst (scan_days i (pre ++ c :: post)) = Raise e.
Proof.
  intros F R. revert i. induction F as [|c' pre [Q Rd] _ IH]; intros i.
  - simpl. unfold readable in R. apply orb_false_iff in R as [U R].
    rewrite U. simpl.
    pose proof (inspect_day_spec i c U) as S.
    assert (Rc : readable c = false)
      by (unfold readable; rewrite U; exact R).
    destruct (inspect_day i c) as [[[r|]|e|] log]; simpl in S.
    + destruct S as [Q _]. unfold ScanSpec.qualifies in Q. rewrite U in Q.
      simpl in Q. destruct (link c); [|discriminate].
      destruct (cell_date c); discriminate.
    + destruct S as [_ S]. congruence.
    + destruct e; try (destruct S as [_ S]; congruence); simpl; eauto.
    + contradiction.
  - simpl. destruct (Util.marked_unavailable c') eqn:U; simpl; [apply IH|].
    pose proof (inspect_day_spec i c' U) as S.
    destruct (inspect_day i c') as [[[r|]|e|] log]; simpl in S.
    + destruct S as [Q' _]. congruence.
    + simpl. apply IH.
    + destruct e; try (destruct S as [_ S]; congruence). simpl. apply IH.
    + contradiction.
Qed.

(** The filter, criterion by criterion. *)
Lemma qualifies_criteria (c : Cell) :
  qualifies c = true
  <-> Util.marked_unavailable c = false
      /\ exists s dt,
           cell_date c = Some (s, dt)
           /\ PyStr.mem s exclusion = false
           /\ PyDate.lt dt min_date = true
           /\ PyDate.lt max_date dt = true
           /\ (PyDate.weekday dt < 5)%Z
           /\ s <> formatted.
Proof.
  unfold ScanSpec.qualifies, Util.date_condition. split.
  - intros H. apply andb_true_iff in H as [U H].
    apply negb_true_iff in U. split; [exact U|].
    destruct (cell_date c) as [[s dt]|]; [|discriminate].
    exists s, dt.
    repeat (apply andb_true_iff in H as [H ?]).
    repeat split; auto.
    + now apply negb_true_iff.
    + now apply Z.ltb_lt.
    + apply String.eqb_neq. now apply negb_true_iff.
  - intros [U [s [dt [D [E [L1 [L2 [W N]]]]]]]].
    rewrite U, D, E, L1, L2. simpl.
    apply Z.ltb_lt in W. rewrite W. simpl.
    apply String.eqb_neq in N. now rewrite N.
Qed.

End Scan.

Section Driver.
Variable w : World.

(** When none of the reads fails, the driver gets through all of them. *)
Lemma reads_done_no_fault (log : list Util.access) (t : nat) :
  (forall i, (i < length log)%nat -> w_fault w (t + i) = false) ->
  Util.reads_done w t log = (false, log).
Proof.
  revert t. induction log as [|a log IH]; intros t H; [reflexivity|].
  simpl. pose proof (H 0%nat ltac:(simpl; lia)) as H0.
  rewrite Nat.add_0_r in H0. rewrite H0.
  rewrite IH; [reflexivity|].
  intros i L. replace (S t + i)%nat with (t + S i)%nat by lia.
  apply H. simpl. lia.
Qed.

(** A read that fails is the last one. *)
Lemma reads_done_fault (log : list Util.access) (t i : nat) :
  (i < length log)%nat -> w_fault w (t + i) = true ->
  fst (Util.reads_done w t log) = true.
Proof.
  revert t i. induction log as [|a log IH]; intros t i L H; [simpl in L; lia|].
  simpl. destruct (w_fault w t) eqn:F; [reflexivity|].
  destruct i as [|i]; [rewrite Nat.add_0_r in H; congruence|].
  specialize (IH (S t) i ltac:(simpl in L; lia)).
  replace (S t + i)%nat with (t + S i)%nat in IH by lia. specialize (IH H).
  destruct (Util.reads_done w (S t) log). simpl in *. exact IH.
Qed.

(** The reads done are the first reads of the log. *)
Lemma reads_done_prefix (log : list Util.access) (t : nat) :
  exists rest, log = (snd (Util.reads_done w t log) ++ rest)%list.
Proof.
  revert t. induction log as [|a log IH]; intros t; [exists []; reflexivity|].
  simpl. destruct (w_fault w t).
  - exists log. reflexivity.
  - destruct (IH (S t)) as [rest E].
    destruct (Util.reads_done w (S t) log) as [f d]. simpl in *.
    exists rest. now rewrite <- E.
Qed.

Variable strptime_long : string -> option PyDate.datetime.

(** Run against a driver none of whose reads fails, the scanner returns
    what it returns on the grid the driver shows. *)
Lemma scan_on_driver_no_fault before_date after_date exclusion
    current_test_date formatted (s : State) :
  let pure := Util.scan_for_preferred_tests strptime_long
                (w_calendar w (clock s)) before_date after_date exclusion
                current_test_date formatted in
  (forall i, (i < length (snd pure))%nat -> w_fault w (clock s + i) = false) ->
  Util.scan_on_driver w strptime_long before_date after_date exclusion
    current_test_date formatted s
  = (fst pure,
     {| clock := clock s + length (snd pure); draws := draws s;
        trace := (rev (map Util.access_event (snd pure)) ++ trace s)%list |}).
Proof.
  intros pure H. unfold Util.scan_on_driver. fold pure.
  destruct pure as [r log]. simpl in *.
  rewrite (reads_done_no_fault log (clock s) H). reflexivity.
Qed.

(** A read that fails ends the scan with the not-found result. *)
Lemma scan_on_driver_fault before_date after_date exclusion
    current_test_date formatted (s : State) (i : nat) :
  (i < length (snd (Util.scan_for_preferred_tests strptime_long
                      (w_calendar w (clock s)) before_date after_date
                      exclusion current_test_date formatted)))%nat ->
  w_fault w (clock s + i) = true ->
  fst (Util.scan_on_driver w strptime_long before_date after_date exclusion
         current_test_date formatted s) = Ok Util.NotFound.
Proof.
  intros L H. unfold Util.scan_on_driver.
  destruct (Util.scan_for_preferred_tests _ _ _ _ _ _ _) as [r log].
  simpl in L.
  pose proof (reads_done_fault log (clock s) i L H) as F.
  destruct (Util.reads_done w (clock s) log) as [failed done]. simpl in F.
  subst failed. reflexivity.
Qed.

End Driver.
End ScannerFacts.

Module ScannerTheorems.
Import ScanSpec ScannerFacts.

Lemma scan_bounds_returns strptime_long before_date after_date current_test_date :
  Util.scan_bounds strptime_long before_date after_date current_test_date <> Diverge.
Proof.
  unfold Util.scan_bounds, Util.derived_min_date, Util.parse_or_default, Util.rbind.
  repeat match goal with
         | |- context [PyDate.strptime_ymd ?x] =>
             destruct (strptime_ymd_cases x) as [[? ->]| ->]
         | |- context [if ?b then _ else _] => destruct b
         | |- context [match ?o with Some _ => _ | None => _ end] => destruct o
         end; discriminate.
Qed.

Lemma scan_log strptime_long grid before_date after_date exclusion
    current_test_date formatted :
  snd (Util.scan_for_preferred_tests strptime_long grid before_date after_date
         exclusion current_test_date formatted)
  = snd (Util.scan_body strptime_long grid before_date after_date
           exclusion current_test_date formatted).
Proof.
  unfold Util.scan_for_preferred_tests.
  destruct (Util.scan_body _ _ _ _ _ _ _) as [[r|e|] log]; [| destruct e |];
    reflexivity.
Qed.

(** The scanner never raises: [scan_for_preferred_tests] returns a result
    for every grid and every setting. *)
Lemma scan_returns strptime_long grid before_date after_date exclusion
    current_test_date formatted :
  exists r,
    fst (Util.scan_for_preferred_tests strptime_long grid before_date after_date
           exclusion current_test_date formatted) = Ok r.
Proof.
  unfold Util.scan_for_preferred_tests, Util.scan_body.
  pose proof (scan_bounds_returns strptime_long before_date after_date
                current_test_date) as B.
  destruct (Util.scan_bounds _ _ _ _) as [[mn mx]|e|]; [| |contradiction].
  - destruct grid as [days|]; [|simpl; eauto].
    unfold Util.logged.
    pose proof (scan_days_returns mn mx exclusion formatted days 0) as D.
    destruct (Util.scan_days _ _ _ _ _ _) as [[r|e|] log]; simpl in *;
      [eauto | destruct e; simpl; eauto | contradiction].
  - destruct e; simpl; eauto.
Qed.

(** C8. The scanner returns the not-found result when the calendar grid
    element is absent and when no day cell of the grid satisfies the
    filter; and it returns a result, never an exception, for every grid. *)
Theorem scan_not_found
    (strptime_long : string -> option PyDate.datetime)
    (before_date after_date : string) (exclusion : list string)
    (current_test_date formatted : string) :
  fst (Util.scan_for_preferred_tests strptime_long None before_date after_date
         exclusion current_test_date formatted) = Ok Util.NotFound
  /\ (forall grid,
        (forall min_date max_date c,
            Util.scan_bounds strptime_long before_date after_date
              current_test_date = Ok (min_date, max_date) ->
            In c grid ->
            qualifies min_date max_date exclusion formatted c = false) ->
        fst (Util.scan_for_preferred_tests strptime_long (Some grid)
               before_date after_date exclusion current_test_date formatted)
        = Ok Util.NotFound)
  /\ (forall grid, exists r,
        fst (Util.scan_for_preferred_tests strptime_long grid
               before_date after_date exclusion current_test_date formatted)
        = Ok r).
Proof.
  pose proof (scan_bounds_returns strptime_long before_date after_date
                current_test_date) as B.
  split; [|split].
  - unfold Util.scan_for_preferred_tests, Util.scan_body.
    destruct (Util.scan_bounds _ _ _ _) as [[mn mx]|e|];
      [reflexivity | destruct e; reflexivity | contradiction].
  - intros grid N.
    unfold Util.scan_for_preferred_tests, Util.scan_body.
    destruct (Util.scan_bounds _ _ _ _) as [[mn mx]|e|];
      [| destruct e; reflexivity | contradiction].
    pose proof (scan_days_none_qualifies mn mx exclusion formatted grid 0
                  (fun c => N mn mx c eq_refl)) as D.
    unfold Util.logged.
    destruct (Util.scan_days _ _ _ _ _ _) as [[r|e|] log]; simpl in *;
      [now subst r | destruct e; reflexivity | contradiction].
  - intros grid. apply scan_returns.
Qed.

(** A grid holding only an excluded Monday and a Saturday: nothing
    qualifies, the scanner reports not-found. *)
Lemma scan_not_found_witness :
  fst (Util.scan_for_preferred_tests Fixtures.no_long_date
         (Some [Fixtures.bookable "2025-03-10"; Fixtures.bookable "2025-03-15"])
         "2025-06-01" "2025-01-01" ["2025-03-10"] "Yes" "")
  = Ok Util.NotFound.
Proof.
  destruct (scan_not_found Fixtures.no_long_date "2025-06-01" "2025-01-01"
              ["2025-03-10"] "Yes" "") as [_ [H _]].
  apply H. intros mn mx c B I.
  vm_compute in B. inversion B; subst.
  destruct I as [<-|[<-|[]]]; vm_compute; reflexivity.
Defined.

(** C7. The scanner never looks for the link, and never reads the date
    attribute, of a day cell whose class marks it unavailable; it returns
    a result whatever such cells carry, and the result and the sequence
    of DOM reads are those obtained with the links of the unavailable
    cells removed. *)
Theorem scan_skips_unavailable
    (strptime_long : string -> option PyDate.datetime) (grid : list Cell)
    (before_date after_date : string) (exclusion : list string)
    (current_test_date formatted : string) :
  let out := Util.scan_for_preferred_tests strptime_long (Some grid)
               before_date after_date exclusion current_test_date formatted in
  (exists r, fst out = Ok r)
  /\ (forall i c,
        nth_error grid i = Some c ->
        Util.marked_unavailable c = true ->
        ~ In (Util.LinkDate i) (snd out) /\ ~ In (Util.CellLink i) (snd out))
  /\ Util.scan_for_preferred_tests strptime_long (Some (map without_link grid))
       before_date after_date exclusion current_test_date formatted = out.
Proof.
  intros out. subst out. split; [apply scan_returns|]. split.
  - intros i c N U. rewrite scan_log. unfold Util.scan_body.
    destruct (Util.scan_bounds _ _ _ _) as [[mn mx]|e|]; simpl;
      [| split; intros [] | split; intros []].
    assert (G : In (Util.CellLink i)
                  (snd (Util.scan_days mn mx exclusion formatted 0 grid))
                \/ In (Util.LinkDate i)
                     (snd (Util.scan_days mn mx exclusion formatted 0 grid))
                -> False).
    { intros H. apply scan_days_reads in H as [_ [c' [N' U']]].
      rewrite Nat.sub_0_r in N'. congruence. }
    split; intros [K|[K|K]]; try discriminate; apply G; auto.
  - unfold Util.scan_for_preferred_tests, Util.scan_body.
    destruct (Util.scan_bounds _ _ _ _) as [[mn mx]|e|]; try reflexivity.
    now rewrite scan_days_without_link.
Qed.

Lemma scan_skips_unavailable_witness :
  let out := Util.scan_for_preferred_tests Fixtures.no_long_date
               (Some [Fixtures.greyed_out; Fixtures.bookable "2025-03-17"])
               "2025-06-01" "2025-01-01" ["2025-03-10"] "Yes" "" in
  ~ In (Util.LinkDate 0) (snd out) /\ ~ In (Util.CellLink 0) (snd out).
Proof.
  destruct (scan_skips_unavailable Fixtures.no_long_date
              [Fixtures.greyed_out; Fixtures.bookable "2025-03-17"]
              "2025-06-01" "2025-01-01" ["2025-03-10"] "Yes" "") as [_ [H _]].
  apply (H 0%nat Fixtures.greyed_out); reflexivity.
Defined.

End ScannerTheorems.

Module ScannerContract.
Import ScanSpec ScannerFacts ScannerTheorems.

(** A bookable cell whose link has no [data-date] makes the scan end with
    not-found although the next cell is a qualifying Monday: the scanner
    does not return the first qualifying day of every grid. *)
Lemma scan_stops_at_dateless_cell :
  ~ returns_first_qualifying Fixtures.no_long_date
      [Fixtures.dateless; Fixtures.bookable "2025-03-17"]
      "2025-06-01" "2025-01-01" ["2025-03-10"] "Yes" "".
Proof.
  intros H.
  specialize (H Fixtures.JUNE_1
                Fixtures.JAN_1
                eq_refl).
  vm_compute in H. discriminate H.
Qed.

(** With readable cells up to the first qualifying one, the scanner
    returns that cell. *)
Lemma scan_first_qualifying_readable strptime_long grid before_date after_date
    exclusion current_test_date formatted min_date max_date :
  Util.scan_bounds strptime_long before_date after_date current_test_date
  = Ok (min_date, max_date) ->
  readable_until_match min_date max_date exclusion formatted grid = true ->
  fst (Util.scan_for_preferred_tests strptime_long (Some grid)
         before_date after_date exclusion current_test_date formatted)
  = Ok (first_qualifying min_date max_date exclusion formatted 0 grid).
Proof.
  intros B R.
  unfold Util.scan_for_preferred_tests, Util.scan_body. rewrite B.
  unfold Util.logged.
  rewrite (surjective_pairing (Util.scan_days _ _ _ _ _ _)).
  rewrite (scan_days_first_qualifying _ _ _ _ _ _ R). reflexivity.
Qed.

(** The filter on a bookable cell: the four tests on its date, then the
    comparison with the formatted test date. *)
Lemma qualifies_bookable min_date max_date exclusion formatted d :
  qualifies min_date max_date exclusion formatted (Fixtures.bookable d)
  = match PyDate.strptime_ymd d with
    | Ok dt =>
        (negb (PyStr.mem d exclusion) && PyDate.lt dt min_date
         && PyDate.lt max_date dt && (PyDate.weekday dt <? 5)%Z)
        && negb (String.eqb d formatted)
    | _ => false
    end.
Proof.
  unfold qualifies, cell_date, Fixtures.bookable. cbn [link data_date].
  destruct (PyDate.strptime_ymd d); reflexivity.
Qed.

(** C4 (as amended). When the bound strings parse and no driver call of
    the scan fails, the scanner returns the first day in document order
    that is not marked unavailable and whose link date is before the
    minimum bound, after the maximum bound, not excluded, a weekday and
    not the formatted test date, provided every cell before it is readable
    (marked unavailable, or without a link, or with a link date in
    YYYY-MM-DD form).  A cell that is not readable (a bookable cell whose
    link has a missing or unparsable date) and that no qualifying cell
    precedes ends the scan with not-found, and so does a driver call that
    fails.  The minimum bound is the earlier of the bound derived from the
    current test date and the before-date when one is given, the derived
    bound otherwise.  On the grid of the end-to-end scenario the result is
    2025-03-17. *)
Theorem scan_returns_first_qualifying
    (strptime_long : string -> option PyDate.datetime) :
  (forall grid before_date after_date exclusion current_test_date formatted
          min_date max_date,
      Util.scan_bounds strptime_long before_date after_date current_test_date
      = Ok (min_date, max_date) ->
      readable_until_match min_date max_date exclusion formatted grid = true ->
      fst (Util.scan_for_preferred_tests strptime_long (Some grid)
             before_date after_date exclusion current_test_date formatted)
      = Ok (first_qualifying min_date max_date exclusion formatted 0 grid))
  /\ (forall before_date after_date current_test_date derived max_date,
        Util.derived_min_date strptime_long current_test_date = Ok derived ->
        Util.parse_or_default after_date "2000-01-01" = Ok max_date ->
        (forall parsed_before,
            Util.truthy before_date = true ->
            String.eqb before_date "None" = false ->
            PyDate.strptime_ymd before_date = Ok parsed_before ->
            Util.scan_bounds strptime_long before_date after_date current_test_date
            = Ok (earlier parsed_before derived, max_date))
        /\ (Util.truthy before_date = false \/ String.eqb before_date "None" = true ->
            Util.scan_bounds strptime_long before_date after_date current_test_date
            = Ok (derived, max_date)))
  /\ (forall formatted,
        String.eqb "2025-03-17" formatted = false ->
        fst (Util.scan_for_preferred_tests strptime_long (Some Fixtures.march_grid)
               "2025-06-01" "2025-01-01" ["2025-03-10"] "Yes" formatted)
        = Ok (Util.Found "2025-03-17" 2))
  /\ (forall before_date after_date exclusion current_test_date formatted
             min_date max_date pre c post,
        Util.scan_bounds strptime_long before_date after_date current_test_date
        = Ok (min_date, max_date) ->
        Forall (fun c' => qualifies min_date max_date exclusion formatted c' = false
                          /\ readable c' = true) pre ->
        readable c = false ->
        fst (Util.scan_for_preferred_tests strptime_long
               (Some (pre ++ c :: post)%list)
               before_date after_date exclusion current_test_date formatted)
        = Ok Util.NotFound)
  /\ (forall min_date max_date exclusion formatted c,
        qualifies min_date max_date exclusion formatted c = true
        <-> Util.marked_unavailable c = false
            /\ exists s dt,
                 cell_date c = Some (s, dt)
                 /\ PyStr.mem s exclusion = false
                 /\ PyDate.lt dt min_date = true
                 /\ PyDate.lt max_date dt = true
                 /\ (PyDate.weekday dt < 5)%Z
                 /\ s <> formatted)
  /\ (forall w before_date after_date exclusion current_test_date formatted s,
        let pure := Util.scan_for_preferred_tests strptime_long
                      (w_calendar w (clock s)) before_date after_date
                      exclusion current_test_date formatted in
        let run := Util.scan_on_driver w strptime_long before_date after_date
                     exclusion current_test_date formatted s in
        ((forall i, (i < length (snd pure))%nat ->
                    w_fault w (clock s + i) = false) ->
         fst run = fst pure)
        /\ (forall i, (i < length (snd pure))%nat ->
                      w_fault w (clock s + i) = true ->
                      fst run = Ok Util.NotFound)).
Proof.
  split; [|split; [|split; [|split; [|split]]]].
  - intros grid before_date after_date exclusion current_test_date formatted
      min_date max_date. apply scan_first_qualifying_readable.
  - intros before_date after_date current_test_date derived max_date D A. split.
    + intros parsed_before T N P.
      unfold Util.scan_bounds. rewrite D, T, N, P, A. reflexivity.
    + intros E. unfold Util.scan_bounds. rewrite D, A.
      destruct E as [-> | ->]; [reflexivity|].
      rewrite andb_false_r. reflexivity.
  - intros formatted F.
    assert (Q10 : qualifies Fixtures.JUNE_1 Fixtures.JAN_1 ["2025-03-10"] formatted
                    (Fixtures.bookable "2025-03-10") = false)
      by (rewrite qualifies_bookable; reflexivity).
    assert (Q15 : qualifies Fixtures.JUNE_1 Fixtures.JAN_1 ["2025-03-10"] formatted
                    (Fixtures.bookable "2025-03-15") = false)
      by (rewrite qualifies_bookable; reflexivity).
    assert (Q17 : qualifies Fixtures.JUNE_1 Fixtures.JAN_1 ["2025-03-10"] formatted
                    (Fixtures.bookable "2025-03-17") = true)
      by (rewrite qualifies_bookable;
          change (PyDate.strptime_ymd "2025-03-17")
            with (Ok {| PyDate.toordinal := 739327; PyDate.second_of_day := 0 |});
          cbv iota; rewrite F; reflexivity).
    rewrite (scan_first_qualifying_readable strptime_long Fixtures.march_grid
               "2025-06-01" "2025-01-01" ["2025-03-10"] "Yes" formatted
               Fixtures.JUNE_1 Fixtures.JAN_1).
    + unfold Fixtures.march_grid. cbn [first_qualifying]. rewrite Q10, Q15, Q17.
      reflexivity.
    + reflexivity.
    + unfold Fixtures.march_grid. cbn [readable_until_match].
      rewrite Q10, Q15, Q17. reflexivity.
  - intros before_date after_date exclusion current_test_date formatted
      min_date max_date pre c post B F R.
    unfold Util.scan_for_preferred_tests, Util.scan_body. rewrite B.
    unfold Util.logged.
    destruct (scan_days_stops_at_unreadable min_date max_date exclusion
                formatted pre c post 0 F R) as [e E].
    rewrite (surjective_pairing (Util.scan_days _ _ _ _ _ _)).
    rewrite E. destruct e; reflexivity.
  - intros min_date max_date exclusion formatted c. apply qualifies_criteria.
  - intros w before_date after_date exclusion current_test_date formatted s
      pure run. split.
    + intros H. unfold run.
      rewrite (scan_on_driver_no_fault w strptime_long before_date after_date
                 exclusion current_test_date formatted s H).
      reflexivity.
    + intros i L H.
      exact (scan_on_driver_fault w strptime_long before_date after_date
               exclusion current_test_date formatted s i L H).
Qed.

Lemma scan_returns_first_qualifying_witness :
  fst (Util.scan_for_preferred_tests Fixtures.no_long_date
         (Some (Fixtures.greyed_out :: Fixtures.march_grid))
         "2025-06-01" "2025-01-01" ["2025-03-10"] "Yes" "Monday 1 December 2025")
  = Ok (Util.Found "2025-03-17" 3)
  /\ fst (Util.scan_for_preferred_tests Fixtures.no_long_date
            (Some Fixtures.march_grid)
            "2025-06-01" "2025-01-01" ["2025-03-10"] "Yes" "")
     = Ok (Util.Found "2025-03-17" 2)
  /\ fst (Util.scan_for_preferred_tests Fixtures.no_long_date
            (Some [Fixtures.bookable "2025-03-15"; Fixtures.dateless;
                   Fixtures.bookable "2025-03-17"])
            "2025-06-01" "2025-01-01" ["2025-03-10"] "Yes" "")
     = Ok Util.NotFound
  /\ fst (Util.scan_on_driver Fixtures.march_world Fixtures.no_long_date
            "2025-06-01" "2025-01-01" ["2025-03-10"] "Yes" "" Fixtures.start)
     = Ok (Util.Found "2025-03-17" 2)
  /\ fst (Util.scan_on_driver Fixtures.flaky_march_world Fixtures.no_long_date
            "2025-06-01" "2025-01-01" ["2025-03-10"] "Yes" "" Fixtures.start)
     = Ok Util.NotFound.
Proof.
  destruct (scan_returns_first_qualifying Fixtures.no_long_date)
    as [H [_ [F [S [_ D]]]]].
  split; [|split; [|split; [|split]]].
  - apply (H (Fixtures.greyed_out :: Fixtures.march_grid)
             "2025-06-01" "2025-01-01" ["2025-03-10"] "Yes" "Monday 1 December 2025"
             Fixtures.JUNE_1
             Fixtures.JAN_1);
      vm_compute; reflexivity.
  - apply F. reflexivity.
  - apply (S "2025-06-01" "2025-01-01" ["2025-03-10"] "Yes" ""
             Fixtures.JUNE_1 Fixtures.JAN_1
             [Fixtures.bookable "2025-03-15"] Fixtures.dateless
             [Fixtures.bookable "2025-03-17"]).
    + vm_compute. reflexivity.
    + repeat constructor; vm_compute; reflexivity.
    + vm_compute. reflexivity.
  - destruct (D Fixtures.march_world "2025-06-01" "2025-01-01" ["2025-03-10"]
                "Yes" "" Fixtures.start) as [D1 _].
    rewrite D1; [vm_compute; reflexivity|].
    intros i _. reflexivity.
  - destruct (D Fixtures.flaky_march_world "2025-06-01" "2025-01-01"
                ["2025-03-10"] "Yes" "" Fixtures.start) as [_ D2].
    apply (D2 2%nat); [vm_compute; lia | reflexivity].
Defined.

End ScannerContract.

(* ------------------------------------------------------------------ *)
(** ** The booking finalizer *)
(* ------------------------------------------------------------------ *)

Module FinalizerFacts.
Import MonadFacts TraceFacts FinalizerSpec.

(** On the slot-taken page without the "I am the candidate" button the
    flow reports success: the missing button ends the attempt before the
    text is looked for. *)
Lemma slot_taken_page_without_button :
  ~ slot_taken_is_reported Fixtures.taken_world_no_button
      Main.SOLVE_MANUALLY Main.COORD_TOP_RIGHT Main.COORD_BOTTOM_LEFT
      false Fixtures.start.
Proof.
  intros H. assert (T : forall t : nat,
              Spec.occurs Util.SLOT_TAKEN_TEXT
                (w_source Fixtures.taken_world_no_button t) = true)
    by (intros t; vm_compute; reflexivity).
  specialize (H T). vm_compute in H. discriminate H.
Qed.

(** On the slot-taken page the flow returns failure although the
    auto-book flag is not set. *)
Lemma unset_flag_does_not_mean_success :
  ~ confirms_iff_auto_book Fixtures.taken_world
      Main.SOLVE_MANUALLY Main.COORD_TOP_RIGHT Main.COORD_BOTTOM_LEFT
      false Fixtures.start.
Proof.
  intros [_ H]. specialize (H eq_refl). vm_compute in H. discriminate H.
Qed.

Section WithWorld.
Variable w : World.
Variables (solve_manually : bool) (coord_top_right : Q * Q)
          (coord_bottom_left : option (Q * Q)).

Local Abbreviation booking_loop n c :=
  (Util.booking_loop w n solve_manually coord_top_right coord_bottom_left c).
Local Abbreviation attempt_try c :=
  (Util.attempt_try w solve_manually coord_top_right coord_bottom_left c).
Local Abbreviation book_test_flow sn auto :=
  (Util.book_test_flow w sn solve_manually coord_top_right coord_bottom_left auto).
Local Abbreviation attempt_starts :=
  (attempt_starts w solve_manually coord_top_right coord_bottom_left).

(** The loop, seen from the start of any of its attempts. *)
Lemma loop_from_attempt s0 n c s :
  attempt_starts s0 n c s -> booking_loop 4 false s0 = booking_loop n c s.
Proof.
  induction 1 as [|n c s c' s1 s2 _ IH T R]; [reflexivity|].
  rewrite IH. simpl.
  rewrite (bind_ok _ _ _ _ _ T). simpl.
  rewrite (bind_ok _ _ _ _ _ R). reflexivity.
Qed.

(** An attempt whose check reads the slot-taken text breaks out of the
    loop right after that read. *)
Lemma attempt_try_slot_taken c s src s' :
  reach_check w c s = (Ok src, s') ->
  Spec.occurs Util.SLOT_TAKEN_TEXT src = true ->
  exists c', attempt_try c s = (Ok (c', Some Util.SlotTaken), s').
Proof.
  unfold reach_check. intros H O.
  apply bind_ok_inv in H as [[] [s1 [E1 H]]].
  apply bind_ok_inv in H as [c1 [s2 [E2 H]]].
  apply bind_ok_inv in H as [[] [s3 [E3 H]]].
  apply bind_ok_inv in H as [[] [s4 [E4 E5]]].
  exists c1. unfold Util.attempt_try.
  rewrite (bind_ok _ _ _ _ _ E1).
  rewrite (bind_ok _ _ _ _ _ (reify_ok _ _ _ _ E2)).
  assert (A : Util.after_candidate w solve_manually coord_top_right
                coord_bottom_left s2 = (Ok Util.SlotTaken, s')).
  { unfold Util.after_candidate.
    rewrite (bind_ok _ _ _ _ _ E3), (bind_ok _ _ _ _ _ E4), (bind_ok _ _ _ _ _ E5).
    unfold Spec.occurs in O. rewrite O. reflexivity. }
  rewrite (bind_ok _ _ _ _ _ (reify_ok _ _ _ _ A)). reflexivity.
Qed.

(** C5 (as amended). Whenever an attempt of [book_test_flow] reaches
    its slot-taken check (the candidate button and the frame switch did
    not raise) and the page source it reads there contains "the time
    chosen is no longer available", the flow ends in the state of that
    read, with no further attempt, driver command or sleep, and returns
    [False], whatever the auto-book flag. *)
Theorem slot_taken_ends_flow
    (s0 : State) (n : nat) (c : bool) (s : State) (src : string) (s' : State)
    (short_notice auto_book_test : bool) :
  attempt_starts s0 (S n) c s ->
  reach_check w c s = (Ok src, s') ->
  Spec.occurs Util.SLOT_TAKEN_TEXT src = true ->
  book_test_flow short_notice auto_book_test s0 = (Ok false, s').
Proof.
  intros A R O.
  destruct (attempt_try_slot_taken c s src s' R O) as [c' T].
  unfold Util.book_test_flow.
  assert (L : booking_loop 4 false s0 = (Ok Util.SlotTaken, s')).
  { rewrite (loop_from_attempt _ _ _ _ A). simpl.
    rewrite (bind_ok _ _ _ _ _ T). reflexivity. }
  rewrite (bind_ok _ _ _ _ _ L). reflexivity.
Qed.

(** The final confirmation starts by looking the button up, and clicks
    it when it is there and the driver does not fail. *)
Lemma confirm_changes_trace s :
  exists new,
    trace (snd (Util.confirm_changes w solve_manually coord_top_right
                  coord_bottom_left s))
    = (new ++ Find (ById "confirm-changes") :: trace s)%list
    /\ (w_fault w (clock s) = false ->
        w_present w (clock s) (ById "confirm-changes") = true ->
        w_fault w (S (clock s)) = false ->
        In CONFIRM new).
Proof.
  unfold Util.confirm_changes, try_except.
  unfold bind at 1. unfold find_element at 1. unfold command at 1.
  destruct (w_fault w (clock s)) eqn:F0.
  { exists []. simpl. split; [reflexivity | discriminate]. }
  destruct (w_present w (clock s) (ById "confirm-changes")) eqn:Pr.
  2:{ exists []. simpl. split; [reflexivity | discriminate]. }
  unfold bind at 1. unfold click at 1. unfold command at 1. simpl.
  destruct (w_fault w (S (clock s))) eqn:F1.
  { exists [CONFIRM]. simpl. split; [reflexivity | discriminate]. }
  match goal with
  | |- context [Util.after_confirm_click w ?a ?b ?c ?st] =>
      destruct (UtilTrace.emits_after_confirm_click w a b c st) as [new [E _]];
      destruct (Util.after_confirm_click w a b c st) as [[r|e|] s2]
  end; simpl in E |- *;
    (exists (new ++ [CONFIRM])%list; rewrite E, <- app_assoc; split;
     [reflexivity | intros _ _ _; apply in_or_app; right; now left]).
Qed.

(** C6 (as amended). [book_test_flow] clicks "confirm-changes" only if
    the auto-book flag is set.  When its attempt loop ends with the slot
    held, then without the flag it stops there, doing nothing more, and
    returns [True]; with the flag its next step is the look-up of the
    "confirm-changes" button, which it clicks when the button is there
    and the driver does not fail.  When the loop ends otherwise (slot
    taken, attempts exhausted), it returns [False] whatever the flag. *)
Theorem confirmation_needs_auto_book (s : State) (short_notice : bool) :
  ~ In CONFIRM (trace s) ->
  (forall auto_book_test,
      In CONFIRM (trace (snd (book_test_flow short_notice auto_book_test s))) ->
      auto_book_test = true)
  /\ (forall s',
        booking_loop 4 false s = (Ok Util.Reserved, s') ->
        book_test_flow short_notice false s = (Ok true, s')
        /\ exists new,
             trace (snd (book_test_flow short_notice true s))
             = (new ++ Find (ById "confirm-changes") :: trace s')%list
             /\ (w_fault w (clock s') = false ->
                 w_present w (clock s') (ById "confirm-changes") = true ->
                 w_fault w (S (clock s')) = false ->
                 In CONFIRM new))
  /\ (forall x s' auto_book_test,
        booking_loop 4 false s = (Ok x, s') ->
        x <> Util.Reserved ->
        book_test_flow short_notice auto_book_test s = (Ok false, s')).
Proof.
  intros Fresh. split; [|split].
  - intros [|] H; [reflexivity|]. exfalso.
    unfold Util.book_test_flow in H.
    destruct (UtilTrace.emits_booking_loop w 4 solve_manually coord_top_right
                coord_bottom_left false s) as [new [E F]].
    unfold bind in H.
    destruct (booking_loop 4 false s) as [[[]| |] s']; simpl in E, H;
      rewrite E in H; apply in_app_or in H as [H|H]; try contradiction;
      rewrite Forall_forall in F; apply F in H; simpl in H; congruence.
  - intros s' L. unfold Util.book_test_flow.
    rewrite !(bind_ok _ _ _ _ _ L). split; [reflexivity|].
    apply confirm_changes_trace.
  - intros x s' auto_book_test L N. unfold Util.book_test_flow.
    rewrite (bind_ok _ _ _ _ _ L). destruct x; try reflexivity. congruence.
Qed.

End WithWorld.

Lemma slot_taken_ends_flow_witness :
  Util.book_test_flow Fixtures.taken_world false Main.SOLVE_MANUALLY
    Main.COORD_TOP_RIGHT Main.COORD_BOTTOM_LEFT true Fixtures.start
  = (Ok false,
     snd (reach_check Fixtures.taken_world false Fixtures.start)).
Proof.
  apply (slot_taken_ends_flow Fixtures.taken_world Main.SOLVE_MANUALLY
           Main.COORD_TOP_RIGHT Main.COORD_BOTTOM_LEFT
           Fixtures.start 3 false Fixtures.start Fixtures.SLOT_TAKEN_PAGE).
  - constructor.
  - vm_compute. reflexivity.
  - vm_compute. reflexivity.
Defined.

Lemma confirmation_needs_auto_book_witness :
  Util.book_test_flow Fixtures.held_world false Main.SOLVE_MANUALLY
    Main.COORD_TOP_RIGHT Main.COORD_BOTTOM_LEFT false Fixtures.start
  = (Ok true,
     snd (Util.booking_loop Fixtures.held_world 4 Main.SOLVE_MANUALLY
            Main.COORD_TOP_RIGHT Main.COORD_BOTTOM_LEFT false Fixtures.start))
  /\ In CONFIRM
       (trace (snd (Util.book_test_flow Fixtures.held_world false
                      Main.SOLVE_MANUALLY Main.COORD_TOP_RIGHT
                      Main.COORD_BOTTOM_LEFT true Fixtures.start))).
Proof.
  destruct (confirmation_needs_auto_book Fixtures.held_world Main.SOLVE_MANUALLY
              Main.COORD_TOP_RIGHT Main.COORD_BOTTOM_LEFT Fixtures.start false)
    as [_ [H _]].
  - simpl. tauto.
  - destruct (H (snd (Util.booking_loop Fixtures.held_world 4 Main.SOLVE_MANUALLY
            Main.COORD_TOP_RIGHT Main.COORD_BOTTOM_LEFT false Fixtures.start)))
      as [H1 [new [E C]]].
    + vm_compute. reflexivity.
    + split; [exact H1|].
      rewrite E. apply in_or_app. left. apply C; vm_compute; reflexivity.
Defined.

End FinalizerFacts.

(* ------------------------------------------------------------------ *)
(** ** The session: queue loop, login, search *)
(* ------------------------------------------------------------------ *)

Module MainTrace.
Import MonadFacts TraceFacts UtilTrace.

Section WithWorld.
Variable w : World.
Variable strptime_long : string -> option PyDate.datetime.
Variable AUTO_BOOK_TEST : bool.
Variable FORMATTED_CURRENT_TEST_DATE : string.

Lemma emits_find_and_click l : emits not_set_active (Main.find_and_click w l).
Proof. unfold Main.find_and_click. emits_main. Qed.
Hint Resolve emits_find_and_click : emits.

Lemma emits_enter_reschedule_credentials bot manual :
  emits not_set_active (Main.enter_reschedule_credentials w bot manual).
Proof. unfold Main.enter_reschedule_credentials. emits_main. Qed.

Lemma emits_queue_loop fuel loop_count :
  emits not_set_active (Main.queue_loop w fuel loop_count).
Proof.
  revert loop_count. induction fuel as [|fuel IH]; intros loop_count; simpl;
    emits_main.
Qed.

Lemma emits_handle_queue_and_firewall fuel :
  emits not_set_active (Main.handle_queue_and_firewall w fuel).
Proof.
  unfold Main.handle_queue_and_firewall.
  apply emits_bind; [apply emits_queue_loop | intros; emits_main].
Qed.

Lemma emits_login_credentials fuel bot :
  emits not_set_active (Main.login_credentials w fuel bot).
Proof.
  unfold Main.login_credentials.
  repeat first [ apply emits_handle_queue_and_firewall
               | apply emits_enter_reschedule_credentials
               | emits_util | emits_step ].
Qed.

Lemma emits_goto_month attempts month :
  emits not_set_active (Main.goto_month w attempts month).
Proof. induction attempts as [|n IH]; simpl; emits_main. Qed.

Lemma emits_select_and_book centre found cell :
  emits not_set_active
    (Main.select_and_book w AUTO_BOOK_TEST centre found cell).
Proof.
  unfold Main.select_and_book.
  repeat first [ apply emits_goto_month
               | apply emits_book_test_flow
               | emits_util | emits_step ].
Qed.

End WithWorld.

#[export] Hint Resolve emits_find_and_click emits_enter_reschedule_credentials
  emits_queue_loop emits_handle_queue_and_firewall emits_login_credentials
  emits_goto_month emits_select_and_book
  UtilTrace.emits_book_test_flow UtilTrace.emits_confirm_changes : emits.

End MainTrace.

Module QueueLoopFacts.
Import MonadFacts.

Lemma random_sleep_returns w base max_extra :
  returns (Util.random_sleep w base max_extra).
Proof. intros s. eexists _, _. reflexivity. Qed.

Lemma solve_captcha_returns w skip ctr cbl :
  returns (Util.solve_captcha w skip ctr cbl).
Proof.
  intros s. unfold Util.solve_captcha. destruct skip; [eexists _, _; reflexivity|].
  unfold try_except.
  match goal with |- context [match ?m s with _ => _ end] =>
    destruct (m s) as [[b|e|] s'] eqn:E end; try (eexists _, _; reflexivity).
  exfalso. revert E. unfold bind, switch_to_default_content, page_source, command.
  destruct (w_fault w (clock s)); [discriminate|].
  simpl. destruct (w_fault w (S (clock s))); [discriminate|].
  destruct (_ && _); [|discriminate].
  match goal with
  | |- context [Clicker.hardware_click_range w ?a ?b ?s0] =>
      destruct (ClickerFacts.hardware_click_range_returns w a b s0) as [b' [s'' ->]]
  end.
  discriminate.
Qed.

(** Every classification of the Imperva page is [firewall]. *)
Lemma firewall_world_classified s :
  exists s', Util.check_firewall_and_queue Fixtures.firewall_world s
             = (Ok firewall, s').
Proof.
  eexists. unfold Util.check_firewall_and_queue, bind, current_url, page_source,
    command, emit, ret. cbn [w_fault w_url w_source Fixtures.firewall_world
                              Fixtures.static_world].
  replace (Util.page_state Fixtures.LOGIN_URL Fixtures.FIREWALL_PAGE)
    with firewall by (vm_compute; reflexivity).
  reflexivity.
Qed.

Lemma firewall_world_refresh s :
  exists s', refresh Fixtures.firewall_world s = (Ok tt, s').
Proof. eexists. reflexivity. Qed.

(** On the Imperva page an iteration of the loop leaves [loop_count] as
    it is and goes round again. *)
Lemma firewall_iteration fuel loop_count s :
  (loop_count < Main.max_queue_checks)%nat ->
  exists s', Main.queue_loop Fixtures.firewall_world (S fuel) loop_count s
             = Main.queue_loop Fixtures.firewall_world fuel loop_count s'.
Proof.
  intros L. apply Nat.ltb_lt in L. simpl. rewrite L.
  destruct (firewall_world_classified s) as [s1 E1].
  rewrite (bind_ok _ _ _ _ _ E1).
  destruct (random_sleep_returns Fixtures.firewall_world (1#2) (5#2) s1)
    as [[] [s2 E2]].
  rewrite (bind_ok _ _ _ _ _ E2).
  destruct (solve_captcha_returns Fixtures.firewall_world Main.SOLVE_MANUALLY
              Main.COORD_TOP_RIGHT Main.COORD_BOTTOM_LEFT s2) as [solved [s3 E3]].
  rewrite (bind_ok _ _ _ _ _ E3).
  assert (E4 : exists s4,
             (if solved
              then sleep 3 ;;
                   st <- Util.check_firewall_and_queue Fixtures.firewall_world ;;
                   (if PageState_eqb st firewall
                    then Util.random_sleep Fixtures.firewall_world 180 10
                    else ret tt)
              else ret tt) s3 = (Ok tt, s4)).
  { destruct solved; [|eexists; reflexivity].
    assert (Es : exists s3', sleep 3 s3 = (Ok tt, s3')) by (eexists; reflexivity).
    destruct Es as [s3' Es]. rewrite (bind_ok _ _ _ _ _ Es).
    destruct (firewall_world_classified s3') as [s3'' Ec].
    rewrite (bind_ok _ _ _ _ _ Ec).
    change (PageState_eqb firewall firewall) with true. cbv iota.
    destruct (random_sleep_returns Fixtures.firewall_world 180 10 s3'')
      as [[] [s4 E4]].
    exists s4. exact E4. }
  destruct E4 as [s4 E4]. rewrite (bind_ok _ _ _ _ _ E4).
  destruct (firewall_world_refresh s4) as [s5 E5].
  rewrite (bind_ok _ _ _ _ _ E5).
  exists s5. reflexivity.
Qed.

(** C1 (the defect). In front of a browser that shows the Imperva
    interstitial on every load, [handle_queue_and_firewall] never leaves
    its loop: whatever number of iterations is followed, the loop is still
    running, [loop_count] being 0 throughout. *)
Theorem firewall_loop_never_ends (fuel : nat) (s : State) :
  fst (Main.handle_queue_and_firewall Fixtures.firewall_world fuel s) = Diverge.
Proof.
  unfold Main.handle_queue_and_firewall.
  assert (D : forall s0, fst (Main.queue_loop Fixtures.firewall_world fuel 0 s0)
                         = Diverge).
  { induction fuel as [|fuel IH]; intros s0; [reflexivity|].
    destruct (firewall_iteration fuel 0 s0) as [s' E].
    - unfold Main.max_queue_checks. lia.
    - rewrite E. apply IH. }
  unfold bind. specialize (D s).
  destruct (Main.queue_loop _ _ _ _) as [[n|e|] s']; simpl in D;
    try discriminate. reflexivity.
Qed.

(** In the waiting room the loop stops at its ceiling: 100 page
    classifications, then the single fallback refresh. *)
Lemma queue_loop_stops_at_ceiling :
  let out := Main.handle_queue_and_firewall Fixtures.queue_world 101
               Fixtures.start in
  fst out = Ok tt
  /\ count_event is_classification (snd out) = 100%nat
  /\ count_event is_refresh (snd out) = 1%nat.
Proof. vm_compute. repeat split. Qed.

End QueueLoopFacts.

Module SessionLogic.
Import MonadFacts TraceFacts UtilTrace MainTrace SessionSpec.

Lemma not_set_active_no_deactivation e : not_set_active e -> no_deactivation e.
Proof. destruct e; simpl; intros H; try discriminate; contradiction. Qed.

(** Code that leaves [self.active] alone keeps the session undeactivated. *)
Lemma emits_undeactivated {A} (m : M A) s :
  emits not_set_active m -> undeactivated s -> undeactivated (snd (m s)).
Proof.
  intros H U. destruct (H s) as [new [E F]]. unfold undeactivated. rewrite E.
  apply Forall_app. split; [|exact U].
  eapply Forall_impl; [|exact F]. exact not_set_active_no_deactivation.
Qed.

Lemma ok_of_emits {A} (phi psi : A -> Prop) (m : M A) :
  emits not_set_active m -> (forall a, phi a) -> session_ok phi psi m.
Proof.
  intros H Phi s U. pose proof (emits_undeactivated m s H U) as U'.
  unfold outcome. destruct (m s) as [[a|e|] s']; simpl in *; auto.
Qed.

Lemma ok_bind_keeps {A B} (phi psi : B -> Prop) (m : M A) (f : A -> M B) :
  emits not_set_active m ->
  (forall a s s', m s = (Ok a, s') -> session_ok phi psi (f a)) ->
  session_ok phi psi (bind m f).
Proof.
  intros H K s U. pose proof (emits_undeactivated m s H U) as U'.
  unfold bind. destruct (m s) as [[a|e|] s'] eqn:E; simpl in U'.
  - exact (K a s s' E s' U').
  - exact U'.
  - exact U'.
Qed.

Lemma ok_bind {A B} (phi1 psi1 : A -> Prop) (phi psi : B -> Prop)
    (m : M A) (f : A -> M B) :
  session_ok phi1 psi1 m ->
  (forall a, phi1 a -> session_ok phi psi (f a)) ->
  (forall a, psi1 a -> calm psi (f a)) ->
  session_ok phi psi (bind m f).
Proof.
  intros Hm K C s U. specialize (Hm s U). unfold outcome in Hm. unfold bind.
  destruct (m s) as [[a|e|] s']; simpl in Hm; try exact Hm.
  destruct Hm as [[Pa U']|[Pa [pauses [before [E [Fp Fb]]]]]].
  - exact (K a Pa s' U').
  - destruct (C a Pa s') as [b [s'' [new [Eb [Pb [Et Fn]]]]]].
    rewrite Eb. unfold outcome. simpl. right. split; [exact Pb|].
    exists (new ++ pauses)%list, before. repeat split.
    + rewrite Et, E. now rewrite app_assoc.
    + apply Forall_app. split; assumption.
    + exact Fb.
Qed.

Lemma ok_ret {A} (phi psi : A -> Prop) a : phi a -> session_ok phi psi (ret a).
Proof. intros H s U. left. split; assumption. Qed.

Lemma ok_try {A} (phi psi : A -> Prop) (m : M A) (h : exn -> M A) :
  session_ok phi psi m -> (forall e, session_ok phi psi (h e)) ->
  session_ok phi psi (try_except m h).
Proof.
  intros Hm Hh s U. specialize (Hm s U). unfold outcome in Hm. unfold try_except.
  destruct (m s) as [[a|e|] s'] eqn:E; simpl in Hm.
  - unfold outcome. simpl. exact Hm.
  - exact (Hh e s' Hm).
  - exact Hm.
Qed.

Lemma ok_weaken {A} (phi psi phi' psi' : A -> Prop) (m : M A) :
  (forall a, phi a -> phi' a) -> (forall a, psi a -> psi' a) ->
  session_ok phi psi m -> session_ok phi' psi' m.
Proof.
  intros I1 I2 H s U. specialize (H s U). unfold outcome in *.
  destruct (fst (m s)); auto. destruct H as [[? ?]|[? ?]]; auto.
Qed.

(** [self.active = False]: from here on the session is settled. *)
Lemma ok_set_active_false (phi psi : Main.DVSABot -> Prop) bot :
  (forall b, Main.active b = false -> psi b) ->
  session_ok phi psi (Main.set_active false bot).
Proof.
  intros H s U. right. split; [apply H; reflexivity|].
  exists [], (trace s). repeat split; [constructor | exact U].
Qed.

Lemma ok_set_active_true (phi psi : Main.DVSABot -> Prop) bot :
  (forall b, Main.active b = true -> phi b) ->
  session_ok phi psi (Main.set_active true bot).
Proof.
  intros H s U. left. split; [apply H; reflexivity|].
  unfold undeactivated. simpl. constructor; [discriminate | exact U].
Qed.

Lemma calm_ret {A} (psi : A -> Prop) a : psi a -> calm psi (ret a).
Proof. intros H s. exists a, s, []. repeat split; [exact H | constructor]. Qed.

Lemma calm_random_sleep w base extra (psi : unit -> Prop) :
  psi tt -> calm psi (Util.random_sleep w base extra).
Proof.
  intros H s. unfold Util.random_sleep, bind, sleep, emit, uniform. simpl.
  eexists tt, _, [_; _]. split; [reflexivity|]. split; [exact H|].
  split; [reflexivity|]. repeat constructor.
Qed.

Lemma calm_bind {A B} (psi1 : A -> Prop) (psi : B -> Prop) (m : M A) (f : A -> M B) :
  calm psi1 m -> (forall a, psi1 a -> calm psi (f a)) -> calm psi (bind m f).
Proof.
  intros Hm Hf s. destruct (Hm s) as [a [s1 [n1 [E1 [P1 [T1 F1]]]]]].
  destruct (Hf a P1 s1) as [b [s2 [n2 [E2 [P2 [T2 F2]]]]]].
  exists b, s2, (n2 ++ n1)%list. unfold bind. rewrite E1. repeat split; auto.
  - rewrite T2, T1. now rewrite app_assoc.
  - apply Forall_app. split; assumption.
Qed.

End SessionLogic.

Module SessionFacts.
Import MonadFacts TraceFacts UtilTrace MainTrace SessionSpec SessionLogic.

(** One step of a proof in the session logic: code that leaves
    [self.active] alone is stepped over. *)
Ltac session_step :=
  lazymatch goal with
  | |- session_ok _ _ (bind (Main.set_active false ?b) _) =>
      eapply ok_bind with (phi1 := fun _ => False)
                          (psi1 := fun b' => Main.active b' = false);
      [ apply ok_set_active_false; auto
      | intros ? []
      | intros ? ?; apply calm_ret; eauto ]
  | |- session_ok _ _ (bind _ _) =>
      apply ok_bind_keeps; [solve [emits_main] | intros ? ? ? _]
  | |- session_ok _ _ (ret _) => apply ok_ret; eauto
  | |- session_ok _ _ (Main.set_active false _) => apply ok_set_active_false; auto
  | |- session_ok _ _ (Main.set_active true _) => apply ok_set_active_true; auto
  | |- session_ok _ _ (try_except _ _) => apply ok_try; [| intros ?]
  | |- session_ok _ _ (if ?b then _ else _) => destruct b
  | |- session_ok _ _ (match ?x with _ => _ end) => destruct x
  end.

Section WithWorld.
Variable w : World.
Variable strptime_long : string -> option PyDate.datetime.
Variable AUTO_BOOK_TEST : bool.
Variable FORMATTED_CURRENT_TEST_DATE : string.

Local Abbreviation login := (Main.login w).
Local Abbreviation search_and_book :=
  (Main.search_and_book w strptime_long AUTO_BOOK_TEST FORMATTED_CURRENT_TEST_DATE).
Local Abbreviation reschedule_attempt :=
  (Main.reschedule_attempt w strptime_long AUTO_BOOK_TEST
     FORMATTED_CURRENT_TEST_DATE).

Lemma login_summary_ok bot :
  session_ok (fun r => exists b, r = inr b)
             (fun r => exists b, r = inl b /\ Main.active b = false)
             (Main.login_summary w bot).
Proof.
  unfold Main.login_summary. cbv zeta. repeat session_step.
Qed.

Lemma login_final_ok bot :
  session_ok (fun b => Main.active b = true) (fun b => Main.active b = false)
             (Main.login_final w bot).
Proof. unfold Main.login_final. repeat session_step. Qed.

(** [login] ends undeactivated with an active bot, or settled with an
    inactive one. *)
Lemma login_ok fuel bot :
  session_ok (fun b => Main.active b = true) (fun b => Main.active b = false)
             (login fuel bot).
Proof.
  unfold Main.login. session_step. session_step; [session_step|].
  session_step; [|session_step].
  eapply ok_bind; [apply login_summary_ok | |].
  - intros r [b ->]. session_step; [apply login_final_ok | session_step].
  - intros r [b [-> Hb]]. apply calm_ret. exact Hb.
Qed.

Lemma change_centre_ok bot centre :
  session_ok (fun _ => True) (fun r => exists b, r = Some b)
             (Main.change_centre w bot centre).
Proof.
  unfold Main.change_centre. session_step.
  - apply ok_of_emits; [emits_main | auto].
  - repeat session_step.
Qed.

Lemma search_and_book_ok bot :
  session_ok (fun _ => True) (fun _ => True) (search_and_book bot).
Proof.
  unfold Main.search_and_book. cbv zeta.
  session_step; [session_step|]. session_step; [session_step|].
  session_step.
  eapply ok_bind; [apply change_centre_ok | |].
  - intros r _. destruct r as [b|]; [apply ok_ret; exact I|].
    repeat session_step.
  - intros r [b ->]. apply calm_ret. exact I.
Qed.

(** One attempt ends undeactivated or settled. *)
Lemma reschedule_attempt_ok fuel config_data :
  session_ok (fun _ => True) (fun _ => True) (reschedule_attempt fuel config_data).
Proof.
  unfold Main.reschedule_attempt. apply ok_try.
  - eapply ok_bind; [apply login_ok | |].
    + intros b Hb. rewrite Hb.
      eapply ok_bind; [apply search_and_book_ok | |].
      * intros _ _. apply ok_of_emits; [emits_main | auto].
      * intros _ _. apply calm_random_sleep. exact I.
    + intros b Hb. rewrite Hb.
      eapply calm_bind; [apply calm_ret with (psi := fun _ => True); exact I|].
      intros _ _. apply calm_random_sleep. exact I.
  - intros e. apply ok_of_emits; [| auto].
    destruct e; emits_main.
Qed.

End WithWorld.
End SessionFacts.

Module SessionTheorems.
Import MonadFacts TraceFacts UtilTrace MainTrace SessionSpec SessionLogic
  SessionFacts.

Lemma undeactivated_history s :
  undeactivated s -> only_pauses_after_deactivation (history s).
Proof.
  intros U before after E. exfalso.
  unfold undeactivated in U. apply Forall_rev in U. unfold history in E.
  rewrite E in U. apply Forall_app in U as [_ U]. inversion U as [|? ? N _].
  now apply N.
Qed.

(** A pause does not touch the page, the browser or the pointer. *)
Lemma is_pause_quiet e : is_pause e -> is_interaction e = false.
Proof. destruct e; simpl; intros H; try contradiction; reflexivity. Qed.

Lemma settled_history s :
  settled s -> only_pauses_after_deactivation (history s).
Proof.
  intros [pauses [old [E [Fp Fo]]]] before after H.
  unfold history in H. rewrite E, rev_app_distr in H. simpl in H.
  rewrite <- app_assoc in H. simpl in H.
  apply Forall_rev in Fp, Fo.
  pose proof Fp as Q.
  apply app_eq_app in H as [l [[H1 H2]|[H1 H2]]].
  - destruct l as [|x l]; simpl in H2.
    + inversion H2; subst. exact Q.
    + inversion H2; subst. rewrite H1 in Fo.
      apply Forall_app in Fo as [_ Fo]. inversion Fo as [|? ? N _].
      exfalso. now apply N.
  - destruct l as [|x l]; simpl in H2.
    + inversion H2; subst. exact Q.
    + inversion H2 as [[Hx Hr]]. rewrite Hr in Fp.
      apply Forall_app in Fp as [_ Fp]. inversion Fp as [|? ? N _].
      contradiction.
Qed.

(** On the DVSA error page the queue loop classifies the page as [error]
    and leaves; [login] then goes on and looks for the credential boxes:
    page interaction follows a terminal failure state. *)
Lemma interaction_after_error_page :
  ~ invariant_as_worded
      (history (snd (Main.reschedule_attempt Fixtures.oops_world
                       Fixtures.no_long_date false "" 5 sample_preferences
                       Fixtures.start))).
Proof.
  intros H.
  specialize (H [StartBrowser; Get Main.DVSA_QUEUE_URL; ReadUrl; ReadSource]
                error
                (skipn 5 (history (snd (Main.reschedule_attempt
                    Fixtures.oops_world Fixtures.no_long_date false "" 5
                    sample_preferences Fixtures.start))))).
  destruct H as [_ F].
  - vm_compute. reflexivity.
  - reflexivity.
  - vm_compute in F. apply Forall_inv in F. discriminate F.
Qed.

Section WithWorld.
Variable w : World.
Variable strptime_long : string -> option PyDate.datetime.
Variable AUTO_BOOK_TEST : bool.
Variable FORMATTED_CURRENT_TEST_DATE : string.

Lemma check_firewall_and_queue_records s st s' :
  Util.check_firewall_and_queue w s = (Ok st, s') ->
  exists rest, trace s' = Classified st :: rest.
Proof.
  unfold Util.check_firewall_and_queue. intros H.
  apply bind_ok_inv in H as [url [s1 [_ H]]].
  apply bind_ok_inv in H as [src [s2 [_ H]]].
  unfold bind, emit, ret in H. inversion H; subst. simpl. eauto.
Qed.

Lemma on_return_bind {A B} (P : B -> State -> Prop) (m : M A) (f : A -> M B) s :
  (forall a s0 s1, m s0 = (Ok a, s1) -> on_return P (f a s1)) ->
  on_return P (bind m f s).
Proof.
  intros H. unfold bind. destruct (m s) as [[a|e|] s1] eqn:E;
    [exact (H a s s1 E) | |]; exact I.
Qed.

Lemma on_return_try {A} (P : A -> State -> Prop) (m : M A) h s :
  on_return P (m s) -> (forall e s1, on_return P (h e s1)) ->
  on_return P (try_except m h s).
Proof.
  intros Hm Hh. unfold try_except.
  destruct (m s) as [[a|e|] s1]; [exact Hm | apply Hh | exact I].
Qed.

Ltac return_step :=
  lazymatch goal with
  | |- on_return _ (bind _ _ _) => apply on_return_bind; intros ? ? ? _
  | |- on_return _ (try_except _ _ _) => apply on_return_try; [| intros ? ?]
  | |- on_return _ ((if ?b then _ else _) _) => destruct b
  | |- on_return _ ((match ?x with _ => _ end) _) => destruct x
  | |- on_return _ (ret _ _) => exact I
  | |- on_return _ (raise _ _) => exact I
  end.

Lemma set_false_activated bot s :
  on_return activated_after_ok (Main.set_active false bot s).
Proof. unfold on_return, activated_after_ok. simpl. discriminate. Qed.

Lemma login_summary_early_return bot s :
  on_return early_return_inactive (Main.login_summary w bot s).
Proof.
  unfold Main.login_summary. cbv zeta.
  do 3 return_step. return_step.
  - unfold on_return. reflexivity.
  - repeat return_step.
Qed.

Lemma login_final_activated bot s :
  on_return activated_after_ok (Main.login_final w bot s).
Proof.
  unfold Main.login_final. apply on_return_bind. intros st s0 s1 E.
  apply check_firewall_and_queue_records in E as [rest E].
  destruct st; simpl; try apply set_false_activated.
  unfold on_return, activated_after_ok. simpl. intros _. rewrite E. eauto.
Qed.

(** [login] hands back an active bot only from its last line, right
    after a classification that returned [ok]. *)
Lemma login_activated fuel bot s :
  on_return activated_after_ok (Main.login w fuel bot s).
Proof.
  unfold Main.login. return_step.
  destruct (PyStr.contains "loginError=true" _); [apply set_false_activated|].
  apply on_return_try; [|intros; apply set_false_activated].
  apply on_return_bind. intros r t0 t1 E.
  pose proof (login_summary_early_return bot t0) as R.
  rewrite E in R. unfold on_return in R. simpl in R.
  destruct r as [b|b].
  - unfold on_return, activated_after_ok. simpl. intros A. congruence.
  - apply on_return_try; [apply login_final_activated|].
    intros; apply set_false_activated.
Qed.

Lemma check_firewall_and_queue_new s st s1 :
  Util.check_firewall_and_queue w s = (Ok st, s1) ->
  trace s1 = Classified st :: ReadSource :: ReadUrl :: trace s.
Proof.
  unfold Util.check_firewall_and_queue, bind, current_url, page_source,
    command, emit, ret.
  destruct (w_fault w (clock s)); [discriminate|]. cbn [clock draws trace].
  destruct (w_fault w (S (clock s))); [discriminate|].
  intros H. inversion H. reflexivity.
Qed.

(** The final step of [login]: the classification, and at once the
    assignment of what it decided. *)
Lemma login_final_decides bot s st s1 :
  Util.check_firewall_and_queue w s = (Ok st, s1) ->
  Main.login_final w bot s
  = (Ok {| Main.preferences := Main.preferences bot;
           Main.active := PageState_eqb st ok;
           Main.current_centre_index := Main.current_centre_index bot |},
     {| clock := clock s1; draws := draws s1;
        trace := SetActive (PageState_eqb st ok) :: Classified st
                 :: ReadSource :: ReadUrl :: trace s |}).
Proof.
  intros E. unfold Main.login_final. rewrite (bind_ok _ _ _ _ _ E).
  rewrite <- (check_firewall_and_queue_new s st s1 E).
  destruct st; reflexivity.
Qed.

Lemma decides_quiet (new : list event) (flag : bool) :
  Forall not_classified new -> first_classification_decides new flag.
Proof.
  intros F after st before E. subst new.
  apply Forall_app in F as [_ F]. inversion F as [|? ? C _]. destruct C.
Qed.

Lemma first_classification_unique a1 st1 b1 a2 st2 b2 :
  (a1 ++ Classified st1 :: b1 = a2 ++ Classified st2 :: b2)%list ->
  Forall not_classified b1 -> Forall not_classified b2 ->
  a1 = a2 /\ st1 = st2.
Proof.
  intros E F1 F2.
  apply app_eq_app in E as [l [[E1 E2]|[E1 E2]]];
    destruct l as [|x l]; simpl in E2; inversion E2; subst.
  - rewrite app_nil_r. split; reflexivity.
  - apply Forall_app in F2 as [_ F2]. inversion F2 as [|? ? C _]. destruct C.
  - rewrite app_nil_r. split; reflexivity.
  - apply Forall_app in F1 as [_ F1]. inversion F1 as [|? ? C _]. destruct C.
Qed.

Lemma decides_first (front : list event) st0 (old : list event) (flag : bool) :
  Forall not_classified old ->
  (st0 <> ok -> front = [SetActive false] /\ flag = false) ->
  first_classification_decides (front ++ Classified st0 :: old) flag.
Proof.
  intros Fo H after st before E Fb N.
  destruct (first_classification_unique _ _ _ _ _ _ E Fo Fb) as [-> ->].
  exact (H N).
Qed.

Ltac quiet_step :=
  first
    [ emits_step
    | progress unfold Util.random_sleep, Util.input_text_box,
        Main.find_and_click ].

Lemma type_chars_quiet box text :
  emits not_classified (Util.type_chars w box text).
Proof. induction text as [|c text IH]; simpl; repeat quiet_step. Qed.
Hint Resolve type_chars_quiet : emits.

Ltac any_step :=
  first
    [ apply (emits_weaken not_set_active (fun _ => True));
      [intros; exact I | solve [eauto with emits]]
    | apply (emits_weaken not_confirm (fun _ => True));
      [intros; exact I | solve [eauto with emits]]
    | emits_step ].

(** The first [try] block of [search_and_book]: it falls through without
    a classification, or returns with its first classification
    deciding. *)
Lemma change_centre_decides bot centre s r s2 :
  Main.change_centre w bot centre s = (Ok r, s2) ->
  exists new,
    trace s2 = (new ++ trace s)%list
    /\ match r with
       | None => Forall not_classified new
       | Some b => first_classification_decides new (Main.active b)
       end.
Proof.
  unfold Main.change_centre, try_except.
  match goal with
  | |- context [match ?body s with _ => _ end] =>
      assert (B : emits not_classified body) by (repeat quiet_step);
      destruct (B s) as [nb [Eb Fb]];
      destruct (body s) as [[a|e|] sb]
  end; cbn [snd] in Eb.
  - intros H. inversion H; subst. exists nb. split; [exact Eb|].
    destruct r; [apply decides_quiet|]; exact Fb.
  - assert (Other :
        (b' <- Main.set_active false bot ;; ret (Some b')) sb = (Ok r, s2) ->
        exists new,
          trace s2 = (new ++ trace s)%list
          /\ match r with
             | None => Forall not_classified new
             | Some b => first_classification_decides new (Main.active b)
             end).
    { intros H. unfold Main.set_active, bind, emit, ret in H.
      inversion H; subst. exists (SetActive false :: nb). split.
      - cbn [trace]. rewrite Eb. reflexivity.
      - apply decides_quiet. constructor; [exact I | exact Fb]. }
    destruct e; try exact Other.
    intros H. apply bind_ok_inv in H as [st0 [sc [Ec H]]].
    apply check_firewall_and_queue_new in Ec.
    assert (Fo : Forall not_classified (ReadSource :: ReadUrl :: nb))
      by (repeat constructor; exact Fb).
    destruct (Main.is_failure_state st0) eqn:Fs.
    + unfold Main.set_active, bind, emit, ret in H. inversion H; subst.
      exists (SetActive false :: Classified st0 :: ReadSource :: ReadUrl :: nb).
      split; [cbn [trace]; rewrite Ec, Eb; reflexivity|].
      apply (decides_first [SetActive false]); [exact Fo | auto].
    + unfold ret in H. inversion H; subst.
      exists (Classified st0 :: ReadSource :: ReadUrl :: nb).
      split; [rewrite Ec, Eb; reflexivity|].
      apply (decides_first []); [exact Fo|].
      intros N. destruct st0; try discriminate Fs. now contradiction N.
  - intros H. discriminate H.
Qed.

(** In [search_and_book] the first classification decides. *)
Lemma search_and_book_decides bot s bot' s' :
  Main.active bot = true ->
  Main.search_and_book w strptime_long AUTO_BOOK_TEST
    FORMATTED_CURRENT_TEST_DATE bot s = (Ok bot', s') ->
  exists new,
    trace s' = (new ++ trace s)%list
    /\ first_classification_decides new (Main.active bot').
Proof.
  intros A E. unfold Main.search_and_book in E. rewrite A in E.
  cbn [negb] in E.
  destruct (Main.center (Main.preferences bot)) as [|c0 cs].
  { inversion E; subst. exists []. split; [reflexivity|].
    apply decides_quiet. constructor. }
  cbv zeta in E. cbn [Main.active Main.preferences negb] in E.
  apply bind_ok_inv in E as [c [s1 [E1 E]]].
  assert (s1 = s) as ->.
  { destruct (nth_error _ _); [inversion E1; reflexivity | discriminate E1]. }
  clear E1.
  apply bind_ok_inv in E as [r [s2 [E2 E]]].
  apply change_centre_decides in E2 as [n2 [T2 D2]].
  destruct r as [b|].
  { inversion E; subst. exists n2. split; assumption. }
  apply bind_ok_inv in E as [src [s3 [E3 E]]].
  assert (T3 : trace s3 = ReadSource :: trace s2).
  { unfold page_source, command in E3.
    destruct (w_fault w (clock s2)); inversion E3; reflexivity. }
  clear E3.
  destruct (PyStr.contains "there are no tests available" (PyStr.lower src)).
  { inversion E; subst. exists (ReadSource :: n2). split.
    - rewrite T3, T2. reflexivity.
    - apply decides_quiet. constructor; [exact I | exact D2]. }
  apply bind_ok_inv in E as [st0 [s4 [E4 E]]].
  apply check_firewall_and_queue_new in E4.
  assert (Fo : Forall not_classified
                 (ReadSource :: ReadUrl :: ReadSource :: n2))
    by (repeat constructor; exact D2).
  destruct (negb (PageState_eqb st0 ok)) eqn:N0.
  - unfold Main.set_active, bind, emit, ret in E. inversion E; subst.
    exists (SetActive false :: Classified st0 :: ReadSource :: ReadUrl
            :: ReadSource :: n2).
    split; [cbn [trace]; rewrite E4, T3, T2; reflexivity|].
    apply (decides_first [SetActive false]); [exact Fo | auto].
  - assert (st0 = ok) as -> by (destruct st0; try discriminate N0; reflexivity).
    match type of E with
    | ?m s4 = _ =>
        assert (R : emits (fun _ => True) m) by (repeat any_step);
        destruct (R s4) as [n5 [T5 _]]
    end.
    rewrite E in T5. cbn [snd] in T5.
    exists (n5 ++ Classified ok :: ReadSource :: ReadUrl :: ReadSource :: n2)%list.
    split.
    + rewrite T5, E4, T3, T2. rewrite <- app_assoc. reflexivity.
    + apply decides_first; [exact Fo|]. intros N. now contradiction N.
Qed.

(** C2 (as amended). In one reschedule attempt: a new bot is inactive;
    [login] hands back an active bot only right after a final
    classification that returned [ok]; [search_and_book] does nothing when
    the bot is inactive; once [self.active] has been assigned [False]
    (bad credentials, cancelled booking, a final login classification other
    than ok, an exception while reading the booking summary, a
    classification other than ok in [search_and_book]) only pauses follow
    in the attempt: no driver command, no pointer action, no message; the
    final classification of [login] is followed at once by the assignment
    of [self.active], [True] for [ok] and [False] for any other state; and
    in [search_and_book] the first classification, when it is not [ok], is
    followed at once by [self.active = False], which ends the call. *)
Theorem deactivation_ends_interaction
    (fuel : nat) (config_data : Main.Preferences) :
  Main.active (Main.new_bot config_data) = false
  /\ (forall bot s bot' s',
        Main.login w fuel bot s = (Ok bot', s') ->
        Main.active bot' = true ->
        exists rest, trace s' = SetActive true :: Classified ok :: rest)
  /\ (forall bot s,
        Main.active bot = false ->
        Main.search_and_book w strptime_long AUTO_BOOK_TEST
          FORMATTED_CURRENT_TEST_DATE bot s = (Ok bot, s))
  /\ (forall s,
        undeactivated s ->
        only_pauses_after_deactivation
          (history (snd (Main.reschedule_attempt w strptime_long AUTO_BOOK_TEST
                           FORMATTED_CURRENT_TEST_DATE fuel config_data s))))
  /\ (forall bot s st s1,
        Util.check_firewall_and_queue w s = (Ok st, s1) ->
        Main.login_final w bot s
        = (Ok {| Main.preferences := Main.preferences bot;
                 Main.active := PageState_eqb st ok;
                 Main.current_centre_index := Main.current_centre_index bot |},
           {| clock := clock s1; draws := draws s1;
              trace := SetActive (PageState_eqb st ok) :: Classified st
                       :: ReadSource :: ReadUrl :: trace s |}))
  /\ (forall bot s bot' s',
        Main.active bot = true ->
        Main.search_and_book w strptime_long AUTO_BOOK_TEST
          FORMATTED_CURRENT_TEST_DATE bot s = (Ok bot', s') ->
        exists new,
          trace s' = (new ++ trace s)%list
          /\ first_classification_decides new (Main.active bot')).
Proof.
  split; [reflexivity|]. split; [|split; [|split; [|split]]].
  - intros bot s bot' s' E A.
    pose proof (login_activated fuel bot s) as L.
    rewrite E in L. exact (L A).
  - intros bot s A. unfold Main.search_and_book. rewrite A. reflexivity.
  - intros s U.
    pose proof (reschedule_attempt_ok w strptime_long AUTO_BOOK_TEST
                  FORMATTED_CURRENT_TEST_DATE fuel config_data s U) as O.
    unfold outcome in O.
    destruct (fst (Main.reschedule_attempt _ _ _ _ _ _ _)) as [[]|e|].
    + destruct O as [[_ O]|[_ O]];
        [now apply undeactivated_history | now apply settled_history].
    + now apply undeactivated_history.
    + now apply undeactivated_history.
  - intros bot s st s1. apply login_final_decides.
  - intros bot s bot' s'. apply search_and_book_decides.
Qed.

End WithWorld.

Lemma deactivation_ends_interaction_witness :
  (exists rest,
      trace (snd (Main.login Fixtures.open_world 5
                    (Main.new_bot sample_preferences) Fixtures.start))
      = SetActive true :: Classified ok :: rest)
  /\ Main.search_and_book Fixtures.oops_world Fixtures.no_long_date false ""
       (Main.new_bot sample_preferences) Fixtures.start
     = (Ok (Main.new_bot sample_preferences), Fixtures.start)
  /\ only_pauses_after_deactivation
       (history (snd (Main.reschedule_attempt Fixtures.oops_world
                        Fixtures.no_long_date false "" 5 sample_preferences
                        Fixtures.start)))
  /\ trace (snd (Main.login_final Fixtures.oops_world
                   (Main.new_bot sample_preferences) Fixtures.start))
     = [SetActive false; Classified error; ReadSource; ReadUrl]
  /\ (exists new,
        trace (snd (Main.search_and_book Fixtures.oops_world
                      Fixtures.no_long_date false ""
                      {| Main.preferences := sample_preferences;
                         Main.active := true;
                         Main.current_centre_index := 0 |} Fixtures.start))
        = (new ++ [])%list
        /\ first_classification_decides new false).
Proof.
  destruct (deactivation_ends_interaction Fixtures.open_world
              Fixtures.no_long_date false "" 5 sample_preferences)
    as [_ [H1 _]].
  destruct (deactivation_ends_interaction Fixtures.oops_world
              Fixtures.no_long_date false "" 5 sample_preferences)
    as [_ [_ [H2 [H3 [H4 H5]]]]].
  split; [|split; [|split; [|split]]].
  - apply (H1 (Main.new_bot sample_preferences) Fixtures.start
             {| Main.preferences := sample_preferences; Main.active := true;
                Main.current_centre_index := 0 |}).
    + vm_compute. reflexivity.
    + reflexivity.
  - apply H2. reflexivity.
  - apply H3. constructor.
  - rewrite (H4 (Main.new_bot sample_preferences) Fixtures.start error
               {| clock := 2; draws := 0;
                  trace := [Classified error; ReadSource; ReadUrl] |}).
    + reflexivity.
    + vm_compute. reflexivity.
  - apply (H5 {| Main.preferences := sample_preferences; Main.active := true;
                 Main.current_centre_index := 0 |} Fixtures.start
              {| Main.preferences := sample_preferences; Main.active := false;
                 Main.current_centre_index := 0 |}
              (snd (Main.search_and_book Fixtures.oops_world
                      Fixtures.no_long_date false ""
                      {| Main.preferences := sample_preferences;
                         Main.active := true;
                         Main.current_centre_index := 0 |} Fixtures.start))).
    + reflexivity.
    + vm_compute. reflexivity.
Defined.

End SessionTheorems.

(* ================================================================== *)
(** * Further properties of the code *)
(* ================================================================== *)

From Stdlib Require Import Lqa.

(* ------------------------------------------------------------------ *)
(** ** Opening hours and the network wait *)
(* ------------------------------------------------------------------ *)

Module TimeFacts.






Section Network.
Variable online : nat -> bool.

Lemma wait_loop_connects (k : nat) :
  forall fuel probe s,
    (forall j, (j < k)%nat -> online (probe + j) = false) ->
    online (probe + k) = true ->
    (k < fuel)%nat ->
    UtilRest.wait_loop online fuel probe s
    = (Ok tt, {| clock := clock s; draws := draws s;
                 trace := (repeat (Sleep 1) k ++ trace s)%list |}).
Proof.
  induction k as [|k IH]; intros fuel probe s Off On F.
  - destruct fuel as [|fuel]; [lia|]. simpl.
    rewrite Nat.add_0_r in On. rewrite On. destruct s; reflexivity.
  - destruct fuel as [|fuel]; [lia|]. simpl.
    assert (O0 : online probe = false)
      by (rewrite <- (Nat.add_0_r probe); apply Off; lia).
    rewrite O0.
    erewrite MonadFacts.bind_ok by reflexivity.
    rewrite (IH fuel (S probe)).
    + simpl. f_equal. f_equal.
      change (Sleep 1 :: repeat (Sleep 1) k ++ trace s)%list
        with ((Sleep 1 :: repeat (Sleep 1) k) ++ trace s)%list.
      rewrite (repeat_cons k (Sleep 1)), <- app_assoc. reflexivity.
    + intros j Hj. replace (S probe + j)%nat with (probe + S j)%nat by lia.
      apply Off. lia.
    + replace (S probe + k)%nat with (probe + S k)%nat by lia. exact On.
    + lia.
Qed.

Lemma wait_loop_offline :
  (forall j, online j = false) ->
  forall fuel probe s, fst (UtilRest.wait_loop online fuel probe s) = Diverge.
Proof.
  intros Off. induction fuel as [|fuel IH]; intros probe s; [reflexivity|].
  simpl. rewrite Off. unfold bind, sleep, emit. simpl.
  specialize (IH (S probe)
                {| clock := clock s; draws := draws s;
                   trace := Sleep 1 :: trace s |}).
  destruct (UtilRest.wait_loop online fuel (S probe) _) as [[[]|e|] s'];
    simpl in IH; try discriminate. reflexivity.
Qed.

(** X2. [wait_for_internet_connection] returns at the first probe that
    succeeds, having slept one second after each failed probe and done
    nothing else; while no probe succeeds it never returns. *)
Theorem wait_for_internet_connection_blocks (s : State) :
  (forall k fuel,
      (forall j, (j < k)%nat -> online j = false) ->
      online k = true ->
      (k < fuel)%nat ->
      UtilRest.wait_for_internet_connection online fuel s
      = (Ok tt, {| clock := clock s; draws := draws s;
                   trace := (repeat (Sleep 1) k ++ trace s)%list |}))
  /\ ((forall j, online j = false) ->
      forall fuel,
        fst (UtilRest.wait_for_internet_connection online fuel s) = Diverge).
Proof.
  split.
  - intros k fuel Off On F. unfold UtilRest.wait_for_internet_connection.
    apply wait_loop_connects; auto.
  - intros Off fuel. apply wait_loop_offline. exact Off.
Qed.

End Network.

Lemma wait_for_internet_connection_blocks_witness :
  UtilRest.wait_for_internet_connection MoreSpec.third_probe 5 Fixtures.start
  = (Ok tt, {| clock := 0; draws := 0; trace := [Sleep 1; Sleep 1] |}).
Proof.
  destruct (wait_for_internet_connection_blocks MoreSpec.third_probe
              Fixtures.start) as [H _].
  apply (H 2%nat 5%nat).
  - intros j Hj. destruct j as [|[|j]]; [reflexivity | reflexivity | lia].
  - reflexivity.
  - lia.
Defined.

End TimeFacts.

(* ------------------------------------------------------------------ *)
(** ** Pauses, clicks and typing *)
(* ------------------------------------------------------------------ *)

Module InputFacts.
Import MonadFacts.

(** X3. For [base >= 0] and [max_extra >= 0], the lengths [time.sleep]
    accepts, [random_sleep(base, max_extra)] pauses twice and does nothing
    else: [base] seconds, then an extra between 0 and [max_extra]
    seconds. *)
Theorem random_sleep_duration (w : World) (base max_extra : Q) (s : State) :
  (0 <= base)%Q ->
  (0 <= max_extra)%Q ->
  (0 <= w_random w (draws s) /\ w_random w (draws s) <= 1)%Q ->
  exists extra,
    (0 <= extra /\ extra <= max_extra)%Q
    /\ Util.random_sleep w base max_extra s
       = (Ok tt, {| clock := clock s; draws := S (draws s);
                    trace := Sleep extra :: Sleep base :: trace s |}).
Proof.
  intros _ M [R0 R1].
  exists (0 + (max_extra - 0) * w_random w (draws s))%Q.
  split; [split; nra | reflexivity].
Qed.

Lemma random_sleep_duration_witness :
  exists extra,
    (0 <= extra /\ extra <= 10)%Q
    /\ Util.random_sleep Fixtures.plain_world Main.DVSA_DELAY 10 Fixtures.start
       = (Ok tt, {| clock := 0; draws := 1;
                    trace := [Sleep extra; Sleep Main.DVSA_DELAY] |}).
Proof.
  apply (random_sleep_duration Fixtures.plain_world Main.DVSA_DELAY 10
           Fixtures.start).
  - unfold Qle. simpl. lia.
  - unfold Qle. simpl. lia.
  - split; unfold Qle; simpl; lia.
Defined.

(** X4. Given a box whose top-right corner is strictly greater than its
    bottom-left corner in both dimensions, [hardware_click_range] first
    moves the pointer to a point inside the box, and returns [True] when
    none of its three pyautogui calls fails. *)
Theorem click_lands_in_box (w : World) (x1 y1 x2 y2 : Q) (s : State) :
  (x1 < x2)%Q -> (y1 < y2)%Q ->
  (0 <= w_random w (draws s) /\ w_random w (draws s) <= 1)%Q ->
  (0 <= w_random w (S (draws s)) /\ w_random w (S (draws s)) <= 1)%Q ->
  let out := Clicker.hardware_click_range w (x2, y2) (Some (x1, y1)) s in
  (exists final_x final_y duration rest,
      trace (snd out) = (rest ++ MoveTo final_x final_y duration :: trace s)%list
      /\ (x1 <= final_x /\ final_x <= x2)%Q
      /\ (y1 <= final_y /\ final_y <= y2)%Q)
  /\ (w_fault w (clock s) = false ->
      w_fault w (S (clock s)) = false ->
      w_fault w (S (S (clock s))) = false ->
      fst out = Ok true).
Proof.
  intros X Y [R0 R1] [R2 R3] out. subst out.
  unfold Clicker.hardware_click_range.
  assert (Bx : Qle_bool x2 x1 = false).
  { destruct (Qle_bool x2 x1) eqn:E; [|reflexivity].
    apply Qle_bool_iff in E. exfalso. apply (Qlt_not_le _ _ X E). }
  assert (By : Qle_bool y2 y1 = false).
  { destruct (Qle_bool y2 y1) eqn:E; [|reflexivity].
    apply Qle_bool_iff in E. exfalso. apply (Qlt_not_le _ _ Y E). }
  rewrite Bx, By. cbn [orb].
  unfold try_except, Clicker._perform_click, bind, uniform, moveTo, mouseDown,
    mouseUp, sleep, emit, command, ret. cbn [clock draws trace fst snd].
  split.
  - exists (x1 + (x2 - x1) * w_random w (draws s))%Q,
      (y1 + (y2 - y1) * w_random w (S (draws s)))%Q.
    destruct (w_fault w (clock s)); simpl.
    { eexists _, []. split; [reflexivity | split; split; nra]. }
    destruct (w_fault w (S (clock s))); simpl.
    { eexists _, [_; _]. split; [reflexivity | split; split; nra]. }
    destruct (w_fault w (S (S (clock s)))); simpl;
      (eexists _, [_; _; _; _]; split; [reflexivity | split; split; nra]).
  - intros F0 F1 F2. rewrite F0. simpl. rewrite F1. simpl. rewrite F2.
    reflexivity.
Qed.

Lemma click_lands_in_box_witness :
  fst (Clicker.hardware_click_range Fixtures.plain_world (1020, 485)%Q
         (Some (820, 420)%Q) Fixtures.start) = Ok true.
Proof.
  destruct (click_lands_in_box Fixtures.plain_world 820 420 1020 485
              Fixtures.start) as [_ H].
  - reflexivity.
  - reflexivity.
  - split; unfold Qle; simpl; lia.
  - split; unfold Qle; simpl; lia.
  - apply H; reflexivity.
Defined.

(** X5. Without a box, [hardware_click_range] moves the pointer to
    [top_right] itself; no exception escapes it, and it returns [True]
    exactly when none of its three pyautogui calls (move, button down,
    button up) fails. *)
Theorem absolute_click_outcome (w : World) (top_right : Q * Q) (s : State) :
  let out := Clicker.hardware_click_range w top_right None s in
  fst out = Ok (negb (w_fault w (clock s))
                && negb (w_fault w (S (clock s)))
                && negb (w_fault w (S (S (clock s)))))
  /\ exists duration rest,
       trace (snd out)
       = (rest ++ MoveTo (fst top_right) (snd top_right) duration :: trace s)%list.
Proof.
  intros out. subst out.
  unfold Clicker.hardware_click_range, try_except, Clicker._perform_click, bind,
    uniform, moveTo, mouseDown, mouseUp, sleep, emit, command, ret.
  simpl.
  destruct (w_fault w (clock s)); simpl.
  { split; [reflexivity | eexists _, []; reflexivity]. }
  destruct (w_fault w (S (clock s))); simpl.
  { split; [reflexivity | eexists _, [_; _]; reflexivity]. }
  destruct (w_fault w (S (S (clock s)))); simpl;
    (split; [reflexivity | eexists _, [_; _; _; _]; reflexivity]).
Qed.

(** Typing a text, once the box is in hand. *)
Lemma type_chars_types (w : World) (box : locator) (text : string) :
  forall s,
    (forall j, (j < String.length text)%nat -> w_fault w (clock s + j) = false) ->
    exists s',
      Util.type_chars w box text s = (Ok tt, s')
      /\ MoreSpec.keys_sent (trace s')
         = (rev (list_ascii_of_string text) ++ MoreSpec.keys_sent (trace s))%list.
Proof.
  induction text as [|c text IH]; intros s F.
  - exists s. split; reflexivity.
  - simpl Util.type_chars. unfold bind at 1. unfold send_keys, command.
    replace (w_fault w (clock s)) with false
      by (symmetry; rewrite <- (Nat.add_0_r (clock s)); apply F; simpl; lia).
    unfold bind at 1. unfold uniform. unfold bind at 1. unfold sleep, emit.
    cbn [clock draws trace].
    match goal with
    | |- context [Util.type_chars w box text ?st] =>
        destruct (IH st) as [s' [E K]]
    end.
    + intros j Hj. cbn [clock].
      replace (S (clock s) + j)%nat with (clock s + S j)%nat by lia.
      apply F. simpl. lia.
    + exists s'. split; [exact E|].
      rewrite K. cbn [trace MoreSpec.keys_sent list_ascii_of_string rev].
      now rewrite <- app_assoc.
Qed.

(** X6. When the text box is found and the driver does not fail,
    [input_text_box] sends exactly the characters of the text, in order;
    when the box is not found it types nothing and swallows the
    exception. *)
Theorem input_text_box_types (w : World) (box_id text : string) (s : State) :
  w_fault w (clock s) = false ->
  (w_present w (clock s) (ById box_id) = true ->
   (forall j, (j < String.length text)%nat ->
              w_fault w (S (clock s) + j) = false) ->
   exists s',
     Util.input_text_box w box_id text s = (Ok tt, s')
     /\ rev (MoreSpec.keys_sent (trace s'))
        = (rev (MoreSpec.keys_sent (trace s)) ++ list_ascii_of_string text)%list)
  /\ (w_present w (clock s) (ById box_id) = false ->
      Util.input_text_box w box_id text s
      = (Ok tt, {| clock := S (clock s); draws := draws s;
                   trace := Find (ById box_id) :: trace s |})).
Proof.
  intros F0.
  assert (Efind : find_element w (ById box_id) s
                  = (if w_present w (clock s) (ById box_id)
                     then Ok (ById box_id) else Raise NoSuchElementException,
                     {| clock := S (clock s); draws := draws s;
                        trace := Find (ById box_id) :: trace s |}))
    by (unfold find_element, command; rewrite F0; reflexivity).
  unfold Util.input_text_box, try_except. split.
  - intros P F. rewrite P in Efind. rewrite (bind_ok _ _ _ _ _ Efind).
    match goal with
    | |- context [Util.type_chars w ?b text ?st] =>
        destruct (type_chars_types w b text st F) as [s' [E K]]
    end.
    exists s'. rewrite E. split; [reflexivity|].
    rewrite K. cbn [trace MoreSpec.keys_sent].
    rewrite rev_app_distr, rev_involutive. reflexivity.
  - intros P. rewrite P in Efind. rewrite (bind_raise _ _ _ _ _ Efind).
    reflexivity.
Qed.

Lemma input_text_box_types_witness :
  (exists s',
      Util.input_text_box MoreSpec.form_world "driving-licence-number" "AB12"
        Fixtures.start = (Ok tt, s')
      /\ rev (MoreSpec.keys_sent (trace s')) = list_ascii_of_string "AB12")
  /\ Util.input_text_box MoreSpec.form_world "application-reference-number"
       "12345678" Fixtures.start
     = (Ok tt, {| clock := 1; draws := 0;
                  trace := [Find (ById "application-reference-number")] |}).
Proof.
  destruct (input_text_box_types MoreSpec.form_world "driving-licence-number"
              "AB12" Fixtures.start eq_refl) as [H _].
  destruct (input_text_box_types MoreSpec.form_world
              "application-reference-number" "12345678" Fixtures.start eq_refl)
    as [_ H'].
  split.
  - apply H; [reflexivity | intros; reflexivity].
  - apply H'. reflexivity.
Defined.

End InputFacts.

(* ------------------------------------------------------------------ *)
(** ** More on the classifier, the captcha handler and the loops *)
(* ------------------------------------------------------------------ *)

Module LoopFacts.
Import MonadFacts PyStrFacts.

(** Text found in a page is found in any page that contains it. *)
Lemma occurs_in_larger_page (needle pre content post : string) :
  Spec.occurs needle content = true ->
  Spec.occurs needle (pre ++ content ++ post) = true.
Proof.
  unfold Spec.occurs. rewrite !lower_app, !contains_app.
  intros [p [q E]]. exists (PyStr.lower pre ++ p), (q ++ PyStr.lower post).
  rewrite E. clear E.
  induction (PyStr.lower pre) as [|c l IH]; simpl.
  - induction p as [|c p IHp]; simpl.
    + induction needle as [|c n IHn]; simpl; [reflexivity|].
      now rewrite IHn.
    + now rewrite IHp.
  - now rewrite IH.
Qed.

(** X7. Adding text around the content of a page never lowers the
    priority of its classification: a firewall page stays a firewall page,
    a login page becomes at most a firewall page, and so on; only a page
    that was [ok] can become anything. *)
Theorem more_content_never_lowers_state (url pre content post : string) :
  (MoreSpec.rank (Util.page_state url content)
   <= MoreSpec.rank (Util.page_state url (pre ++ content ++ post)))%nat.
Proof.
  pose proof (occurs_in_larger_page Util.REQUEST_UNSUCCESSFUL pre content post) as R.
  pose proof (occurs_in_larger_page Util.INCIDENT_ID pre content post) as I.
  pose proof (occurs_in_larger_page Util.LOGIN_BANNER pre content post) as L.
  pose proof (occurs_in_larger_page Util.OOPS pre content post) as O.
  unfold Spec.occurs in *. unfold Util.page_state.
  destruct (PyStr.contains Util.QUEUE_DOMAIN (PyStr.lower url)); [simpl; lia|].
  destruct (PyStr.contains Util.REQUEST_UNSUCCESSFUL (PyStr.lower content));
    [rewrite R by reflexivity|];
  destruct (PyStr.contains Util.INCIDENT_ID (PyStr.lower content));
    try rewrite I by reflexivity;
  destruct (PyStr.contains Util.LOGIN_BANNER (PyStr.lower content));
    try rewrite L by reflexivity;
  destruct (PyStr.contains Util.OOPS (PyStr.lower content));
    try rewrite O by reflexivity;
  simpl;
  repeat match goal with
         | |- context [if ?b then _ else _] => destruct b; simpl
         end; lia.
Qed.

(** X8. In automatic mode no exception escapes [solve_captcha]: it
    returns [True] exactly when neither the switch to the top-level
    document nor the read of the page source fails, and [False]
    otherwise. *)
Theorem solve_captcha_result
    (w : World) (coord_top_right : Q * Q) (coord_bottom_left : option (Q * Q))
    (s : State) :
  fst (Util.solve_captcha w false coord_top_right coord_bottom_left s)
  = Ok (negb (w_fault w (clock s)) && negb (w_fault w (S (clock s)))).
Proof.
  unfold Util.solve_captcha, try_except, bind, switch_to_default_content,
    page_source, command.
  destruct (w_fault w (clock s)); [reflexivity|]. simpl.
  destruct (w_fault w (S (clock s))); [reflexivity|]. simpl.
  destruct (PyStr.contains Util.REQUEST_UNSUCCESSFUL _
            && PyStr.contains Util.INCIDENT_ID _); [|reflexivity].
  match goal with
  | |- context [Clicker.hardware_click_range w ?a ?b ?s0] =>
      destruct (ClickerFacts.hardware_click_range_returns w a b s0)
        as [b' [s' ->]]
  end.
  reflexivity.
Qed.

Section WithWorld.
Variable w : World.

(** What a classification returns and records. *)
Lemma check_firewall_and_queue_cases (s : State) :
  (exists e s', Util.check_firewall_and_queue w s = (Raise e, s')
                /\ count_event is_classification s'
                   = count_event is_classification s)
  \/ (Util.check_firewall_and_queue w s
      = (Ok (Util.page_state (w_url w (clock s)) (w_source w (S (clock s)))),
         {| clock := S (S (clock s)); draws := draws s;
            trace := Classified (Util.page_state (w_url w (clock s))
                                   (w_source w (S (clock s))))
                     :: ReadSource :: ReadUrl :: trace s |})).
Proof.
  unfold Util.check_firewall_and_queue, bind, current_url, page_source, command,
    emit, ret.
  destruct (w_fault w (clock s)); [left; eexists _, _; split; reflexivity|].
  simpl. destruct (w_fault w (S (clock s)));
    [left; eexists _, _; split; reflexivity|].
  right. reflexivity.
Qed.

Lemma random_sleep_state base extra s :
  Util.random_sleep w base extra s
  = (Ok tt, {| clock := clock s; draws := S (draws s);
               trace := Sleep (0 + (extra - 0) * w_random w (draws s))
                        :: Sleep base :: trace s |}).
Proof. reflexivity. Qed.

(** Without firewall pages the loop is left before [loop_count] passes
    the ceiling. *)
Lemma queue_loop_bounded :
  (forall t, Util.page_state (w_url w t) (w_source w (S t)) <> firewall) ->
  forall k loop_count fuel s,
    (loop_count + k = Main.max_queue_checks)%nat ->
    (k < fuel)%nat ->
    fst (Main.queue_loop w fuel loop_count s) <> Diverge
    /\ (count_event is_classification (snd (Main.queue_loop w fuel loop_count s))
        <= count_event is_classification s + k)%nat
    /\ count_event is_refresh (snd (Main.queue_loop w fuel loop_count s))
       = count_event is_refresh s.
Proof.
  intros NoFw. induction k as [|k IH]; intros loop_count fuel s E F.
  - destruct fuel as [|fuel]; [lia|]. simpl.
    replace (loop_count <? Main.max_queue_checks)%nat with false
      by (symmetry; apply Nat.ltb_ge; lia).
    simpl. repeat split; [discriminate | lia].
  - destruct fuel as [|fuel]; [lia|]. simpl.
    replace (loop_count <? Main.max_queue_checks)%nat with true
      by (symmetry; apply Nat.ltb_lt; lia).
    destruct (check_firewall_and_queue_cases s) as [[e [s' [C N]]]|C].
    + rewrite (bind_raise _ _ _ _ _ C). simpl. rewrite N.
      repeat split; [discriminate | lia |].
      unfold Util.check_firewall_and_queue, bind, current_url, page_source,
        command in C.
      destruct (w_fault w (clock s)); [inversion C; reflexivity|].
      simpl in C. destruct (w_fault w (S (clock s))); inversion C; reflexivity.
    + rewrite (bind_ok _ _ _ _ _ C).
      specialize (NoFw (clock s)).
      destruct (Util.page_state (w_url w (clock s)) (w_source w (S (clock s))));
        try contradiction.
      * rewrite (bind_ok _ _ _ _ _ (random_sleep_state _ _ _)).
        match goal with
        | |- context [Main.queue_loop w fuel (S loop_count) ?st] =>
            destruct (IH (S loop_count) fuel st) as [D [Cn Rf]]; [lia | lia |]
        end.
        repeat split; [exact D | | exact Rf].
        etransitivity; [exact Cn|]. unfold count_event. simpl. lia.
      * simpl. repeat split; [discriminate | unfold count_event; simpl; lia].
      * simpl. repeat split; [discriminate | unfold count_event; simpl; lia].
      * simpl. repeat split; [discriminate | unfold count_event; simpl; lia].
Qed.

(** X9. In front of a browser that never shows the firewall page,
    [handle_queue_and_firewall] always leaves its loop: it classifies the
    page at most 100 times and refreshes it at most once (the fallback
    refresh at the ceiling). *)
Theorem queue_loop_ceiling_without_firewall (fuel : nat) (s : State) :
  (forall t, Util.page_state (w_url w t) (w_source w (S t)) <> firewall) ->
  (Main.max_queue_checks < fuel)%nat ->
  let out := Main.handle_queue_and_firewall w fuel s in
  fst out <> Diverge
  /\ (count_event is_classification (snd out)
      <= count_event is_classification s + 100)%nat
  /\ (count_event is_refresh (snd out) <= count_event is_refresh s + 1)%nat.
Proof.
  intros NoFw F out. subst out. unfold Main.handle_queue_and_firewall.
  destruct (queue_loop_bounded NoFw Main.max_queue_checks 0 fuel s eq_refl F)
    as [D [C R]].
  unfold bind.
  destruct (Main.queue_loop w fuel 0 s) as [[n|e|] s']; cbn [fst snd] in *.
  - destruct (Main.max_queue_checks <=? n)%nat.
    + unfold refresh, command, count_event in *.
      destruct (w_fault w (clock s')); cbn [fst snd trace];
        (split; [discriminate|]);
        cbn [filter is_classification is_refresh length];
        unfold Main.max_queue_checks in C; lia.
    + cbn [ret fst snd]. unfold Main.max_queue_checks in C.
      split; [discriminate | lia].
  - unfold Main.max_queue_checks in C. split; [discriminate | lia].
  - contradiction.
Qed.

End WithWorld.

Lemma queue_loop_ceiling_without_firewall_witness :
  let out := Main.handle_queue_and_firewall Fixtures.queue_world 101
               Fixtures.start in
  fst out <> Diverge
  /\ (count_event is_classification (snd out) <= 0 + 100)%nat
  /\ (count_event is_refresh (snd out) <= 0 + 1)%nat.
Proof.
  apply (queue_loop_ceiling_without_firewall Fixtures.queue_world 101
           Fixtures.start).
  - intros t. vm_compute. discriminate.
  - unfold Main.max_queue_checks. lia.
Defined.

End LoopFacts.

(* ------------------------------------------------------------------ *)
(** ** The firewall loop of the initial booking flow *)
(* ------------------------------------------------------------------ *)

Module InitialFlowFacts.
Import MonadFacts TraceFacts.

(** Code that records no classification leaves their number as it is. *)
Lemma emits_keeps_classifications {A} (m : M A) (s : State) :
  emits not_classified m ->
  count_event is_classification (snd (m s)) = count_event is_classification s.
Proof.
  intros H. destruct (H s) as [new [E F]]. unfold count_event. rewrite E.
  rewrite filter_app, length_app.
  replace (filter is_classification new) with (@nil event); [reflexivity|].
  symmetry. clear E. induction F as [|e new Pe F IH]; [reflexivity|].
  destruct e; simpl in Pe |- *; try contradiction; exact IH.
Qed.

Section WithWorld.
Variable w : World.

Lemma refresh_state s :
  refresh w s
  = (if w_fault w (clock s) then Raise WebDriverException else Ok tt,
     {| clock := S (clock s); draws := draws s; trace := Refresh :: trace s |}).
Proof. unfold refresh, command. destruct (w_fault w (clock s)); reflexivity. Qed.

Lemma sleep_state q s :
  sleep q s
  = (Ok tt, {| clock := clock s; draws := draws s; trace := Sleep q :: trace s |}).
Proof. reflexivity. Qed.

Lemma perform_click_unclassified x y :
  emits not_classified (Clicker._perform_click w x y).
Proof. unfold Clicker._perform_click. emits_auto. Qed.

Lemma hardware_click_unclassified top_right bottom_left :
  emits not_classified
    (Clicker.hardware_click_range w top_right bottom_left).
Proof.
  unfold Clicker.hardware_click_range. destruct top_right.
  repeat first [apply perform_click_unclassified | emits_step].
Qed.

Lemma solve_captcha_unclassified skip ctr cbl :
  emits not_classified (Util.solve_captcha w skip ctr cbl).
Proof.
  unfold Util.solve_captcha.
  repeat first [apply hardware_click_unclassified | emits_step].
Qed.

(** The automatic captcha handler, when its two driver commands
    succeed. *)
Lemma solve_captcha_succeeds ctr cbl s :
  w_fault w (clock s) = false ->
  w_fault w (S (clock s)) = false ->
  exists s',
    Util.solve_captcha w false ctr cbl s = (Ok true, s')
    /\ count_event is_classification s' = count_event is_classification s.
Proof.
  intros F0 F1.
  pose proof (emits_keeps_classifications
                (Util.solve_captcha w false ctr cbl) s
                (solve_captcha_unclassified false ctr cbl)) as K.
  assert (R : fst (Util.solve_captcha w false ctr cbl s) = Ok true).
  { unfold Util.solve_captcha, try_except, bind, switch_to_default_content,
      page_source, command. rewrite F0. simpl. rewrite F1. simpl.
    destruct (PyStr.contains Util.REQUEST_UNSUCCESSFUL _
              && PyStr.contains Util.INCIDENT_ID _); [|reflexivity].
    match goal with
    | |- context [Clicker.hardware_click_range w ?a ?b ?s0] =>
        destruct (ClickerFacts.hardware_click_range_returns w a b s0)
          as [b' [s' ->]]
    end.
    reflexivity. }
  destruct (Util.solve_captcha w false ctr cbl s) as [r s'].
  simpl in R, K. subst r. exists s'. split; [reflexivity | exact K].
Qed.

(** The loop classifies the page at most once per iteration. *)
Lemma initial_firewall_loop_bounded (n : nat) :
  forall s,
    fst (MainRest.initial_firewall_loop w n s) <> Diverge
    /\ (count_event is_classification (snd (MainRest.initial_firewall_loop w n s))
        <= count_event is_classification s + n)%nat.
Proof.
  induction n as [|n IH]; intros s.
  - simpl. split; [discriminate | lia].
  - simpl. destruct (LoopFacts.check_firewall_and_queue_cases w s)
      as [[e [s' [C N]]]|C].
    + rewrite (bind_raise _ _ _ _ _ C). simpl. split; [discriminate | lia].
    + rewrite (bind_ok _ _ _ _ _ C).
      set (s1 := {| clock := S (S (clock s)); draws := draws s;
                    trace := _ |}).
      assert (C1 : count_event is_classification s1
                   = S (count_event is_classification s)) by reflexivity.
      assert (Captcha :
                fst ((solved <- Util.solve_captcha w Main.SOLVE_MANUALLY
                                 Main.COORD_TOP_RIGHT Main.COORD_BOTTOM_LEFT ;;
                      (if negb solved
                       then refresh w ;; sleep 3 ;;
                            MainRest.initial_firewall_loop w n
                       else ret tt)) s1) <> Diverge
                /\ (count_event is_classification
                      (snd ((solved <- Util.solve_captcha w Main.SOLVE_MANUALLY
                                         Main.COORD_TOP_RIGHT
                                         Main.COORD_BOTTOM_LEFT ;;
                             (if negb solved
                              then refresh w ;; sleep 3 ;;
                                   MainRest.initial_firewall_loop w n
                              else ret tt)) s1))
                    <= count_event is_classification s + S n)%nat).
      { pose proof (emits_keeps_classifications
                      (Util.solve_captcha w Main.SOLVE_MANUALLY
                         Main.COORD_TOP_RIGHT Main.COORD_BOTTOM_LEFT) s1
                      (solve_captcha_unclassified _ _ _)) as K.
        destruct (QueueLoopFacts.solve_captcha_returns w Main.SOLVE_MANUALLY
                    Main.COORD_TOP_RIGHT Main.COORD_BOTTOM_LEFT s1)
          as [solved [s2 E2]].
        rewrite E2 in K. simpl in K. rewrite (bind_ok _ _ _ _ _ E2).
        destruct solved; simpl.
        - split; [discriminate | lia].
        - pose proof (refresh_state s2) as Er.
          destruct (w_fault w (clock s2)).
          + rewrite (bind_raise _ _ _ _ _ Er). cbn [fst snd].
            split; [discriminate|]. unfold count_event in *. simpl. lia.
          + rewrite (bind_ok _ _ _ _ _ Er).
            rewrite (bind_ok _ _ _ _ _ (sleep_state _ _)).
            match goal with
            | |- context [MainRest.initial_firewall_loop w n ?st] =>
                destruct (IH st) as [D B];
                assert (Cs : count_event is_classification st
                             = count_event is_classification s2)
                  by reflexivity
            end.
            split; [exact D | lia]. }
      destruct (Util.page_state (w_url w (clock s)) (w_source w (S (clock s))));
        try exact Captcha; simpl.
      * split; [discriminate | lia].
      * rewrite (bind_ok _ _ _ _ _ (sleep_state _ _)).
        match goal with
        | |- context [bind (refresh w) _ ?st] =>
            pose proof (refresh_state st) as Er;
            assert (Cs0 : count_event is_classification st
                          = count_event is_classification s1) by reflexivity;
            destruct (w_fault w (clock st))
        end.
        -- rewrite (bind_raise _ _ _ _ _ Er). cbn [fst snd].
           split; [discriminate|]. unfold count_event in *. simpl. lia.
        -- rewrite (bind_ok _ _ _ _ _ Er).
           rewrite (bind_ok _ _ _ _ _ (sleep_state _ _)).
           match goal with
           | |- context [MainRest.initial_firewall_loop w n ?st] =>
               destruct (IH st) as [D B];
               assert (Cs : count_event is_classification st
                            = count_event is_classification s1)
                 by reflexivity
           end.
           split; [exact D | lia].
      * split; [discriminate | lia].
Qed.

(** X10. The firewall loop of the initial booking flow always ends, with
    at most five classifications of the page.  In automatic mode it does
    not wait for a queue or firewall page to go away: when the captcha
    handler's two driver commands succeed, the loop is left after that one
    classification. *)
Theorem initial_firewall_loop_gives_up (s : State) :
  (fst (MainRest.initial_firewall_loop w 5 s) <> Diverge
   /\ (count_event is_classification (snd (MainRest.initial_firewall_loop w 5 s))
       <= count_event is_classification s + 5)%nat)
  /\ (forall n,
        w_fault w (clock s) = false ->
        w_fault w (S (clock s)) = false ->
        w_fault w (S (S (clock s))) = false ->
        w_fault w (S (S (S (clock s)))) = false ->
        Util.page_state (w_url w (clock s)) (w_source w (S (clock s))) = queue
        \/ Util.page_state (w_url w (clock s)) (w_source w (S (clock s)))
           = firewall ->
        fst (MainRest.initial_firewall_loop w (S n) s) = Ok tt
        /\ count_event is_classification
             (snd (MainRest.initial_firewall_loop w (S n) s))
           = S (count_event is_classification s)).
Proof.
  split; [apply initial_firewall_loop_bounded|].
  intros n F0 F1 F2 F3 St. simpl.
  destruct (LoopFacts.check_firewall_and_queue_cases w s)
    as [[e [s' [C _]]]|C].
  { exfalso. unfold Util.check_firewall_and_queue, bind, current_url,
      page_source, command in C. rewrite F0 in C. simpl in C.
    rewrite F1 in C. discriminate C. }
  rewrite (bind_ok _ _ _ _ _ C).
  set (s1 := {| clock := S (S (clock s)); draws := draws s; trace := _ |}).
  destruct (solve_captcha_succeeds Main.COORD_TOP_RIGHT Main.COORD_BOTTOM_LEFT
              s1 F2 F3) as [s2 [E2 K]].
  destruct St as [-> | ->];
    change Main.SOLVE_MANUALLY with false;
    rewrite (bind_ok _ _ _ _ _ E2); simpl; (split; [reflexivity | exact K]).
Qed.

End WithWorld.

Lemma initial_firewall_loop_gives_up_witness :
  fst (MainRest.initial_firewall_loop Fixtures.queue_world 5 Fixtures.start)
  = Ok tt
  /\ count_event is_classification
       (snd (MainRest.initial_firewall_loop Fixtures.queue_world 5
               Fixtures.start)) = 1%nat.
Proof.
  destruct (initial_firewall_loop_gives_up Fixtures.queue_world Fixtures.start)
    as [_ H].
  apply (H 4%nat); try reflexivity. left. vm_compute. reflexivity.
Defined.

End InitialFlowFacts.

(* ------------------------------------------------------------------ *)
(** ** More on the booking finalizer and the notifier *)
(* ------------------------------------------------------------------ *)

Module FinalizerMore.
Import MonadFacts.

Section WithWorld.
Variable w : World.
Variables (solve_manually : bool) (coord_top_right : Q * Q)
          (coord_bottom_left : option (Q * Q)).

(** X11. When the "I am the candidate" button is not on the page at the
    first attempt, [book_test_flow] takes the slot as already reserved: the
    loop is left after that single look-up, without reading the page, and
    with the auto-book flag unset the flow returns [True]. *)
Theorem missing_candidate_button_means_reserved (short_notice : bool) (s : State) :
  w_fault w (clock s) = false ->
  w_present w (clock s) (ById "i-am-candidate") = false ->
  let s1 := {| clock := S (clock s); draws := draws s;
               trace := Find (ById "i-am-candidate") :: Sleep (3 # 10)
                        :: trace s |} in
  Util.booking_loop w 4 solve_manually coord_top_right coord_bottom_left false s
  = (Ok Util.Reserved, s1)
  /\ Util.book_test_flow w short_notice solve_manually coord_top_right
       coord_bottom_left false s = (Ok true, s1).
Proof.
  intros F P s1.
  assert (L : Util.booking_loop w 4 solve_manually coord_top_right
                coord_bottom_left false s = (Ok Util.Reserved, s1)).
  { assert (T : Util.attempt_try w solve_manually coord_top_right
                  coord_bottom_left false s
                = (Ok (false, Some Util.Reserved), s1)).
    { unfold Util.attempt_try.
      rewrite (bind_ok _ _ _ _ _ (InitialFlowFacts.sleep_state _ _)).
      assert (E : Util.click_candidate w false
                    {| clock := clock s; draws := draws s;
                       trace := Sleep (3 # 10) :: trace s |}
                  = (Raise NoSuchElementException, s1)).
      { unfold Util.click_candidate, bind, find_element, command. simpl.
        rewrite F, P. reflexivity. }
      rewrite (bind_ok _ _ _ _ _ (reify_raise _ _ _ _ E)). reflexivity. }
    cbn [Util.booking_loop]. rewrite (bind_ok _ _ _ _ _ T). reflexivity. }
  split; [exact L|].
  unfold Util.book_test_flow. rewrite (bind_ok _ _ _ _ _ L). reflexivity.
Qed.

Lemma after_confirm_click_terminates s :
  fst (Util.after_confirm_click w solve_manually coord_top_right
         coord_bottom_left s) <> Diverge.
Proof.
  unfold Util.after_confirm_click.
  rewrite (bind_ok _ _ _ _ _ (InitialFlowFacts.sleep_state _ _)).
  match goal with
  | |- context [bind (Util.check_firewall_and_queue w) _ ?st] =>
      destruct (LoopFacts.check_firewall_and_queue_cases w st)
        as [[e [s' [C _]]]|C]
  end.
  { rewrite (bind_raise _ _ _ _ _ C). discriminate. }
  rewrite (bind_ok _ _ _ _ _ C).
  destruct (PageState_eqb _ firewall); [|discriminate].
  rewrite (bind_ok _ _ _ _ _ (LoopFacts.random_sleep_state _ _ _ _)).
  match goal with
  | |- context [bind (refresh w) _ ?st] =>
      pose proof (InitialFlowFacts.refresh_state w st) as Er;
      destruct (w_fault w (clock st))
  end.
  { rewrite (bind_raise _ _ _ _ _ Er). discriminate. }
  rewrite (bind_ok _ _ _ _ _ Er).
  match goal with
  | |- context [bind (Util.check_firewall_and_queue w) _ ?st] =>
      destruct (LoopFacts.check_firewall_and_queue_cases w st)
        as [[e [s' [C' _]]]|C']
  end.
  { rewrite (bind_raise _ _ _ _ _ C'). discriminate. }
  rewrite (bind_ok _ _ _ _ _ C').
  destruct (PageState_eqb _ firewall); [|discriminate].
  match goal with
  | |- context [bind (Util.solve_captcha w ?a ?b ?c) _ ?st] =>
      destruct (QueueLoopFacts.solve_captcha_returns w a b c st)
        as [solved [s2 E2]]
  end.
  rewrite (bind_ok _ _ _ _ _ E2).
  unfold bind, page_source, command.
  destruct (w_fault w (clock s2)); [discriminate|].
  destruct (PyStr.contains "imperva" _); discriminate.
Qed.

(** X12. No exception escapes the final confirmation: [confirm_changes]
    always returns a boolean, and when the "confirm-changes" button is not
    found it returns [False] after that single look-up. *)
Theorem confirm_changes_never_raises (s : State) :
  (exists b,
      fst (Util.confirm_changes w solve_manually coord_top_right
             coord_bottom_left s) = Ok b)
  /\ (w_fault w (clock s) = false ->
      w_present w (clock s) (ById "confirm-changes") = false ->
      Util.confirm_changes w solve_manually coord_top_right coord_bottom_left s
      = (Ok false, {| clock := S (clock s); draws := draws s;
                      trace := Find (ById "confirm-changes") :: trace s |})).
Proof.
  split.
  - unfold Util.confirm_changes, try_except.
    match goal with
    | |- context [match ?m s with _ => _ end] =>
        destruct (m s) as [[b|e|] s'] eqn:E
    end; simpl; eauto.
    exfalso. revert E. unfold bind at 1. unfold find_element, command.
    destruct (w_fault w (clock s)); [discriminate|].
    destruct (w_present w (clock s) (ById "confirm-changes")); [|discriminate].
    unfold bind at 1. unfold click, command. cbn [clock].
    destruct (w_fault w (S (clock s))); [discriminate|].
    match goal with
    | |- context [Util.after_confirm_click w ?a ?b ?c ?st] =>
        pose proof (after_confirm_click_terminates st) as T;
        destruct (Util.after_confirm_click w a b c st) as [[x|e|] s2]
    end; try discriminate.
    now elim T.
  - intros F P. unfold Util.confirm_changes, try_except, bind, find_element,
      command. rewrite F, P. reflexivity.
Qed.

(** X13. The two notifications always return: each sends one SMS and
    swallows the failure of the provider, so that a failed notification
    cannot interrupt the booking. *)
Theorem notifications_swallow_failures
    (centre date t_time : string) (short_notice : bool) (s : State) :
  (exists msg,
      Util.send_text_available w date t_time s
      = (Ok tt, {| clock := S (clock s); draws := draws s;
                   trace := Sms msg :: trace s |}))
  /\ (exists msg,
        Util.send_text_test_found w centre date t_time short_notice s
        = (Ok tt, {| clock := S (clock s); draws := draws s;
                     trace := Sms msg :: trace s |})).
Proof.
  unfold Util.send_text_available, Util.send_text_test_found, try_except,
    send_text, command.
  split; eexists; destruct (w_fault w (clock s)); reflexivity.
Qed.

End WithWorld.

Lemma missing_candidate_button_means_reserved_witness :
  Util.book_test_flow Fixtures.taken_world_no_button false Main.SOLVE_MANUALLY
    Main.COORD_TOP_RIGHT Main.COORD_BOTTOM_LEFT false Fixtures.start
  = (Ok true, {| clock := 1; draws := 0;
                 trace := [Find (ById "i-am-candidate"); Sleep (3 # 10)] |}).
Proof.
  destruct (missing_candidate_button_means_reserved
              Fixtures.taken_world_no_button Main.SOLVE_MANUALLY
              Main.COORD_TOP_RIGHT Main.COORD_BOTTOM_LEFT false Fixtures.start)
    as [_ H]; [reflexivity | reflexivity | exact H].
Defined.

Lemma confirm_changes_never_raises_witness :
  Util.confirm_changes Fixtures.plain_world Main.SOLVE_MANUALLY
    Main.COORD_TOP_RIGHT Main.COORD_BOTTOM_LEFT Fixtures.start
  = (Ok false, {| clock := 1; draws := 0;
                  trace := [Find (ById "confirm-changes")] |}).
Proof.
  destruct (confirm_changes_never_raises Fixtures.plain_world
              Main.SOLVE_MANUALLY Main.COORD_TOP_RIGHT Main.COORD_BOTTOM_LEFT
              Fixtures.start) as [_ H].
  apply H; reflexivity.
Defined.

End FinalizerMore.

(* ------------------------------------------------------------------ *)
(** ** More on the calendar scanner *)
(* ------------------------------------------------------------------ *)

Module ScannerMore.
Import ScanSpec ScannerFacts ScannerTheorems.

(** A date returned by the loop belongs to a qualifying cell, and no
    cell before that one qualifies. *)
Lemma scan_days_found min_date max_date exclusion formatted (days : list Cell) :
  forall i s j,
    fst (Util.scan_days min_date max_date exclusion formatted i days)
    = Ok (Util.Found s j) ->
    (i <= j)%nat
    /\ exists c dt,
         nth_error days (j - i) = Some c
         /\ qualifies min_date max_date exclusion formatted c = true
         /\ cell_date c = Some (s, dt)
         /\ forall k c',
              (k < j - i)%nat -> nth_error days k = Some c' ->
              qualifies min_date max_date exclusion formatted c' = false.
Proof.
  induction days as [|c rest IH]; intros i s j H; [discriminate H|].
  assert (Later :
            qualifies min_date max_date exclusion formatted c = false ->
            fst (Util.scan_days min_date max_date exclusion formatted (S i) rest)
            = Ok (Util.Found s j) ->
            (i <= j)%nat
            /\ exists c0 dt,
                 nth_error (c :: rest) (j - i) = Some c0
                 /\ qualifies min_date max_date exclusion formatted c0 = true
                 /\ cell_date c0 = Some (s, dt)
                 /\ forall k c',
                      (k < j - i)%nat -> nth_error (c :: rest) k = Some c' ->
                      qualifies min_date max_date exclusion formatted c' = false).
  { intros Q H'. destruct (IH (S i) s j H') as [L [c0 [dt [N [Q0 [D B]]]]]].
    split; [lia|]. exists c0, dt.
    replace (j - i)%nat with (S (j - S i)) by lia.
    repeat split; auto.
    intros k c' Hk Nk. destruct k as [|k]; simpl in Nk.
    - inversion Nk; subst. exact Q.
    - apply (B k); [lia | exact Nk]. }
  simpl in H. destruct (Util.marked_unavailable c) eqn:U; simpl in H.
  - apply Later; [|exact H]. unfold ScanSpec.qualifies. now rewrite U.
  - pose proof (inspect_day_spec min_date max_date exclusion formatted i c U) as S.
    destruct (Util.inspect_day min_date max_date exclusion formatted i c)
      as [[[r|]|e|] log]; simpl in S, H.
    + destruct S as [Q [s0 [dt [D ->]]]]. inversion H; subst.
      split; [lia|]. exists c, dt. rewrite Nat.sub_diag.
      repeat split; auto. intros k c' Hk. lia.
    + apply Later; [apply S | exact H].
    + destruct e; simpl in H; try discriminate H.
      apply Later; [apply S | exact H].
    + contradiction.
Qed.

(** X14. Whatever the grid holds, a date returned by the scanner is the
    link date of a cell of the grid that is not marked unavailable; it is
    not excluded, lies strictly between the two bounds, is a weekday and is
    not the formatted test date; and no cell before it passes the filter. *)
Theorem scan_found_is_sound
    (strptime_long : string -> option PyDate.datetime) (grid : list Cell)
    (before_date after_date : string) (exclusion : list string)
    (current_test_date formatted : string) (s : string) (i : nat) :
  fst (Util.scan_for_preferred_tests strptime_long (Some grid)
         before_date after_date exclusion current_test_date formatted)
  = Ok (Util.Found s i) ->
  exists min_date max_date c dt,
    Util.scan_bounds strptime_long before_date after_date current_test_date
    = Ok (min_date, max_date)
    /\ nth_error grid i = Some c
    /\ Util.marked_unavailable c = false
    /\ cell_date c = Some (s, dt)
    /\ PyStr.mem s exclusion = false
    /\ PyDate.lt dt min_date = true
    /\ PyDate.lt max_date dt = true
    /\ (PyDate.weekday dt < 5)%Z
    /\ s <> formatted
    /\ forall k c',
         (k < i)%nat -> nth_error grid k = Some c' ->
         qualifies min_date max_date exclusion formatted c' = false.
Proof.
  unfold Util.scan_for_preferred_tests, Util.scan_body. intros H.
  destruct (Util.scan_bounds strptime_long before_date after_date
              current_test_date) as [[mn mx]|e|];
    [| destruct e; discriminate H | discriminate H].
  unfold Util.logged in H.
  destruct (Util.scan_days mn mx exclusion formatted 0 grid) as [r log] eqn:E.
  assert (R : r = Ok (Util.Found s i)).
  { destruct r as [x|e|]; simpl in H; [exact H | destruct e; discriminate H
                                       | discriminate H]. }
  subst r.
  destruct (scan_days_found mn mx exclusion formatted grid 0 s i)
    as [_ [c [dt [N [Q [D B]]]]]]; [rewrite E; reflexivity|].
  rewrite Nat.sub_0_r in N, B.
  exists mn, mx, c, dt.
  unfold ScanSpec.qualifies in Q. rewrite D in Q.
  apply andb_true_iff in Q as [U Q]. apply negb_true_iff in U.
  unfold Util.date_condition in Q.
  repeat (apply andb_true_iff in Q as [Q ?]).
  repeat split; auto.
  - now apply negb_true_iff.
  - now apply Z.ltb_lt.
  - intros ->. rewrite String.eqb_refl in *. discriminate.
Qed.

Lemma scan_found_is_sound_witness :
  exists min_date max_date c dt,
    Util.scan_bounds Fixtures.no_long_date "2025-06-01" "2025-01-01" "Yes"
    = Ok (min_date, max_date)
    /\ nth_error Fixtures.march_grid 2 = Some c
    /\ Util.marked_unavailable c = false
    /\ cell_date c = Some ("2025-03-17", dt)
    /\ PyStr.mem "2025-03-17" ["2025-03-10"] = false
    /\ PyDate.lt dt min_date = true
    /\ PyDate.lt max_date dt = true
    /\ (PyDate.weekday dt < 5)%Z
    /\ "2025-03-17" <> ""
    /\ forall k c',
         (k < 2)%nat -> nth_error Fixtures.march_grid k = Some c' ->
         qualifies min_date max_date ["2025-03-10"] "" c' = false.
Proof.
  apply (scan_found_is_sound Fixtures.no_long_date Fixtures.march_grid
           "2025-06-01" "2025-01-01" ["2025-03-10"] "Yes" "" "2025-03-17" 2).
  vm_compute. reflexivity.
Defined.

Lemma derived_min_date_returns strptime_long current_test_date :
  exists d, Util.derived_min_date strptime_long current_test_date = Ok d.
Proof.
  unfold Util.derived_min_date.
  destruct (strptime_ymd_cases "2050-12-12") as [[d0 E0]|E0];
    [rewrite E0 | vm_compute in E0; discriminate E0].
  destruct (Util.truthy current_test_date
            && PyStr.contains "Yes" current_test_date); [eauto|].
  destruct (strptime_long current_test_date) as [dt|]; [|eauto].
  destruct (PyDate.minus_one_day dt); eauto.
Qed.

(** X15. A before-date or an after-date that is given but is not a
    YYYY-MM-DD date makes every scan end with the not-found result before
    the page is read at all. *)
Theorem malformed_bound_finds_nothing
    (strptime_long : string -> option PyDate.datetime) (grid : option (list Cell))
    (before_date after_date : string) (exclusion : list string)
    (current_test_date formatted : string) :
  (Util.truthy before_date = true /\ String.eqb before_date "None" = false
   /\ PyDate.strptime_ymd before_date = Raise ValueError)
  \/ (Util.truthy after_date = true /\ String.eqb after_date "None" = false
      /\ PyDate.strptime_ymd after_date = Raise ValueError) ->
  Util.scan_for_preferred_tests strptime_long grid before_date after_date
    exclusion current_test_date formatted = (Ok Util.NotFound, []).
Proof.
  intros H.
  assert (B : exists e,
             Util.scan_bounds strptime_long before_date after_date
               current_test_date = Raise e).
  { unfold Util.scan_bounds.
    destruct (derived_min_date_returns strptime_long current_test_date)
      as [d ->]. simpl.
    destruct H as [[T [N P]]|[T [N P]]].
    - rewrite T, N, P. simpl. eauto.
    - destruct (Util.truthy before_date && negb (String.eqb before_date "None")).
      + destruct (strptime_ymd_cases before_date) as [[b ->]| ->]; simpl;
          [|eauto].
        unfold Util.parse_or_default. rewrite T, N, P. simpl. eauto.
      + simpl. unfold Util.parse_or_default. rewrite T, N, P. simpl. eauto. }
  destruct B as [e B].
  unfold Util.scan_for_preferred_tests, Util.scan_body. rewrite B.
  destruct e; reflexivity.
Qed.

Lemma malformed_bound_finds_nothing_witness :
  Util.scan_for_preferred_tests Fixtures.no_long_date (Some Fixtures.march_grid)
    "01/06/2025" "2025-01-01" ["2025-03-10"] "Yes" ""
  = (Ok Util.NotFound, []).
Proof.
  apply (malformed_bound_finds_nothing Fixtures.no_long_date
           (Some Fixtures.march_grid) "01/06/2025" "2025-01-01"
           ["2025-03-10"] "Yes" "").
  left. repeat split; vm_compute; reflexivity.
Defined.





End ScannerMore.

(* ------------------------------------------------------------------ *)
(** ** More on the session *)
(* ------------------------------------------------------------------ *)

Module SessionMore.
Import MonadFacts MoreSpec.

Ltac returns_step :=
  lazymatch goal with
  | |- on_return _ (bind _ _ _) =>
      apply SessionTheorems.on_return_bind; intros ? ? ? _
  | |- on_return _ (try_except _ _ _) =>
      apply SessionTheorems.on_return_try; [| intros ? ?]
  | |- on_return _ ((if ?b then _ else _) _) => destruct b
  | |- on_return _ ((match ?x with _ => _ end) _) => destruct x
  | |- on_return _ (ret _ _) => exact I
  | |- on_return _ (raise _ _) => exact I
  end.

Section WithWorld.
Variable w : World.
Variable strptime_long : string -> option PyDate.datetime.
Variable AUTO_BOOK_TEST : bool.
Variable FORMATTED_CURRENT_TEST_DATE : string.

Lemma set_active_just_assigned b bot s :
  on_return just_assigned (Main.set_active b bot s).
Proof. unfold on_return, just_assigned. simpl. eauto. Qed.

Lemma login_summary_just_assigned bot s :
  on_return just_assigned_early (Main.login_summary w bot s).
Proof.
  unfold Main.login_summary. cbv zeta.
  do 3 returns_step. returns_step.
  - unfold on_return, just_assigned_early, just_assigned. simpl. eauto.
  - repeat returns_step.
Qed.

Lemma login_final_just_assigned bot s :
  on_return just_assigned (Main.login_final w bot s).
Proof.
  unfold Main.login_final. returns_step.
  destruct (Main.is_failure_state _); apply set_active_just_assigned.
Qed.

(** X17. Whenever [login] returns, its last effect is an assignment to
    [self.active], and the flag of the bot is the value assigned: [login]
    never returns with a flag left over from before. *)
Theorem login_always_assigns_active
    (fuel : nat) (bot bot' : Main.DVSABot) (s s' : State) :
  Main.login w fuel bot s = (Ok bot', s') ->
  exists rest, trace s' = SetActive (Main.active bot') :: rest.
Proof.
  intros E.
  assert (L : on_return just_assigned (Main.login w fuel bot s)).
  { unfold Main.login. returns_step.
    destruct (PyStr.contains "loginError=true" _);
      [apply set_active_just_assigned|].
    apply SessionTheorems.on_return_try;
      [|intros; apply set_active_just_assigned].
    apply SessionTheorems.on_return_bind. intros r t0 t1 Er.
    pose proof (login_summary_just_assigned bot t0) as R.
    rewrite Er in R. unfold on_return in R. simpl in R.
    destruct r as [b|b].
    - exact R.
    - apply SessionTheorems.on_return_try;
        [apply login_final_just_assigned|].
      intros; apply set_active_just_assigned. }
  rewrite E in L. exact L.
Qed.

Lemma set_active_same_but_flag b bot s :
  on_return (fun b' _ => same_but_flag bot b') (Main.set_active b bot s).
Proof. unfold on_return, same_but_flag. simpl. auto. Qed.

Lemma change_centre_same_but_flag bot centre s :
  on_return (fun r _ => match r with
                        | Some b => same_but_flag bot b
                        | None => True
                        end)
    (Main.change_centre w bot centre s).
Proof.
  unfold Main.change_centre.
  apply SessionTheorems.on_return_try.
  - repeat returns_step.
  - intros e s1. destruct e;
      try (unfold on_return, same_but_flag; simpl; auto; fail).
    returns_step. destruct (Main.is_failure_state _).
    + unfold on_return, same_but_flag. simpl. auto.
    + unfold on_return, same_but_flag. simpl. auto.
Qed.

(** X18. A search by an active bot with a non-empty centre list hands
    back, whenever it returns, the same preferences and the centre index
    moved on by one, modulo the number of centres; the index handed back is
    always within the list. *)
Theorem search_and_book_rotates_centre
    (bot bot' : Main.DVSABot) (s s' : State) :
  Main.active bot = true ->
  Main.center (Main.preferences bot) <> [] ->
  Main.search_and_book w strptime_long AUTO_BOOK_TEST
    FORMATTED_CURRENT_TEST_DATE bot s = (Ok bot', s') ->
  Main.preferences bot' = Main.preferences bot
  /\ Main.current_centre_index bot'
     = ((Main.current_centre_index bot + 1)
        mod length (Main.center (Main.preferences bot)))%nat
  /\ (Main.current_centre_index bot'
      < length (Main.center (Main.preferences bot)))%nat.
Proof.
  intros A C E. revert E.
  unfold Main.search_and_book. rewrite A. cbv zeta. cbn [negb].
  destruct (Main.center (Main.preferences bot)) as [|c0 cs] eqn:Cs;
    [contradiction|].
  set (bot1 := {| Main.preferences := _; Main.active := _;
                  Main.current_centre_index := _ |}).
  intros E.
  match type of E with
  | ?m s = _ => assert (L : on_return (fun b' _ => same_but_flag bot1 b') (m s))
  end.
  { assert (Ret : forall st, on_return (fun b' _ => same_but_flag bot1 b')
                               (ret bot1 st))
      by (intros st; split; reflexivity).
    returns_step.
    apply SessionTheorems.on_return_bind. intros r t0 t1 Er.
    pose proof (change_centre_same_but_flag bot1 a t0) as R.
    rewrite Er in R. unfold on_return in R. simpl in R.
    destruct r as [b|]; [exact R|].
    repeat first [ apply Ret | apply set_active_same_but_flag
                 | apply SessionTheorems.on_return_bind; intros ? ? ? _
                 | match goal with
                   | |- on_return _ ((if ?b then _ else _) _) => destruct b
                   | |- on_return _ ((match ?x with _ => _ end) _) => destruct x
                   end ].
    exact s. }
  rewrite E in L. destruct L as [P I]. unfold bot1 in P, I.
  cbn [Main.preferences Main.current_centre_index] in P, I.
  repeat split; auto. rewrite I.
  apply Nat.mod_upper_bound. discriminate.
Qed.

(** X19. An exception escapes a reschedule attempt only from the
    top-level handler's own screenshot, and only when that screenshot
    fails with something else than a [WebDriverException], the one
    class of exceptions [capture_screenshot] catches: the screenshot is
    then the last event of the attempt, neither [driver.quit()] nor the
    30 second sleep follows.  Whenever failing screenshots raise a
    [WebDriverException], no exception escapes the attempt. *)
Theorem reschedule_attempt_escapes_by_screenshot
    (fuel : nat) (config_data : Main.Preferences) (s : State) :
  let out := Main.reschedule_attempt w strptime_long AUTO_BOOK_TEST
               FORMATTED_CURRENT_TEST_DATE fuel config_data s in
  (forall e,
      fst out = Raise e ->
      Util.is_webdriver_exception e = false
      /\ exists rest t,
           trace (snd out) = Screenshot "top_level_exception" :: rest
           /\ clock (snd out) = S t
           /\ w_fault w t = true
           /\ w_screenshot_error w t = e)
  /\ ((forall t, w_fault w t = true ->
                 Util.is_webdriver_exception (w_screenshot_error w t) = true) ->
      forall e, fst out <> Raise e).
Proof.
  intros out.
  assert (Escape : forall e,
      fst out = Raise e ->
      Util.is_webdriver_exception e = false
      /\ exists rest t,
           trace (snd out) = Screenshot "top_level_exception" :: rest
           /\ clock (snd out) = S t
           /\ w_fault w t = true
           /\ w_screenshot_error w t = e).
  { subst out. intros e. unfold Main.reschedule_attempt, try_except.
    match goal with
    | |- context [match ?m s with _ => _ end] => destruct (m s) as [[a|e0|] s1]
    end; try discriminate.
    assert (Handler :
        fst ((Util.capture_screenshot w "top_level_exception" ;;
              try_except (driver_quit w) (fun _ => ret tt) ;;
              sleep 30) s1) = Raise e ->
        Util.is_webdriver_exception e = false
        /\ exists rest t,
             trace (snd ((Util.capture_screenshot w "top_level_exception" ;;
                          try_except (driver_quit w) (fun _ => ret tt) ;;
                          sleep 30) s1))
             = Screenshot "top_level_exception" :: rest
             /\ clock (snd ((Util.capture_screenshot w "top_level_exception" ;;
                             try_except (driver_quit w) (fun _ => ret tt) ;;
                             sleep 30) s1)) = S t
             /\ w_fault w t = true
             /\ w_screenshot_error w t = e).
    { unfold Util.capture_screenshot, get_screenshot_as_file, driver_quit,
        try_except, bind, command, sleep, emit, ret, raise.
      cbn [clock draws trace].
      destruct (w_fault w (clock s1)) eqn:F.
      - destruct (w_screenshot_error w (clock s1)) eqn:X; simpl;
          try (destruct (w_fault w (S (clock s1))); discriminate);
          intros H; inversion H; subst e;
          (split; [reflexivity|]);
          exists (trace s1), (clock s1); repeat split; assumption.
      - cbn [fst snd clock draws trace].
        destruct (w_fault w (S (clock s1))); discriminate. }
    destruct e0; try exact Handler. discriminate. }
  split; [exact Escape|].
  intros W e H. destruct (Escape e H) as [N [rest [t [_ [_ [F X]]]]]].
  specialize (W t F). rewrite X in W. congruence.
Qed.

End WithWorld.

Lemma login_always_assigns_active_witness :
  exists rest,
    trace (snd (Main.login Fixtures.oops_world 5
                  (Main.new_bot SessionSpec.sample_preferences)
                  Fixtures.start))
    = SetActive false :: rest.
Proof.
  apply (login_always_assigns_active Fixtures.oops_world 5
           (Main.new_bot SessionSpec.sample_preferences)
           (Main.new_bot SessionSpec.sample_preferences)
           Fixtures.start).
  vm_compute. reflexivity.
Defined.

Lemma search_and_book_rotates_centre_witness :
  exists s',
    Main.search_and_book Fixtures.plain_world Fixtures.no_long_date false ""
      two_centre_bot Fixtures.start
    = (Ok {| Main.preferences := Main.preferences two_centre_bot;
             Main.active := true;
             Main.current_centre_index := 1 |}, s')
    /\ Main.center (Main.preferences two_centre_bot) = ["Halifax"; "Leeds"]
    /\ Main.current_centre_index two_centre_bot = 0%nat
    /\ Main.current_centre_index
         {| Main.preferences := Main.preferences two_centre_bot;
            Main.active := true;
            Main.current_centre_index := 1 |}
       = ((Main.current_centre_index two_centre_bot + 1)
          mod length (Main.center (Main.preferences two_centre_bot)))%nat.
Proof.
  exists (snd (Main.search_and_book Fixtures.plain_world Fixtures.no_long_date
                 false "" two_centre_bot Fixtures.start)).
  assert (E : Main.search_and_book Fixtures.plain_world Fixtures.no_long_date
                false "" two_centre_bot Fixtures.start
              = (Ok {| Main.preferences := Main.preferences two_centre_bot;
                       Main.active := true;
                       Main.current_centre_index := 1 |},
                 snd (Main.search_and_book Fixtures.plain_world
                        Fixtures.no_long_date false "" two_centre_bot
                        Fixtures.start)))
    by (vm_compute; reflexivity).
  split; [exact E|]. split; [reflexivity|]. split; [reflexivity|].
  destruct (search_and_book_rotates_centre Fixtures.plain_world
              Fixtures.no_long_date false "" two_centre_bot
              {| Main.preferences := Main.preferences two_centre_bot;
                 Main.active := true;
                 Main.current_centre_index := 1 |}
              Fixtures.start
              (snd (Main.search_and_book Fixtures.plain_world
                      Fixtures.no_long_date false "" two_centre_bot
                      Fixtures.start)))
    as [_ [H _]].
  - reflexivity.
  - discriminate.
  - exact E.
  - exact H.
Defined.

Lemma reschedule_attempt_escapes_by_screenshot_witness :
  Util.is_webdriver_exception OtherException = false
  /\ exists rest t,
       trace (snd (Main.reschedule_attempt dead_driver_world
                     Fixtures.no_long_date false "" 5
                     SessionSpec.sample_preferences Fixtures.start))
       = Screenshot "top_level_exception" :: rest
       /\ clock (snd (Main.reschedule_attempt dead_driver_world
                        Fixtures.no_long_date false "" 5
                        SessionSpec.sample_preferences Fixtures.start)) = S t
       /\ w_fault dead_driver_world t = true
       /\ w_screenshot_error dead_driver_world t = OtherException.
Proof.
  destruct (reschedule_attempt_escapes_by_screenshot dead_driver_world
              Fixtures.no_long_date false "" 5 SessionSpec.sample_preferences
              Fixtures.start) as [H _].
  apply (H OtherException). vm_compute. reflexivity.
Defined.

Lemma list_ascii_of_string_app (a b : string) :
  list_ascii_of_string (a ++ b)
  = (list_ascii_of_string a ++ list_ascii_of_string b)%list.
Proof. induction a as [|c a IH]; simpl; [reflexivity | now rewrite IH]. Qed.

Section Credentials.
Variable w : World.
Hypothesis no_fault : forall t, w_fault w t = false.

(** Typing into a box that is there, in front of a driver that does not
    fail. *)
Lemma input_text_box_found box_id text s :
  w_present w (clock s) (ById box_id) = true ->
  exists s',
    Util.input_text_box w box_id text s = (Ok tt, s')
    /\ rev (keys_sent (trace s'))
       = (rev (keys_sent (trace s)) ++ list_ascii_of_string text)%list.
Proof.
  intros P.
  assert (Efind : find_element w (ById box_id) s
                  = (Ok (ById box_id),
                     {| clock := S (clock s); draws := draws s;
                        trace := Find (ById box_id) :: trace s |}))
    by (unfold find_element, command; rewrite no_fault, P; reflexivity).
  unfold Util.input_text_box, try_except.
  rewrite (bind_ok _ _ _ _ _ Efind).
  match goal with
  | |- context [Util.type_chars w ?b text ?st] =>
      destruct (InputFacts.type_chars_types w b text st) as [s' [E K]];
      [intros; apply no_fault|]
  end.
  exists s'. rewrite E. split; [reflexivity|].
  rewrite K. cbn [trace keys_sent].
  rewrite rev_app_distr, rev_involutive. reflexivity.
Qed.

(** X20. On a login page that shows both credential boxes, and in front
    of a driver that does not fail, [enter_reschedule_credentials] types
    the licence number and then the booking reference, character by
    character and nothing else, whether or not the login button is
    found. *)
Theorem credentials_are_typed_in_order (bot : Main.DVSABot) (s : State) :
  (forall t, w_present w t (ById "driving-licence-number") = true) ->
  (forall t, w_present w t (ById "application-reference-number") = true) ->
  exists s',
    Main.enter_reschedule_credentials w bot false s = (Ok tt, s')
    /\ rev (keys_sent (trace s'))
       = (rev (keys_sent (trace s))
          ++ list_ascii_of_string
               (Main.licence (Main.preferences bot)
                ++ Main.booking (Main.preferences bot)))%list.
Proof.
  intros P1 P2. unfold Main.enter_reschedule_credentials.
  destruct (input_text_box_found "driving-licence-number"
              (Main.licence (Main.preferences bot)) s (P1 _))
    as [s1 [E1 K1]].
  rewrite (bind_ok _ _ _ _ _ E1).
  destruct (input_text_box_found "application-reference-number"
              (Main.booking (Main.preferences bot)) s1 (P2 _))
    as [s2 [E2 K2]].
  rewrite (bind_ok _ _ _ _ _ E2).
  rewrite (bind_ok _ _ _ _ _ (LoopFacts.random_sleep_state _ _ _ _)).
  unfold try_except, Main.find_and_click, bind, find_element, click, command.
  cbn [clock draws trace]. rewrite !no_fault.
  destruct (w_present w (clock s2) (ById "booking-login"));
    rewrite ?no_fault; cbn [Util.random_sleep];
    (eexists; split; [reflexivity|]);
    cbn [trace keys_sent]; rewrite K2, K1, list_ascii_of_string_app;
    now rewrite app_assoc.
Qed.

End Credentials.

Lemma credentials_are_typed_in_order_witness :
  exists s',
    Main.enter_reschedule_credentials login_form_world
      (Main.new_bot SessionSpec.sample_preferences) false Fixtures.start
    = (Ok tt, s')
    /\ rev (keys_sent (trace s'))
       = list_ascii_of_string "SMITH901010J99AB12345678".
Proof.
  apply (credentials_are_typed_in_order login_form_world
           (fun _ => eq_refl) (Main.new_bot SessionSpec.sample_preferences)
           Fixtures.start); intros t; reflexivity.
Defined.

End SessionMore.

(* ------------------------------------------------------------------ *)
(** ** When the browser is closed *)
(* ------------------------------------------------------------------ *)

Module QuitFacts.
Import MonadFacts TraceFacts MoreSpec.

Section WithWorld.
Variable w : World.
Variable strptime_long : string -> option PyDate.datetime.
Variable AUTO_BOOK_TEST : bool.
Variable FORMATTED_CURRENT_TEST_DATE : string.

Ltac open_step :=
  first
    [ emits_step
    | progress unfold Clicker._perform_click, Util.random_sleep,
        Util.capture_screenshot, Util.send_text_available,
        Util.send_text_test_found, Util.input_text_box,
        Util.check_firewall_and_queue, Util.solve_captcha,
        Util.click_candidate, Util.after_candidate, Util.attempt_try,
        Util.attempt_retry, Util.after_confirm_click, Util.confirm_changes,
        Util.book_test_flow, Main.find_and_click,
        Main.enter_reschedule_credentials, Main.handle_queue_and_firewall,
        Main.login_credentials, Main.login_summary, Main.login_final,
        Main.login, Main.select_and_book, Main.change_centre,
        Main.search_and_book, Main.set_active ].

Ltac stays_open := repeat open_step.

Lemma open_hardware_click_range top_right bottom_left :
  emits not_quit (Clicker.hardware_click_range w top_right bottom_left).
Proof.
  unfold Clicker.hardware_click_range. destruct top_right. stays_open.
Qed.
Hint Resolve open_hardware_click_range : emits.

Lemma open_type_chars box text : emits not_quit (Util.type_chars w box text).
Proof. induction text as [|c text IH]; simpl; stays_open. Qed.
Hint Resolve open_type_chars : emits.

Lemma open_scan_on_driver b a u c f :
  emits not_quit (Util.scan_on_driver w strptime_long b a u c f).
Proof.
  intros s. unfold Util.scan_on_driver.
  destruct (Util.scan_for_preferred_tests _ _ _ _ _ _ _) as [r log].
  destruct (Util.reads_done _ _ _) as [failed done]. simpl.
  eexists. split; [reflexivity|].
  apply Forall_rev, Forall_map, Forall_forall. intros x _.
  destruct x; exact I.
Qed.
Hint Resolve open_scan_on_driver : emits.

Lemma open_booking_loop n sm ctr cbl clicked :
  emits not_quit (Util.booking_loop w n sm ctr cbl clicked).
Proof.
  revert clicked. induction n as [|n IH]; intros clicked; simpl; stays_open.
Qed.
Hint Resolve open_booking_loop : emits.

Lemma open_queue_loop fuel loop_count :
  emits not_quit (Main.queue_loop w fuel loop_count).
Proof.
  revert loop_count. induction fuel as [|fuel IH]; intros loop_count; simpl;
    stays_open.
Qed.
Hint Resolve open_queue_loop : emits.

Lemma open_goto_month attempts month :
  emits not_quit (Main.goto_month w attempts month).
Proof. induction attempts as [|n IH]; simpl; stays_open. Qed.
Hint Resolve open_goto_month : emits.

Lemma open_login fuel bot : emits not_quit (Main.login w fuel bot).
Proof. stays_open. Qed.

Lemma open_search_and_book bot :
  emits not_quit
    (Main.search_and_book w strptime_long AUTO_BOOK_TEST
       FORMATTED_CURRENT_TEST_DATE bot).
Proof. stays_open. Qed.

(** X21. [driver.quit()] is called at most once in an attempt of
    [run_reschedule_flow], and only by the top-level handler: either the
    attempt never closes its browser, or its last three events are the
    screenshot "top_level_exception", [driver.quit()] and the 30 second
    sleep, with no [driver.quit()] before them.  An attempt whose trace
    shows no top-level screenshot has left its browser open. *)
Theorem browser_quit_only_by_top_level_handler
    (fuel : nat) (config_data : Main.Preferences) (s : State) :
  exists new,
    trace (snd (Main.reschedule_attempt w strptime_long AUTO_BOOK_TEST
                  FORMATTED_CURRENT_TEST_DATE fuel config_data s))
    = (new ++ trace s)%list
    /\ (~ In Quit new
        \/ exists before,
             new = Sleep 30 :: Quit :: Screenshot "top_level_exception"
                     :: before
             /\ ~ In Quit before).
Proof.
  assert (Q : forall l, Forall not_quit l -> ~ In Quit l).
  { intros l F I. rewrite Forall_forall in F. exact (F _ I). }
  unfold Main.reschedule_attempt, try_except.
  match goal with
  | |- context [match ?body s with _ => _ end] =>
      assert (B : emits not_quit body)
  end.
  { apply emits_bind; [apply open_login | intros bot _ _ _].
    apply emits_bind; [| intros; stays_open].
    destruct (Main.active bot); [apply open_search_and_book | apply emits_ret]. }
  destruct (B s) as [n1 [E1 F1]].
  match goal with
  | |- context [match ?body s with _ => _ end] =>
      destruct (body s) as [[a|e|] s1]
  end; cbn [snd] in E1.
  - exists n1. split; [exact E1 | left; exact (Q _ F1)].
  - assert (H :
        trace (snd ((Util.capture_screenshot w "top_level_exception" ;;
                     try_except (driver_quit w) (fun _ => ret tt) ;;
                     sleep 30) s1))
        = Sleep 30 :: Quit :: Screenshot "top_level_exception" :: trace s1
        \/ trace (snd ((Util.capture_screenshot w "top_level_exception" ;;
                        try_except (driver_quit w) (fun _ => ret tt) ;;
                        sleep 30) s1))
           = Screenshot "top_level_exception" :: trace s1).
    { unfold Util.capture_screenshot, get_screenshot_as_file, driver_quit,
        try_except, bind, command, sleep, emit, ret, raise.
      cbn [clock draws trace].
      destruct (w_fault w (clock s1)); cbn [clock draws trace fst snd].
      - destruct (w_screenshot_error w (clock s1)); simpl;
          try (right; reflexivity);
          left; destruct (w_fault w (S (clock s1))); reflexivity.
      - left. destruct (w_fault w (S (clock s1))); reflexivity. }
    assert (Handled : exists new,
        trace (snd ((Util.capture_screenshot w "top_level_exception" ;;
                     try_except (driver_quit w) (fun _ => ret tt) ;;
                     sleep 30) s1)) = (new ++ trace s)%list
        /\ (~ In Quit new
            \/ exists before,
                 new = Sleep 30 :: Quit :: Screenshot "top_level_exception"
                         :: before
                 /\ ~ In Quit before)).
    { destruct H as [H | H].
      - exists (Sleep 30 :: Quit :: Screenshot "top_level_exception" :: n1).
        split; [rewrite H, E1; reflexivity|].
        right. exists n1. split; [reflexivity | exact (Q _ F1)].
      - exists (Screenshot "top_level_exception" :: n1).
        split; [rewrite H, E1; reflexivity|].
        left. intros [D | I]; [discriminate | exact (Q _ F1 I)]. }
    destruct e; try exact Handled.
    exists (Sleep 30 :: n1). split.
    + unfold sleep, emit. cbn [snd trace]. rewrite E1. reflexivity.
    + left. intros [D | I]; [discriminate | exact (Q _ F1 I)].
  - exists n1. split; [exact E1 | left; exact (Q _ F1)].
Qed.

End WithWorld.

End QuitFacts.

(* ------------------------------------------------------------------ *)
(** ** Paging the calendar back *)
(* ------------------------------------------------------------------ *)

Module PagingFacts.
Import MonadFacts TraceFacts MoreSpec.
Local Open Scope nat_scope.

Lemma adds_at_most_bind p k1 k2 {A B} (m : M A) (f : A -> M B) :
  adds_at_most p k1 m ->
  (forall a, adds_at_most p k2 (f a)) ->
  adds_at_most p (k1 + k2) (bind m f).
Proof.
  intros Hm Hf s. unfold bind. specialize (Hm s).
  destruct (m s) as [[a|e|] s1]; cbn [snd] in *; try lia.
  specialize (Hf a s1). lia.
Qed.

Lemma adds_at_most_try p k1 k2 {A} (m : M A) (h : exn -> M A) :
  adds_at_most p k1 m ->
  (forall e, adds_at_most p k2 (h e)) ->
  adds_at_most p (k1 + k2) (try_except m h).
Proof.
  intros Hm Hh s. unfold try_except. specialize (Hm s).
  destruct (m s) as [[a|e|] s1]; cbn [snd] in *; try lia.
  specialize (Hh e s1). lia.
Qed.

Lemma adds_at_most_weaken p k k' {A} (m : M A) :
  k <= k' -> adds_at_most p k m -> adds_at_most p k' m.
Proof. intros L H s. specialize (H s). lia. Qed.

Lemma adds_at_most_ret p {A} (a : A) : adds_at_most p 0 (ret a).
Proof. intros s. unfold ret. cbn [snd]. lia. Qed.

Lemma adds_at_most_raise p {A} (e : exn) : adds_at_most p 0 (@raise A e).
Proof. intros s. unfold raise. cbn [snd]. lia. Qed.

Lemma adds_at_most_command p {A} w e err (k : nat -> res A) :
  adds_at_most p 1 (command w e err k).
Proof.
  intros s. unfold command, count_event.
  destruct (w_fault w (clock s)); cbn [snd trace filter];
    destruct (p e); cbn [length]; lia.
Qed.

(** Computations whose events are all of another kind add none. *)
Lemma adds_at_most_emits {A} (m : M A) :
  emits not_click m -> adds_at_most is_prev_click 0 m.
Proof.
  intros H s. destruct (H s) as [new [E F]]. unfold count_event.
  rewrite E, filter_app, length_app.
  assert (Z : filter is_prev_click new = []).
  { clear E. induction F as [|e l He _ IH]; simpl; [reflexivity|].
    destruct e; try exact IH. destruct He. }
  rewrite Z. simpl. lia.
Qed.

Section WithWorld.
Variable w : World.

Lemma random_sleep_pages_nothing base max_extra :
  adds_at_most is_prev_click 0 (Util.random_sleep w base max_extra).
Proof.
  apply adds_at_most_emits. unfold Util.random_sleep. emits_auto.
Qed.

Lemma find_and_click_pages_once l :
  adds_at_most is_prev_click 1 (Main.find_and_click w l).
Proof.
  unfold Main.find_and_click.
  apply (adds_at_most_bind _ 0 1).
  - apply adds_at_most_emits. emits_auto.
  - intros el. apply adds_at_most_command.
Qed.

(** X22. Paging the calendar back to the month of the date found clicks
    the "previous month" arrow at most once per round of the
    [while attempts < 12] loop, whatever the page shows and whichever
    command fails: with [attempts] rounds left, at most [attempts]
    clicks. *)
Theorem goto_month_clicks_bounded (attempts : nat) (month : string) :
  adds_at_most is_prev_click attempts (Main.goto_month w attempts month).
Proof.
  induction attempts as [|n IH]; simpl.
  - apply adds_at_most_ret.
  - apply (adds_at_most_bind _ 0 (S n));
      [apply adds_at_most_emits; emits_auto | intros el].
    apply (adds_at_most_bind _ 0 (S n));
      [apply adds_at_most_emits; emits_auto | intros current_month].
    destruct (String.eqb month current_month).
    + apply (adds_at_most_weaken _ 0); [lia | apply adds_at_most_ret].
    + apply (adds_at_most_bind _ 1 n).
      * apply (adds_at_most_try _ 1 0).
        -- apply (adds_at_most_bind _ 1 0);
             [apply find_and_click_pages_once
             | intros; apply adds_at_most_ret].
        -- intros e. destruct e;
             first [apply adds_at_most_ret | apply adds_at_most_raise].
      * intros moved. destruct moved.
        -- apply (adds_at_most_bind _ 0 n);
             [apply random_sleep_pages_nothing | intros; exact IH].
        -- apply (adds_at_most_weaken _ 0); [lia | apply adds_at_most_ret].
Qed.

End WithWorld.

(** The bound is reached on a calendar that never shows the month asked
    for. *)
Example goto_month_bound_reached :
  count_event is_prev_click
    (snd (Main.goto_month stuck_calendar 12 "January" Fixtures.start))
  = 12%nat.
Proof. vm_compute. reflexivity. Qed.

End PagingFacts.
